(** * V4L2 device probing and monitoring (sys/v4l2/gstv4l2devicemonitor.c)

    A shallow embedding of the device monitor of the video4linux2 plugin:
    the probe of one device node, the static enumeration of /dev entries,
    the udev hotplug callback, and the start/stop protocol between the
    thread that calls [start]/[stop] and the monitor thread.

    Sequential code is written in a small state monad over the monitor's
    device list, the object allocator and an event log; the two threads
    are a labelled transition system whose steps are the statements of
    [gst_v4l2_device_monitor_start], [gst_v4l2_device_monitor_stop] and
    [monitor_thread].  Two systems are built on it: one with the part
    of stop that belongs to the parent class, one with a second thread
    of the application that runs stop while the first is in start. *)

From Stdlib Require Import List Ascii String ZArith Bool Arith Lia DecimalString
  Permutation.
Import ListNotations.
Open Scope string_scope.
Open Scope list_scope.

Set Implicit Arguments.

(* ================================================================== *)
(** ** Constants of the system headers *)

Module Hdr.

(** <sys/stat.h>: [S_IFMT] = 0170000, [S_IFCHR] = 0020000. *)
Definition S_IFMT : Z := 61440.
Definition S_IFCHR : Z := 8192.
Definition S_ISCHR (m : Z) : bool := Z.eqb (Z.land m S_IFMT) S_IFCHR.

(** <linux/videodev2.h> *)
Definition V4L2_CAP_VIDEO_CAPTURE : Z := 1.
Definition V4L2_CAP_VIDEO_OUTPUT : Z := 2.
Definition V4L2_BUF_TYPE_VIDEO_CAPTURE : Z := 1.
Definition V4L2_BUF_TYPE_VIDEO_OUTPUT : Z := 2.

(** The C test [if (flags & MASK)]. *)
Definition has_flag (flags mask : Z) : bool := negb (Z.eqb (Z.land flags mask) 0).

End Hdr.
Export Hdr.

(* ================================================================== *)
(** ** Data model *)

(** [GstCaps]: either ANY or a list of format structures. *)
Inductive GstCaps :=
| CapsAny
| CapsList (structures : list string).

Definition gst_caps_is_empty (c : GstCaps) : bool :=
  match c with
  | CapsList [] => true
  | _ => false
  end.

(** [GstV4l2DeviceType] of gstv4l2devicemonitor.h (the header is not
    among the sources; the three values are those the code names). *)
Inductive GstV4l2DeviceType :=
| GST_V4L2_DEVICE_TYPE_INVALID
| GST_V4L2_DEVICE_TYPE_SOURCE
| GST_V4L2_DEVICE_TYPE_SINK.

(** [GstV4l2Device].  [obj] is the address [g_object_new] returned, the
    identity of the object; [display_name], [caps] and [klass] are the
    properties of the parent [GstDevice]; [syspath] is [None] for the
    NULL pointer the object is created with. *)
Record GstV4l2Device := mkDevice {
  obj : nat;
  device_path : string;
  display_name : string;
  caps : GstCaps;
  klass : string;
  element : string;
  syspath : option string
}.

Definition set_syspath (d : GstV4l2Device) (s : option string) : GstV4l2Device :=
  mkDevice (obj d) (device_path d) (display_name d) (caps d) (klass d)
           (element d) s.

(** The classification a record carries, read back from the element
    factory name [gst_v4l2_device_create_element] uses. *)
Definition classification (d : GstV4l2Device) : GstV4l2DeviceType :=
  if String.eqb (element d) "v4l2src" then GST_V4L2_DEVICE_TYPE_SOURCE
  else if String.eqb (element d) "v4l2sink" then GST_V4L2_DEVICE_TYPE_SINK
  else GST_V4L2_DEVICE_TYPE_INVALID.

(** What the operating system shows for one path that [stat] accepts. *)
Record V4l2Node := mkNode {
  st_mode : Z;                         (* struct stat, st_mode *)
  can_open : bool;                     (* gst_v4l2_open succeeds *)
  capabilities : Z;                    (* vcap.capabilities *)
  card : string;                       (* vcap.card *)
  format_caps : Z -> option GstCaps    (* gst_v4l2_object_get_caps, by
                                          buffer type; None is NULL *)
}.

(** The device-node namespace: [None] where [stat] returns -1. *)
Definition World := string -> option V4l2Node.

(** [GstV4l2Object] as far as the probe uses it. *)
Record GstV4l2Object := mkObject {
  videodev : string;
  buf_type : Z;
  vcap_capabilities : Z;
  vcap_card : string
}.

(** [GUdevDevice]: the accessors the monitor calls. *)
Record GUdevDevice := mkUdev {
  udev_device_file : string;
  udev_sysfs_path : string;
  udev_property : string -> option string;
  udev_property_as_int : string -> Z
}.

(* ================================================================== *)
(** ** State, events and the monad *)

Inductive Ev :=
| EvStat (path : string)
| EvObjectNew (path : string)
| EvOpen (path : string) (ok : bool)
| EvGetCaps (got : bool)      (* a reference is returned when [got] *)
| EvCapsUnref
| EvClose
| EvObjectDestroy
| EvDeviceNew (o : nat)
| EvLock
| EvUnlock
| EvDeviceAdd (o : nat)       (* gst_device_monitor_device_add *)
| EvDeviceRemove (o : nat)    (* gst_device_monitor_device_remove *)
| EvWarning (action : string).

(** [devices] is the list of the parent [GstDeviceMonitor]; [next_obj]
    the next address [g_object_new] hands out; [log] the events so far,
    oldest first. *)
Record St := mkSt {
  devices : list GstV4l2Device;
  next_obj : nat;
  log : list Ev
}.

(** A call returns, is stopped by a failed GLib assertion, or runs into
    undefined behaviour (a NULL pointer handed to [strcmp]). *)
Inductive Outcome (A : Type) :=
| Ret (a : A)
| Abort
| Fault.
Arguments Ret {A} a.
Arguments Abort {A}.
Arguments Fault {A}.

Definition M (A : Type) := St -> Outcome A * St.

Definition ret {A} (a : A) : M A := fun s => (Ret a, s).

Definition bind {A B} (m : M A) (k : A -> M B) : M B :=
  fun s =>
    match m s with
    | (Ret a, s') => k a s'
    | (Abort, s') => (Abort, s')
    | (Fault, s') => (Fault, s')
    end.

Notation "x <- m ;; k" := (bind m (fun x => k))
  (at level 61, m at next level, right associativity).
Notation "m ;;; k" := (bind m (fun _ => k))
  (at level 61, right associativity).

Definition emit (e : Ev) : M unit :=
  fun s => (Ret tt, mkSt (devices s) (next_obj s) (log s ++ [e])).

Definition g_assert_not_reached {A} : M A := fun s => (Abort, s).
Definition undefined_behaviour {A} : M A := fun s => (Fault, s).

Definition get_devices : M (list GstV4l2Device) := fun s => (Ret (devices s), s).
Definition put_devices (l : list GstV4l2Device) : M unit :=
  fun s => (Ret tt, mkSt l (next_obj s) (log s)).

(** [g_object_new]: a fresh address. *)
Definition g_object_new : M nat :=
  fun s => (Ret (next_obj s), mkSt (devices s) (S (next_obj s)) (log s)).

Definition result {A} (r : Outcome A * St) : Outcome A := fst r.
Definition final {A} (r : Outcome A * St) : St := snd r.

(* ================================================================== *)
(** ** Collaborators of the probe

    [stat] and the calls into v4l2_calls.c and gstv4l2object.c, which
    are not among the sources.  They answer from the device-node
    namespace [w], and each logs what it acquires or releases. *)

Section Probe.

Variable w : World.

(** [stat (path, &st)]: the mode of the node, [None] for -1. *)
Definition sys_stat (path : string) : M (option Z) :=
  emit (EvStat path) ;;;
  ret (option_map st_mode (w path)).

(** Modelled from the spec: [gst_v4l2_object_new] of gstv4l2object.c;
    the internal capability-query handle, created for a buffer type and
    a device path and not yet open. *)
Definition gst_v4l2_object_new (type : Z) (path : string) : M GstV4l2Object :=
  emit (EvObjectNew path) ;;;
  ret (mkObject path type 0 "").

(** Modelled from the spec: [gst_v4l2_open] of v4l2_calls.c,
    [open(path) -> handle | fail] followed by the capability query; on
    success the capability flags and the card name of the node are in
    [vcap]. *)
Definition gst_v4l2_open (o : GstV4l2Object) : M (option GstV4l2Object) :=
  match w (videodev o) with
  | Some n =>
      if can_open n then
        emit (EvOpen (videodev o) true) ;;;
        ret (Some (mkObject (videodev o) (buf_type o) (capabilities n) (card n)))
      else emit (EvOpen (videodev o) false) ;;; ret None
  | None => emit (EvOpen (videodev o) false) ;;; ret None
  end.

(** Modelled from the spec: [gst_v4l2_object_get_caps] of
    gstv4l2object.c, [query_format_caps(handle, mode) -> descriptor |
    empty], asked for the buffer type the object is targeted at; the
    caller owns the reference returned. *)
Definition gst_v4l2_object_get_caps (o : GstV4l2Object) : M (option GstCaps) :=
  let c := match w (videodev o) with
           | Some n => format_caps n (buf_type o)
           | None => None
           end in
  emit (EvGetCaps (match c with Some _ => true | None => false end)) ;;;
  ret c.

(** [gst_caps_unref]: the reference of the caller is given up. *)
Definition gst_caps_unref : M unit := emit EvCapsUnref.

(** Modelled from the spec: [gst_v4l2_close] of v4l2_calls.c,
    [close(handle)]. *)
Definition gst_v4l2_close (o : GstV4l2Object) : M unit := emit EvClose.

(** Modelled from the spec: [gst_v4l2_object_destroy] of
    gstv4l2object.c; the capability-query handle is freed. *)
Definition gst_v4l2_object_destroy (o : GstV4l2Object) : M unit :=
  emit EvObjectDestroy.

(* ================================================================== *)
(** ** gst_v4l2_device_new (l.438-471)

    The three [g_return_val_if_fail] tests are on pointers that are
    never NULL here: the path [stat] accepted, the name or the card
    array, and the caps tested at l.138. *)

Definition gst_v4l2_device_new (path name : string) (c : GstCaps)
    (type : GstV4l2DeviceType) : M GstV4l2Device :=
  ek <- match type with
        | GST_V4L2_DEVICE_TYPE_SOURCE => ret ("v4l2src", "Video/Source")
        | GST_V4L2_DEVICE_TYPE_SINK => ret ("v4l2sink", "Video/Sink")
        | GST_V4L2_DEVICE_TYPE_INVALID => g_assert_not_reached
        end ;;
  o <- g_object_new ;;
  emit (EvDeviceNew o) ;;;
  ret (mkDevice o path name c (snd ek) (fst ek) None).

(* ================================================================== *)
(** ** gst_v4l2_device_monitor_probe_device (l.97-158) *)

(** The labels [destroy:] and [close:] with what follows them. *)
Definition at_destroy (o : GstV4l2Object) (device : option GstV4l2Device)
    : M (option GstV4l2Device) :=
  gst_v4l2_object_destroy o ;;;
  ret device.

Definition at_close (o : GstV4l2Object) (device : option GstV4l2Device)
    : M (option GstV4l2Device) :=
  gst_v4l2_close o ;;;
  at_destroy o device.

Definition retarget (o : GstV4l2Object) (t : Z) : GstV4l2Object :=
  mkObject (videodev o) t (vcap_capabilities o) (vcap_card o).

Definition gst_v4l2_device_monitor_probe_device (path : string)
    (name : option string) : M (option GstV4l2Device) :=
  st <- sys_stat path ;;
  match st with
  | None => ret None                                       (* l.107 *)
  | Some mode =>
    if negb (S_ISCHR mode) then ret None                   (* l.110 *)
    else
      o0 <- gst_v4l2_object_new V4L2_BUF_TYPE_VIDEO_CAPTURE path ;;
      opened <- gst_v4l2_open o0 ;;
      match opened with
      | None => at_destroy o0 None                         (* l.116 *)
      | Some o1 =>
        let type1 :=
          if has_flag (vcap_capabilities o1) V4L2_CAP_VIDEO_CAPTURE
          then GST_V4L2_DEVICE_TYPE_SOURCE
          else GST_V4L2_DEVICE_TYPE_INVALID in
        let after_caps (o : GstV4l2Object) (type : GstV4l2DeviceType) :=
          c <- gst_v4l2_object_get_caps o ;;
          match c with
          | None => at_close o None                        (* l.138 *)
          | Some c =>
            if gst_caps_is_empty c then
              gst_caps_unref ;;; at_close o None           (* l.140 *)
            else
              d <- gst_v4l2_device_new path
                     (match name with
                      | Some n => n
                      | None => vcap_card o
                      end) c type ;;
              gst_caps_unref ;;;
              at_close o (Some d)
          end in
        if has_flag (vcap_capabilities o1) V4L2_CAP_VIDEO_OUTPUT then
          let o2 := retarget o1 V4L2_BUF_TYPE_VIDEO_OUTPUT in
          match type1 with
          | GST_V4L2_DEVICE_TYPE_INVALID =>
              after_caps o2 GST_V4L2_DEVICE_TYPE_SINK
          | _ => at_close o2 None                          (* l.133 *)
          end
        else after_caps o1 type1
      end
  end.

End Probe.

(* ================================================================== *)
(** ** gst_v4l2_device_monitor_probe (l.161-189) *)

Fixpoint foldM {A B : Type} (f : B -> A -> M B) (l : list A) (acc : B) : M B :=
  match l with
  | [] => ret acc
  | a :: l' => acc' <- f acc a ;; foldM f l' acc'
  end.

Definition dev_base : list string := ["/dev/video"; "/dev/v4l2/video"].

(** [g_strdup_printf ("%s%d", base, n)] for [n >= 0]. *)
Definition dev_name (base : string) (n : nat) : string :=
  String.append base (NilEmpty.string_of_uint (Nat.to_uint n)).

Definition probe_candidate (w : World) (n : nat)
    (devs : list GstV4l2Device) (base : string) : M (list GstV4l2Device) :=
  device <- gst_v4l2_device_monitor_probe_device w (dev_name base n) None ;;
  match device with
  | Some d => ret (d :: devs)              (* g_list_prepend *)
  | None => ret devs
  end.

Definition gst_v4l2_device_monitor_probe (w : World) : M (list GstV4l2Device) :=
  foldM (fun devs n => foldM (probe_candidate w n) dev_base devs)
        (seq 0 64) [].

(** The candidates in the order the two loops visit them. *)
Definition candidates : list string :=
  flat_map (fun n => map (fun base => dev_name base n) dev_base) (seq 0 64).

(* ================================================================== *)
(** ** The device list of the parent class

    [gst_device_monitor_device_add] and [gst_device_monitor_device_remove]
    belong to the parent class [GstDeviceMonitor] of the GStreamer core
    library; the monitor calls them and does not define them. *)

(** The list without the first record at address [o]. *)
Fixpoint remove_obj (o : nat) (l : list GstV4l2Device) : list GstV4l2Device :=
  match l with
  | [] => []
  | d :: l' => if Nat.eqb (obj d) o then l' else d :: remove_obj o l'
  end.

(** Modelled from the spec: [gst_device_monitor_device_add], the add
    notification path; the record joins the live registry.  Where in
    the list it goes is left open (the insertion order of the registry
    is not significant); here it is put in front, and what the hotplug
    path publishes is stated up to the order of the list. *)
Definition gst_device_monitor_device_add (d : GstV4l2Device) : M unit :=
  emit (EvDeviceAdd (obj d)) ;;;
  l <- get_devices ;;
  put_devices (d :: l).

(** Modelled from the spec: [gst_device_monitor_device_remove], the
    remove notification; that specific record (the object handed in,
    found by its address) is retracted from the registry, and the list
    stays as it is when the object is not in it. *)
Definition gst_device_monitor_device_remove (d : GstV4l2Device) : M unit :=
  emit (EvDeviceRemove (obj d)) ;;;
  l <- get_devices ;;
  put_devices (remove_obj (obj d) l).

(* ================================================================== *)
(** ** gst_v4l2_device_monitor_device_from_udev (l.193-214) *)

Definition udev_device_name (u : GUdevDevice) : option string :=
  match udev_property u "ID_V4L_PRODUCT" with
  | Some n => Some n
  | None =>
    match udev_property u "ID_MODEL_ENC" with
    | Some n => Some n
    | None => udev_property u "ID_MODEL"
    end
  end.

Definition gst_v4l2_device_monitor_device_from_udev (w : World)
    (u : GUdevDevice) : M (option GstV4l2Device) :=
  gstdev <- gst_v4l2_device_monitor_probe_device w (udev_device_file u)
              (udev_device_name u) ;;
  match gstdev with
  | Some d => ret (Some (set_syspath d (Some (udev_sysfs_path u))))
  | None => ret None
  end.

(* ================================================================== *)
(** ** uevent_cb (l.216-257) *)

(** The loop of l.238-247: [strcmp] on the [syspath] of each record in
    turn, up to the first equal one.  [strcmp] does not accept NULL. *)
Fixpoint find_by_syspath (l : list GstV4l2Device) (sysfs : string)
    : M (option GstV4l2Device) :=
  match l with
  | [] => ret None
  | d :: l' =>
    match syspath d with
    | None => undefined_behaviour
    | Some s => if String.eqb s sysfs then ret (Some d)
                else find_by_syspath l' sysfs
    end
  end.

Definition uevent_cb (w : World) (action : string) (device : GUdevDevice)
    : M unit :=
  if negb (Z.eqb (udev_property_as_int device "ID_V4L_VERSION") 2) then
    ret tt                                                 (* l.223 *)
  else if String.eqb action "add" then
    gstdev <- gst_v4l2_device_monitor_device_from_udev w device ;;
    match gstdev with
    | Some d => gst_device_monitor_device_add d
    | None => ret tt
    end
  else if String.eqb action "remove" then
    emit EvLock ;;;
    l <- get_devices ;;
    gstdev <- find_by_syspath l (udev_sysfs_path device) ;;
    emit EvUnlock ;;;
    match gstdev with
    | Some d => gst_device_monitor_device_remove d
    | None => ret tt
    end
  else emit (EvWarning action).

(* ================================================================== *)
(** ** The enumeration loop of monitor_thread (l.291-304) *)

Definition enumerate_one (w : World) (u : GUdevDevice) : M unit :=
  if Z.eqb (udev_property_as_int u "ID_V4L_VERSION") 2 then
    gstdev <- gst_v4l2_device_monitor_device_from_udev w u ;;
    match gstdev with
    | Some d => gst_device_monitor_device_add d
    | None => ret tt
    end
  else ret tt.

Definition initial_enumeration (w : World) (l : list GUdevDevice) : M unit :=
  foldM (fun _ u => enumerate_one w u) l tt.


(* ================================================================== *)
(** ** What a probe holds: accounting over the log *)

(** Objects created by [gst_v4l2_object_new], device handles opened by
    [gst_v4l2_open] and caps references returned by
    [gst_v4l2_object_get_caps] that the running function still owns. *)
Record Held := mkHeld {
  held_objects : nat;
  held_handles : nat;
  held_caps : nat
}.

Definition nothing_held : Held := mkHeld 0 0 0.

(** [None] when something is released that is not held. *)
Definition account (h : Held) (e : Ev) : option Held :=
  match e with
  | EvObjectNew _ => Some (mkHeld (S (held_objects h)) (held_handles h) (held_caps h))
  | EvOpen _ true => Some (mkHeld (held_objects h) (S (held_handles h)) (held_caps h))
  | EvGetCaps true => Some (mkHeld (held_objects h) (held_handles h) (S (held_caps h)))
  | EvCapsUnref =>
      match held_caps h with
      | S c => Some (mkHeld (held_objects h) (held_handles h) c)
      | O => None
      end
  | EvClose =>
      match held_handles h with
      | S c => Some (mkHeld (held_objects h) c (held_caps h))
      | O => None
      end
  | EvObjectDestroy =>
      match held_objects h with
      | S c => Some (mkHeld c (held_handles h) (held_caps h))
      | O => None
      end
  | _ => Some h
  end.

Fixpoint held_after (h : Held) (l : list Ev) : option Held :=
  match l with
  | [] => Some h
  | e :: l' =>
    match account h e with
    | Some h' => held_after h' l'
    | None => None
    end
  end.

(** The event sequences of the six ways out of the probe of [p]; [o] is
    the address of the record created on the last one. *)
Definition exit_stat (p : string) : list Ev := [EvStat p].
Definition exit_open_failed (p : string) : list Ev :=
  [EvStat p; EvObjectNew p; EvOpen p false; EvObjectDestroy].
Definition exit_combo (p : string) : list Ev :=
  [EvStat p; EvObjectNew p; EvOpen p true; EvClose; EvObjectDestroy].
Definition exit_no_caps (p : string) : list Ev :=
  [EvStat p; EvObjectNew p; EvOpen p true; EvGetCaps false; EvClose;
   EvObjectDestroy].
Definition exit_empty_caps (p : string) : list Ev :=
  [EvStat p; EvObjectNew p; EvOpen p true; EvGetCaps true; EvCapsUnref;
   EvClose; EvObjectDestroy].
Definition exit_success (p : string) (o : nat) : list Ev :=
  [EvStat p; EvObjectNew p; EvOpen p true; EvGetCaps true; EvDeviceNew o;
   EvCapsUnref; EvClose; EvObjectDestroy].

(* ================================================================== *)
(** ** Properties of a device node, in the words of the specification *)

Definition reports_capture (n : V4l2Node) : bool :=
  has_flag (capabilities n) V4L2_CAP_VIDEO_CAPTURE.
Definition reports_output (n : V4l2Node) : bool :=
  has_flag (capabilities n) V4L2_CAP_VIDEO_OUTPUT.

Definition character_special (n : V4l2Node) : bool := S_ISCHR (st_mode n).

(** Exactly one of capture and output. *)
Definition one_direction (n : V4l2Node) : bool :=
  xorb (reports_capture n) (reports_output n).

(** The mode whose formats are asked for: output for a node that reports
    output, capture otherwise. *)
Definition query_mode (n : V4l2Node) : Z :=
  if reports_output n then V4L2_BUF_TYPE_VIDEO_OUTPUT
  else V4L2_BUF_TYPE_VIDEO_CAPTURE.

(** The format descriptor is there and not empty. *)
Definition offers_formats (n : V4l2Node) : bool :=
  match format_caps n (query_mode n) with
  | Some c => negb (gst_caps_is_empty c)
  | None => false
  end.

Definition direction_of (n : V4l2Node) : GstV4l2DeviceType :=
  if reports_capture n then GST_V4L2_DEVICE_TYPE_SOURCE
  else if reports_output n then GST_V4L2_DEVICE_TYPE_SINK
  else GST_V4L2_DEVICE_TYPE_INVALID.


(** Whether the probe of [c] with no name hands back a record; the
    address it allocates aside, the answer does not depend on the state
    it is run in ([probe_succeeds_iff]). *)
Definition probe_succeeds (w : World) (c : string) : bool :=
  match result (gst_v4l2_device_monitor_probe_device w c None (mkSt [] 0 [])) with
  | Ret (Some _) => true
  | _ => false
  end.

(** [d] is what the probe of candidate [c] returned, in some state. *)
Definition probed_from (w : World) (d : GstV4l2Device) (c : string) : Prop :=
  exists s, result (gst_v4l2_device_monitor_probe_device w c None s) = Ret (Some d).

(** One loop over the candidates in scan order does what the two nested
    loops do. *)
Definition probe_path (w : World) (devs : list GstV4l2Device) (c : string)
    : M (list GstV4l2Device) :=
  device <- gst_v4l2_device_monitor_probe_device w c None ;;
  match device with
  | Some d => ret (d :: devs)
  | None => ret devs
  end.


(* ================================================================== *)
(** ** The registry *)

Definition has_syspath (d : GstV4l2Device) : Prop := syspath d <> None.

(** [strcmp (d->syspath, sysfs) == 0] for a record that has a syspath. *)
Definition matches (sysfs : string) (d : GstV4l2Device) : bool :=
  match syspath d with
  | Some s => String.eqb s sysfs
  | None => false
  end.

(** The states the monitor keeps its list in: every record is an object
    of its own, allocated before [next_obj], and carries the syspath
    [gst_v4l2_device_monitor_device_from_udev] gave it. *)
Definition registry_ok (st : St) : Prop :=
  NoDup (map obj (devices st)) /\
  Forall (fun d => obj d < next_obj st) (devices st) /\
  Forall has_syspath (devices st).

Definition version_2 (u : GUdevDevice) : Prop :=
  udev_property_as_int u "ID_V4L_VERSION" = 2%Z.





(** Publishing: the add branch of the callback and the body of the
    enumeration loop are the same code. *)
Definition publish (w : World) (u : GUdevDevice) : M unit :=
  gstdev <- gst_v4l2_device_monitor_device_from_udev w u ;;
  match gstdev with
  | Some d => gst_device_monitor_device_add d
  | None => ret tt
  end.


(* ================================================================== *)
(** ** The runs of the probe *)

(** The record the probe creates in state [st] for an accepted node. *)
Definition probed_record (path : string) (name : option string) (st : St)
    (n : V4l2Node) (c : GstCaps) : GstV4l2Device :=
  mkDevice (next_obj st) path
    (match name with Some x => x | None => card n end) c
    (if reports_capture n then "Video/Source" else "Video/Sink")
    (if reports_capture n then "v4l2src" else "v4l2sink")
    None.

Section ProbeCase.

Variables (w : World) (path : string).

(** What the namespace shows at [path], by the branch the probe takes. *)
Inductive ProbeCase : Prop :=
| PcStat : w path = None -> ProbeCase
| PcNotChr n : w path = Some n -> character_special n = false -> ProbeCase
| PcOpen n : w path = Some n -> character_special n = true ->
    can_open n = false -> ProbeCase
| PcCombo n : w path = Some n -> character_special n = true ->
    can_open n = true -> reports_capture n = true ->
    reports_output n = true -> ProbeCase
| PcNoCaps n : w path = Some n -> character_special n = true ->
    can_open n = true ->
    (reports_capture n && reports_output n = false)%bool ->
    format_caps n (query_mode n) = None -> ProbeCase
| PcEmpty n c : w path = Some n -> character_special n = true ->
    can_open n = true ->
    (reports_capture n && reports_output n = false)%bool ->
    format_caps n (query_mode n) = Some c ->
    gst_caps_is_empty c = true -> ProbeCase
| PcNoDirection n c : w path = Some n -> character_special n = true ->
    can_open n = true -> reports_capture n = false ->
    reports_output n = false ->
    format_caps n (query_mode n) = Some c ->
    gst_caps_is_empty c = false -> ProbeCase
| PcSuccess n c : w path = Some n -> character_special n = true ->
    can_open n = true -> one_direction n = true ->
    format_caps n (query_mode n) = Some c ->
    gst_caps_is_empty c = false -> ProbeCase.

End ProbeCase.

(** The node at [path] is one the probe accepts. *)
Definition usable (w : World) (path : string) : Prop :=
  exists n, w path = Some n /\ character_special n = true /\
    can_open n = true /\ one_direction n = true /\ offers_formats n = true.

(* ================================================================== *)
(** ** The two threads

    The thread that calls [gst_v4l2_device_monitor_start] and
    [gst_v4l2_device_monitor_stop], and the thread [monitor_thread] runs
    in, as a transition system.  A state holds the fields of the monitor
    object, the object lock, the program counter and locals of each
    thread, and a history that no statement reads. *)

Inductive tid := Caller_thread | Monitor_thread.

Inductive call := CallStart | CallStop.

(** Where the calling thread is; the numbers are source lines. *)
Inductive caller_pc :=
| C_idle            (* outside start and stop *)
| C_start_lock      (* 327: GST_OBJECT_LOCK *)
| C_start_new       (* 328-334, lock held: assert, new context, loop, thread *)
| C_start_test      (* 336, lock held: while (started == FALSE) *)
| C_start_wait      (* 337: inside g_cond_wait, lock released *)
| C_start_unlock    (* 339-341: unlock, return TRUE *)
| C_stop_lock       (* 352: GST_OBJECT_LOCK *)
| C_stop_detach     (* 353-357, lock held: take and clear context, loop *)
| C_stop_test       (* 359: if (!context || !loop) return *)
| C_stop_post       (* 362-367: attach the idle source that quits the loop *)
| C_stop_join       (* 369: g_thread_join *)
| C_stop_clear      (* 370-372: thread = NULL, started = FALSE *).

(** Where the monitor thread is. *)
Inductive worker_pc :=
| W_none            (* no thread yet *)
| W_lock            (* 269: GST_OBJECT_LOCK *)
| W_read            (* 270-281, lock held: read context and loop *)
| W_setup           (* 283-289: udev client, query by subsystem *)
| W_enum            (* 291-304: the enumeration loop *)
| W_signal_lock     (* 306: GST_OBJECT_LOCK *)
| W_signal          (* 307-309, lock held: started = TRUE, broadcast *)
| W_loop            (* 311: g_main_loop_run *)
| W_cleanup         (* 312-317 *)
| W_exited.

(** struct _GstV4l2DeviceMonitor; handles are numbers. *)
Record Monitor := mkMonitor {
  context : option nat;
  loop : option nat;
  thread : option nat;
  started : bool
}.

Record Caller := mkCaller {
  cpc : caller_pc;
  c_context : option nat;     (* locals of stop *)
  c_loop : option nat
}.

Record Worker := mkWorker {
  wpc : worker_pc;
  w_context : option nat;     (* locals of monitor_thread *)
  w_loop : option nat;
  w_devices : list GUdevDevice
}.

(** What has happened so far: the calls that returned (latest first),
    how often [started] was set and signalled, how often the enumeration
    loop ran to its end, what the last query returned and which of it
    the loop has taken. *)
Record History := mkHistory {
  returned : list call;
  signals : nat;
  passes : nat;
  queried : list GUdevDevice;
  visited : list GUdevDevice
}.

Record Sys := mkSys {
  mon : Monitor;
  lock : option tid;          (* owner of the object lock *)
  heap : St;                  (* the device list, allocator and log *)
  fresh : nat;                (* next handle *)
  caller : Caller;
  worker : Worker;
  idle_quit : option nat;     (* context the quitting idle source is on *)
  crashed : bool;             (* a GLib assertion or a fault ended the process *)
  hist : History
}.

(** A monitor as [gst_v4l2_device_monitor_init] leaves it. *)
Definition fresh_monitor : Monitor := mkMonitor None None None false.

Definition init : Sys :=
  mkSys fresh_monitor None (mkSt [] 0 []) 0
        (mkCaller C_idle None None) (mkWorker W_none None None [])
        None false (mkHistory [] 0 0 [] []).

(** What moves next.  [L_worker] and [L_uevent] carry the device
    namespace and the answer of udev as they are at that moment. *)
Inductive label :=
| L_call (c : call)          (* the application enters start or stop *)
| L_caller                   (* next statement of the calling thread *)
| L_worker (w : World) (udev : list GUdevDevice)
                             (* next statement of the monitor thread *)
| L_uevent (w : World) (action : string) (device : GUdevDevice)
                             (* the main loop dispatches a uevent *)
| L_idle                     (* the main loop dispatches the idle source *).

Definition set_caller (s : Sys) (c : Caller) : Sys :=
  mkSys (mon s) (lock s) (heap s) (fresh s) c (worker s) (idle_quit s)
        (crashed s) (hist s).
Definition set_worker (s : Sys) (w : Worker) : Sys :=
  mkSys (mon s) (lock s) (heap s) (fresh s) (caller s) w (idle_quit s)
        (crashed s) (hist s).
Definition set_mon (s : Sys) (m : Monitor) : Sys :=
  mkSys m (lock s) (heap s) (fresh s) (caller s) (worker s) (idle_quit s)
        (crashed s) (hist s).
Definition set_lock (s : Sys) (l : option tid) : Sys :=
  mkSys (mon s) l (heap s) (fresh s) (caller s) (worker s) (idle_quit s)
        (crashed s) (hist s).
Definition set_heap (s : Sys) (h : St) : Sys :=
  mkSys (mon s) (lock s) h (fresh s) (caller s) (worker s) (idle_quit s)
        (crashed s) (hist s).
Definition set_fresh (s : Sys) (n : nat) : Sys :=
  mkSys (mon s) (lock s) (heap s) n (caller s) (worker s) (idle_quit s)
        (crashed s) (hist s).
Definition set_idle_quit (s : Sys) (q : option nat) : Sys :=
  mkSys (mon s) (lock s) (heap s) (fresh s) (caller s) (worker s) q
        (crashed s) (hist s).
Definition set_crashed (s : Sys) : Sys :=
  mkSys (mon s) (lock s) (heap s) (fresh s) (caller s) (worker s) (idle_quit s)
        true (hist s).
Definition set_hist (s : Sys) (h : History) : Sys :=
  mkSys (mon s) (lock s) (heap s) (fresh s) (caller s) (worker s) (idle_quit s)
        (crashed s) h.

Definition goto_c (s : Sys) (pc : caller_pc) : Sys :=
  set_caller s (mkCaller pc (c_context (caller s)) (c_loop (caller s))).
Definition goto_w (s : Sys) (pc : worker_pc) : Sys :=
  set_worker s (mkWorker pc (w_context (worker s)) (w_loop (worker s))
                  (w_devices (worker s))).

Definition note_return (s : Sys) (c : call) : Sys :=
  set_hist s (mkHistory (c :: returned (hist s)) (signals (hist s))
                (passes (hist s)) (queried (hist s)) (visited (hist s))).
Definition note_signal (s : Sys) : Sys :=
  set_hist s (mkHistory (returned (hist s)) (S (signals (hist s)))
                (passes (hist s)) (queried (hist s)) (visited (hist s))).
Definition note_pass (s : Sys) : Sys :=
  set_hist s (mkHistory (returned (hist s)) (signals (hist s))
                (S (passes (hist s))) (queried (hist s)) (visited (hist s))).
Definition note_query (s : Sys) (l : list GUdevDevice) : Sys :=
  set_hist s (mkHistory (returned (hist s)) (signals (hist s))
                (passes (hist s)) l []).
Definition note_visit (s : Sys) (u : GUdevDevice) : Sys :=
  set_hist s (mkHistory (returned (hist s)) (signals (hist s))
                (passes (hist s)) (queried (hist s)) (visited (hist s) ++ [u])).

Definition lock_free (s : Sys) : bool :=
  match lock s with None => true | Some _ => false end.

(** A sequential piece run on the heap: a failed assertion or a fault
    ends the process. *)
Definition run_on_heap (s : Sys) (m : M unit) : Sys :=
  match m (heap s) with
  | (Ret _, h) => set_heap s h
  | (_, h) => set_crashed (set_heap s h)
  end.

(** gst_v4l2_device_monitor_start (l.322-342) and
    gst_v4l2_device_monitor_stop (l.344-373), statement by statement.
    [None]: the thread cannot move (it waits for the lock or in
    [g_thread_join]). *)
Definition caller_step (s : Sys) : option Sys :=
  match cpc (caller s) with
  | C_idle => None
  | C_start_lock =>
      if lock_free s then Some (goto_c (set_lock s (Some Caller_thread)) C_start_new)
      else None
  | C_start_new =>
      match context (mon s) with
      | Some _ => Some (set_crashed s)                 (* g_assert, l.328 *)
      | None =>
          let n := fresh s in
          let s1 := set_mon s (mkMonitor (Some n) (Some (S n)) (Some (S (S n)))
                                 (started (mon s))) in
          let s2 := set_fresh s1 (S (S (S n))) in
          let s3 := set_worker s2 (mkWorker W_lock None None []) in
          Some (goto_c s3 C_start_test)
      end
  | C_start_test =>
      if started (mon s) then Some (goto_c s C_start_unlock)
      else Some (goto_c (set_lock s None) C_start_wait) (* g_cond_wait *)
  | C_start_wait =>
      if lock_free s then Some (goto_c (set_lock s (Some Caller_thread)) C_start_test)
      else None
  | C_start_unlock =>
      Some (note_return (goto_c (set_lock s None) C_idle) CallStart)
  | C_stop_lock =>
      if lock_free s then Some (goto_c (set_lock s (Some Caller_thread)) C_stop_detach)
      else None
  | C_stop_detach =>
      let s1 := set_caller s (mkCaller C_stop_test (context (mon s)) (loop (mon s))) in
      let s2 := set_mon s1 (mkMonitor None None (thread (mon s)) (started (mon s))) in
      Some (set_lock s2 None)
  | C_stop_test =>
      match c_context (caller s), c_loop (caller s) with
      | Some _, Some _ => Some (goto_c s C_stop_post)
      | _, _ => Some (note_return (goto_c s C_idle) CallStop)   (* l.360 *)
      end
  | C_stop_post =>
      Some (goto_c (set_idle_quit s (c_context (caller s))) C_stop_join)
  | C_stop_join =>
      match wpc (worker s) with
      | W_exited => Some (goto_c s C_stop_clear)
      | _ => None
      end
  | C_stop_clear =>
      let s1 := set_mon s (mkMonitor (context (mon s)) (loop (mon s)) None false) in
      Some (note_return (goto_c s1 C_idle) CallStop)
  end.

(** monitor_thread (l.259-320), statement by statement.  The body of the
    enumeration loop is [enumerate_one]; it is taken when the object
    lock, which [gst_device_monitor_device_add] needs, is free. *)
Definition worker_step (w : World) (udev : list GUdevDevice) (s : Sys)
    : option Sys :=
  match wpc (worker s) with
  | W_none | W_loop | W_exited => None
  | W_lock =>
      if lock_free s then Some (goto_w (set_lock s (Some Monitor_thread)) W_read)
      else None
  | W_read =>
      match context (mon s), loop (mon s) with
      | Some c, Some l =>
          Some (set_worker (set_lock s None)
                  (mkWorker W_setup (Some c) (Some l) (w_devices (worker s))))
      | c, l =>                                          (* l.275-280 *)
          let s1 := set_mon s (mkMonitor (context (mon s)) (loop (mon s))
                                 (thread (mon s)) true) in
          Some (note_signal
                  (set_worker (set_lock s1 None)
                     (mkWorker W_exited c l (w_devices (worker s)))))
      end
  | W_setup =>
      Some (note_query
              (set_worker s (mkWorker W_enum (w_context (worker s))
                               (w_loop (worker s)) udev))
              udev)
  | W_enum =>
      match w_devices (worker s) with
      | [] => Some (note_pass (goto_w s W_signal_lock))
      | u :: rest =>
          if lock_free s then
            Some (note_visit
                    (run_on_heap
                       (set_worker s (mkWorker W_enum (w_context (worker s))
                                        (w_loop (worker s)) rest))
                       (enumerate_one w u))
                    u)
          else None
      end
  | W_signal_lock =>
      if lock_free s then Some (goto_w (set_lock s (Some Monitor_thread)) W_signal)
      else None
  | W_signal =>
      let s1 := set_mon s (mkMonitor (context (mon s)) (loop (mon s))
                             (thread (mon s)) true) in
      Some (note_signal (goto_w (set_lock s1 None) W_loop))
  | W_cleanup => Some (goto_w s W_exited)
  end.

Definition opt_nat_eqb (a b : option nat) : bool :=
  match a, b with
  | Some x, Some y => Nat.eqb x y
  | _, _ => false
  end.

(** One step of the system.  A uevent is dispatched by the loop of the
    monitor thread, at a moment the object lock its callback takes is
    free; the idle source is dispatched by the loop of the context it
    was attached to and makes [g_main_loop_run] return. *)
Definition step (l : label) (s : Sys) : option Sys :=
  if crashed s then None
  else
    match l with
    | L_call c =>
        match cpc (caller s) with
        | C_idle =>
            Some (goto_c s (match c with
                            | CallStart => C_start_lock
                            | CallStop => C_stop_lock
                            end))
        | _ => None
        end
    | L_caller => caller_step s
    | L_worker w udev => worker_step w udev s
    | L_uevent w action device =>
        match wpc (worker s) with
        | W_loop =>
            if lock_free s then Some (run_on_heap s (uevent_cb w action device))
            else None
        | _ => None
        end
    | L_idle =>
        match wpc (worker s) with
        | W_loop =>
            if opt_nat_eqb (idle_quit s) (w_context (worker s))
            then Some (goto_w (set_idle_quit s None) W_cleanup)
            else None
        | _ => None
        end
    end.

Fixpoint run (sched : list label) (s : Sys) : option Sys :=
  match sched with
  | [] => Some s
  | l :: sched' =>
    match step l s with
    | Some s' => run sched' s'
    | None => None
    end
  end.

Definition reachable (s : Sys) : Prop := exists sched, run sched init = Some s.

Definition start_returns (s : Sys) : nat :=
  List.length (filter (fun c => match c with CallStart => true | _ => false end)
                 (returned (hist s))).

(** The fields of the monitor an observer sees, with the device list. *)
Definition observable (s : Sys) : Monitor * list GstV4l2Device :=
  (mon s, devices (heap s)).

(* ================================================================== *)
(** ** The shape of the reachable states

    Most fields are determined by where the two threads are. *)

Definition is_some {A : Type} (o : option A) : bool :=
  match o with Some _ => true | None => false end.

Definition in_loop (w : worker_pc) : bool :=
  match w with W_loop => true | _ => false end.

(** Which positions of the two threads go together. *)
Definition allowed (c : caller_pc) (w : worker_pc) : bool :=
  match c, w with
  | (C_idle | C_start_lock | C_start_new | C_stop_lock | C_stop_detach
     | C_stop_test), (W_none | W_exited | W_loop) => true
  | C_start_test, (W_lock | W_setup | W_enum | W_signal_lock | W_loop) => true
  | C_start_wait, (W_lock | W_read | W_setup | W_enum | W_signal_lock
                   | W_signal | W_loop) => true
  | C_start_unlock, W_loop => true
  | C_stop_post, W_loop => true
  | C_stop_join, (W_loop | W_cleanup | W_exited) => true
  | C_stop_clear, W_exited => true
  | _, _ => false
  end.

Definition lock_of (c : caller_pc) (w : worker_pc) : option tid :=
  match c with
  | C_start_new | C_start_test | C_start_unlock | C_stop_detach =>
      Some Caller_thread
  | _ =>
      match w with
      | W_read | W_signal => Some Monitor_thread
      | _ => None
      end
  end.

Definition started_of (c : caller_pc) (w : worker_pc) : bool :=
  match c with
  | C_stop_join | C_stop_clear => true
  | _ => in_loop w
  end.

Definition context_set (c : caller_pc) (w : worker_pc) : bool :=
  match c with
  | C_start_test | C_start_wait | C_start_unlock => true
  | C_stop_test | C_stop_post | C_stop_join | C_stop_clear => false
  | _ => in_loop w
  end.

Definition thread_set (c : caller_pc) (w : worker_pc) : bool :=
  match c with
  | C_start_test | C_start_wait | C_start_unlock
  | C_stop_post | C_stop_join | C_stop_clear => true
  | _ => in_loop w
  end.

Definition quit_pending (c : caller_pc) (w : worker_pc) : bool :=
  match c, w with
  | C_stop_join, W_loop => true
  | _, _ => false
  end.

(** The locals [context] and [loop] of the monitor thread are set. *)
Definition locals_live (w : worker_pc) : bool :=
  match w with
  | W_setup | W_enum | W_signal_lock | W_signal | W_loop => true
  | _ => false
  end.

(** The locals of stop hold what the monitor thread runs on. *)
Definition stop_holds (c : caller_pc) (w : worker_pc) : bool :=
  match c, w with
  | (C_stop_test | C_stop_post | C_stop_join), W_loop => true
  | _, _ => false
  end.

Definition pass_unsignalled (w : worker_pc) : nat :=
  match w with W_signal_lock | W_signal => 1 | _ => 0 end.

Definition signal_unreturned (c : caller_pc) (w : worker_pc) : nat :=
  match c, w with
  | (C_start_test | C_start_wait | C_start_unlock), W_loop => 1
  | _, _ => 0
  end.

Definition between_calls (c : caller_pc) : bool :=
  match c with
  | C_idle | C_start_lock | C_start_new | C_stop_lock | C_stop_detach => true
  | _ => false
  end.

Definition head_is_start (l : list call) : bool :=
  match l with CallStart :: _ => true | _ => false end.

Definition enumerating (w : worker_pc) : bool :=
  match w with W_enum => true | _ => false end.

Record Inv (s : Sys) : Prop := mkInv {
  inv_allowed : allowed (cpc (caller s)) (wpc (worker s)) = true;
  inv_lock : lock s = lock_of (cpc (caller s)) (wpc (worker s));
  inv_started :
    started (mon s) = started_of (cpc (caller s)) (wpc (worker s));
  inv_context :
    is_some (context (mon s)) = context_set (cpc (caller s)) (wpc (worker s));
  inv_loop : loop (mon s) = option_map S (context (mon s));
  inv_thread :
    is_some (thread (mon s)) = thread_set (cpc (caller s)) (wpc (worker s));
  inv_quit :
    idle_quit s = if quit_pending (cpc (caller s)) (wpc (worker s))
                  then w_context (worker s) else None;
  inv_locals :
    locals_live (wpc (worker s)) = true ->
    is_some (w_context (worker s)) = true /\
    w_loop (worker s) = option_map S (w_context (worker s)) /\
    (context_set (cpc (caller s)) (wpc (worker s)) = true ->
     w_context (worker s) = context (mon s));
  inv_stop :
    match cpc (caller s) with
    | C_stop_test | C_stop_post | C_stop_join =>
        if in_loop (wpc (worker s))
        then c_context (caller s) = w_context (worker s) /\
             c_loop (caller s) = w_loop (worker s)
        else match cpc (caller s) with
             | C_stop_test => c_context (caller s) = None /\
                              c_loop (caller s) = None
             | _ => True
             end
    | _ => True
    end;
  inv_pending :
    enumerating (wpc (worker s)) = false -> w_devices (worker s) = [];
  inv_visited :
    queried (hist s) = visited (hist s) ++ w_devices (worker s);
  inv_passes :
    passes (hist s) = signals (hist s) + pass_unsignalled (wpc (worker s));
  inv_signals :
    signals (hist s) =
    start_returns s + signal_unreturned (cpc (caller s)) (wpc (worker s));
  inv_returned :
    between_calls (cpc (caller s)) = true ->
    head_is_start (returned (hist s)) = in_loop (wpc (worker s))
}.

(** The state the enumeration loop leaves when it has taken the devices
    [vis] and the heap has become [h]. *)
Definition after_enumeration (s : Sys) (h : St) (vis : list GUdevDevice) : Sys :=
  mkSys (mon s) (lock s) h (fresh s) (caller s)
        (mkWorker W_enum (w_context (worker s)) (w_loop (worker s)) [])
        (idle_quit s) (crashed s)
        (mkHistory (returned (hist s)) (signals (hist s)) (passes (hist s))
           (queried (hist s)) (visited (hist s) ++ vis)).
(* ================================================================== *)
(** ** Sample worlds *)

Module Sample.

Definition S_IFCHR_0660 : Z := 8624%Z.   (* 020660 *)
Definition S_IFREG_0644 : Z := 33188%Z.  (* 0100644 *)

Definition yuyv : GstCaps := CapsList ["video/x-raw, format=YUY2"].

Definition webcam : V4l2Node :=
  mkNode S_IFCHR_0660 true 1 "WebCam X" (fun _ => Some yuyv).
Definition display : V4l2Node :=
  mkNode S_IFCHR_0660 true 2 "Display Y"
    (fun t => if Z.eqb t V4L2_BUF_TYPE_VIDEO_OUTPUT then Some yuyv else None).
Definition codec : V4l2Node :=
  mkNode S_IFCHR_0660 true 3 "Codec Z" (fun _ => Some yuyv).
(** A memory-to-memory codec as newer drivers announce it:
    V4L2_CAP_VIDEO_M2M (0x8000) alone. *)
Definition m2m : V4l2Node :=
  mkNode S_IFCHR_0660 true 32768%Z "Scaler" (fun _ => Some yuyv).
Definition busy : V4l2Node :=
  mkNode S_IFCHR_0660 false 1 "Busy" (fun _ => Some yuyv).
Definition regular_file : V4l2Node :=
  mkNode S_IFREG_0644 true 1 "" (fun _ => Some yuyv).
Definition no_formats : V4l2Node :=
  mkNode S_IFCHR_0660 true 1 "Mute" (fun _ => Some (CapsList [])).
Definition no_descriptor : V4l2Node :=
  mkNode S_IFCHR_0660 true 1 "Blank" (fun _ => None).

Definition empty_world : World := fun _ => None.

Definition world_of (l : list (string * V4l2Node)) : World :=
  fun p =>
    match find (fun e => String.eqb (fst e) p) l with
    | Some e => Some (snd e)
    | None => None
    end.

(** One capture-only node at index 3. *)
Definition webcam_world : World := world_of [("/dev/video3", webcam)].

Definition zoo : World :=
  world_of [("/dev/video0", webcam); ("/dev/video1", display);
            ("/dev/video2", codec); ("/dev/video4", busy);
            ("/dev/video5", regular_file); ("/dev/video6", no_formats);
            ("/dev/video7", m2m); ("/dev/video8", no_descriptor)].

Definition udev_of (file sysfs : string) (version : Z)
    (product : option string) : GUdevDevice :=
  mkUdev file sysfs
    (fun k => if String.eqb k "ID_V4L_PRODUCT" then product else None)
    (fun k => if String.eqb k "ID_V4L_VERSION" then version else 0%Z).

Definition st0 : St := mkSt [] 0 [].

(** An m2m node alone: neither capture nor output, yet a format list. *)
Definition m2m_world : World := world_of [("/dev/video0", m2m)].

(** The webcam when udev announces it, and two announcements of its
    removal: one with the V4L properties, one without. *)
Definition cam_added : GUdevDevice :=
  udev_of "/dev/video3" "/sys/devices/usb1/video4linux/video3" 2 (Some "Cam").
Definition cam_removed_bare : GUdevDevice :=
  udev_of "/dev/video3" "/sys/devices/usb1/video4linux/video3" 0 None.
Definition cam_version_1 : GUdevDevice :=
  udev_of "/dev/video3" "/sys/devices/usb1/video4linux/video3" 1 (Some "Cam").
Definition other_removed : GUdevDevice :=
  udev_of "/dev/video9" "/sys/devices/usb1/video4linux/video9" 2 None.

(** The state after the webcam has been announced to an empty monitor. *)
Definition st_cam : St := final (uevent_cb webcam_world "add" cam_added st0).

(** A list as the static enumeration returns it, put where the monitor
    keeps its own. *)
Definition st_static : St :=
  match result (gst_v4l2_device_monitor_probe webcam_world st0) with
  | Ret l => mkSt l 1 []
  | _ => st0
  end.

(** Schedules: a start to its return while udev knows [udev]; a stop to
    its return; the state a schedule leads to from [init]. *)
Definition start_to_return (w : World) (udev : list GUdevDevice) : list label :=
  [L_call CallStart; L_caller; L_caller; L_caller;
   L_worker w udev; L_worker w udev; L_worker w udev] ++
  map (fun _ => L_worker w udev) udev ++
  [L_worker w udev; L_worker w udev; L_worker w udev;
   L_caller; L_caller; L_caller].

Definition stop_to_return : list label :=
  [L_call CallStop; L_caller; L_caller; L_caller; L_caller; L_idle;
   L_worker empty_world []; L_caller; L_caller].

Definition after (sched : list label) : Sys :=
  match run sched init with
  | Some s => s
  | None => init
  end.

Definition start_cam : list label := start_to_return webcam_world [cam_added].

End Sample.

(* ================================================================== *)
(** ** The rest of the device object (l.377-509) *)

(** enum { PROP_DEVICE_PATH = 1 } (l.377-380). *)
Definition PROP_DEVICE_PATH : nat := 1.

(** gst_v4l2_device_get_property (l.474-490): the GValue handed in, as
    it is handed back, and whether
    [G_OBJECT_WARN_INVALID_PROPERTY_ID] was raised. *)
Definition gst_v4l2_device_get_property (d : GstV4l2Device) (prop_id : nat)
    (value : string) : string * bool :=
  match prop_id with
  | 1 => (device_path d, false)
  | _ => (value, true)
  end.

(** gst_v4l2_device_set_property (l.493-509): the device afterwards, and
    whether the warning was raised. *)
Definition gst_v4l2_device_set_property (d : GstV4l2Device) (prop_id : nat)
    (value : string) : GstV4l2Device * bool :=
  match prop_id with
  | 1 => (mkDevice (obj d) value (display_name d) (caps d) (klass d)
            (element d) (syspath d), false)
  | _ => (d, true)
  end.

(** A [GstElement] as far as the device sets it up. *)
Record GstElement := mkElement {
  factoryname : string;
  element_name : option string;
  device_property : option string
}.

(** Modelled from the spec: [gst_element_factory_make] of the GStreamer
    core library, [create(kind-name, display-name) -> element-handle];
    NULL when no factory of that name is registered.  [registered] says
    which factories the registry has. *)
Definition gst_element_factory_make (registered : string -> bool)
    (factory : string) (name : option string) : option GstElement :=
  if registered factory then Some (mkElement factory name None) else None.

(** [g_object_set (elem, "device", path, NULL)]: nothing is set on a
    NULL object. *)
Definition g_object_set_device (elem : option GstElement) (path : string)
    : option GstElement :=
  match elem with
  | Some e => Some (mkElement (factoryname e) (element_name e) (Some path))
  | None => None
  end.

(** gst_v4l2_device_create_element (l.426-436). *)
Definition gst_v4l2_device_create_element (registered : string -> bool)
    (d : GstV4l2Device) (name : option string) : option GstElement :=
  let elem := gst_element_factory_make registered (element d) name in
  g_object_set_device elem (device_path d).

(** The registry of a process that has loaded the plugin. *)
Definition plugin_loaded (factory : string) : bool :=
  String.eqb factory "v4l2src" || String.eqb factory "v4l2sink".

(* ================================================================== *)
(** ** Reading the log *)

(** The paths handed to [stat], in order. *)
Fixpoint stats (l : list Ev) : list string :=
  match l with
  | [] => []
  | EvStat p :: l' => p :: stats l'
  | _ :: l' => stats l'
  end.

(** The object lock along a log: [Some held] at the end, [None] when
    the lock is taken while held, released while free, or a
    notification of the parent class, which takes the lock itself, is
    issued while it is held. *)
Fixpoint lock_discipline (held : bool) (l : list Ev) : option bool :=
  match l with
  | [] => Some held
  | EvLock :: l' => if held then None else lock_discipline true l'
  | EvUnlock :: l' => if held then lock_discipline false l' else None
  | (EvDeviceAdd _ | EvDeviceRemove _) :: l' =>
      if held then None else lock_discipline held l'
  | _ :: l' => lock_discipline held l'
  end.

(** Two records that differ in their address at most. *)
Definition same_fields (d1 d2 : GstV4l2Device) : Prop :=
  device_path d1 = device_path d2 /\ display_name d1 = display_name d2 /\
  caps d1 = caps d2 /\ klass d1 = klass d2 /\ element d1 = element d2 /\
  syspath d1 = syspath d2.

(** The name the hotplug path passes to the probe, key by key. *)
Definition name_from_udev (u : GUdevDevice) (n : V4l2Node) : string :=
  match udev_property u "ID_V4L_PRODUCT" with
  | Some x => x
  | None =>
    match udev_property u "ID_MODEL_ENC" with
    | Some x => x
    | None =>
      match udev_property u "ID_MODEL" with
      | Some x => x
      | None => card n
      end
    end
  end.

(* ================================================================== *)
(** ** Critical sections of the two threads *)

Definition caller_holds (c : caller_pc) : bool :=
  match c with
  | C_start_new | C_start_test | C_start_unlock | C_stop_detach => true
  | _ => false
  end.

Definition worker_holds (w : worker_pc) : bool :=
  match w with
  | W_read | W_signal => true
  | _ => false
  end.

(** A monitor thread exists and has not returned. *)
Definition thread_alive (w : worker_pc) : bool :=
  match w with
  | W_none | W_exited => false
  | _ => true
  end.

(** More sample data: a second webcam announcement, an event with an
    action the callback does not know. *)
Module Sample2.

Definition cam_generic : GUdevDevice :=
  mkUdev "/dev/video3" "/sys/devices/usb1/video4linux/video3"
    (fun k => if String.eqb k "ID_MODEL" then Some "USB_Camera" else None)
    (fun k => if String.eqb k "ID_V4L_VERSION" then 2%Z else 0%Z).

Definition two_cams : World :=
  Sample.world_of [("/dev/video0", Sample.webcam);
                   ("/dev/v4l2/video0", Sample.display);
                   ("/dev/video3", Sample.webcam)].

End Sample2.

(** The node at [c] is the one the probe cannot classify although it
    offers formats: neither capture nor output, opened, with a non-empty
    descriptor. *)
Definition unclassifiable (w : World) (c : string) : bool :=
  match w c with
  | Some n =>
      character_special n && can_open n && negb (reports_capture n) &&
      negb (reports_output n) && offers_formats n
  | None => false
  end.

Definition classifiable_namespace (w : World) : Prop :=
  forallb (fun c => negb (unclassifiable w c)) candidates = true.

(** The devices of a udev answer that the enumeration publishes: those
    of version 2 whose node the probe accepts. *)
Definition publishable (w : World) (u : GUdevDevice) : bool :=
  Z.eqb (udev_property_as_int u "ID_V4L_VERSION") 2 &&
  probe_succeeds w (udev_device_file u).

Definition path_and_syspath (d : GstV4l2Device) : string * option string :=
  (device_path d, syspath d).

Definition announced (u : GUdevDevice) : string * option string :=
  (udev_device_file u, Some (udev_sysfs_path u)).

(** What one run of the probe adds to the log. *)
Definition quiet_trace (path : string) (tr : list Ev) : Prop :=
  stats tr = [path] /\ lock_discipline false tr = Some false.

(* ================================================================== *)
(** ** Bringing a call to its end *)

(** How a call in progress ends: it returns; or start runs into its
    assertion (l.328); or the enumeration loop, while start waits, runs
    into the assertion of [gst_v4l2_device_new]. *)
Definition call_over (s : Sys) : Prop :=
  (crashed s = false /\ cpc (caller s) = C_idle) \/
  (crashed s = true /\ cpc (caller s) = C_start_new) \/
  (crashed s = true /\ cpc (caller s) = C_start_wait /\
   wpc (worker s) = W_enum).

(** The call in progress can be brought to its end by the two threads
    and the main loop alone, whatever device namespace and whatever
    answer of udev the monitor thread meets on its steps. *)
Inductive finishes : Sys -> Prop :=
| fin_over (s : Sys) : call_over s -> finishes s
| fin_caller (s s' : Sys) :
    step L_caller s = Some s' -> finishes s' -> finishes s
| fin_idle (s s' : Sys) :
    step L_idle s = Some s' -> finishes s' -> finishes s
| fin_worker (s : Sys) :
    (forall w udev, step (L_worker w udev) s <> None) ->
    (forall w udev s', step (L_worker w udev) s = Some s' -> finishes s') ->
    finishes s.

(** How far the monitor thread is from [g_main_loop_run], the devices
    still to visit apart. *)
Definition worker_phase (w : worker_pc) : nat :=
  match w with
  | W_lock => 6
  | W_read => 5
  | W_setup => 4
  | W_enum => 3
  | W_signal_lock => 2
  | W_signal => 1
  | _ => 0
  end.

(** How far the call in progress is from its return. *)
Definition phase (s : Sys) : nat :=
  match cpc (caller s) with
  | C_idle => 0
  | C_start_unlock => 1
  | C_start_test =>
      match worker_phase (wpc (worker s)) with 0 => 2 | S n => 2 * S n + 3 end
  | C_start_wait =>
      match worker_phase (wpc (worker s)) with 0 => 3 | S n => 2 * S n + 2 end
  | C_start_new => 16
  | C_start_lock => 17
  | C_stop_clear => 1
  | C_stop_join =>
      match wpc (worker s) with W_exited => 2 | W_cleanup => 3 | _ => 4 end
  | C_stop_post => 5
  | C_stop_test => 6
  | C_stop_detach => 7
  | C_stop_lock => 8
  end.

Definition pending (s : Sys) : nat := List.length (w_devices (worker s)).

(** [s'] is closer to the end of the call than [s]. *)
Definition closer (s' s : Sys) : Prop :=
  phase s' < phase s \/ (phase s' = phase s /\ pending s' < pending s).

Definition progress (s s' : Sys) : Prop :=
  (crashed s' = false /\ closer s' s) \/ (crashed s' = true /\ call_over s').

(** The monitor between two calls: as initialised, or with context,
    loop and thread set and the thread in that loop. *)
Definition stopped_monitor (s : Sys) : Prop :=
  mon s = fresh_monitor /\ thread_alive (wpc (worker s)) = false /\
  head_is_start (returned (hist s)) = false.

Definition running_monitor (s : Sys) : Prop :=
  exists c l th,
    mon s = mkMonitor (Some c) (Some l) (Some th) true /\
    wpc (worker s) = W_loop /\
    w_context (worker s) = Some c /\ w_loop (worker s) = Some l /\
    head_is_start (returned (hist s)) = true.

Module Sample3.

(** udev announces the m2m node of [Sample.m2m_world]. *)
Definition scaler_added : GUdevDevice :=
  Sample.udev_of "/dev/video0" "/sys/devices/platform/scaler/video4linux/video0"
    2 None.

(** Start has taken the lock and created the thread. *)
Definition start_in_lock : list label :=
  [L_call CallStart; L_caller; L_caller].

(** Start waits, the monitor thread is about to visit the webcam. *)
Definition start_in_enumeration : list label :=
  [L_call CallStart; L_caller; L_caller; L_caller;
   L_worker Sample.webcam_world [Sample.cam_added];
   L_worker Sample.webcam_world [Sample.cam_added];
   L_worker Sample.webcam_world [Sample.cam_added]].

End Sample3.

(* ================================================================== *)
(** ** The stop of the parent class

    [gst_v4l2_device_monitor_stop] is the [stop] of the class; what the
    application calls is the stop of the parent class
    [GstDeviceMonitor], which owns the device list. *)

(** Modelled from the spec: the live registry is "drained/released on
    stop()".  The stop of the parent class calls the stop of this file
    and, once that has returned, empties the registry, under the
    exclusive lock as every mutation by the owning thread. *)
Definition gst_device_monitor_drain : M unit :=
  emit EvLock ;;; put_devices [] ;;; emit EvUnlock.

(** The two threads, with the parent's part of stop: [p_draining] says
    that the stop of this file has returned and the parent has yet to
    drain the registry. *)
Record PSys := mkPSys {
  p_sys : Sys;
  p_draining : bool
}.

Definition pinit : PSys := mkPSys init false.

Inductive plabel :=
| P_step (l : label)         (* a step as before *)
| P_drain                    (* the parent drains the registry *).

(** The step from [s] to [s'] is the return of the stop of this file
    (l.360 or l.373). *)
Definition stop_returns (s s' : Sys) : bool :=
  match cpc (caller s), cpc (caller s') with
  | (C_stop_test | C_stop_clear), C_idle => true
  | _, _ => false
  end.

Definition is_call (l : label) : bool :=
  match l with L_call _ => true | _ => false end.

(** The application makes no further call before the stop of the parent
    class has returned. *)
Definition pstep (l : plabel) (s : PSys) : option PSys :=
  match l with
  | P_step l =>
      if p_draining s && is_call l then None
      else
        match step l (p_sys s) with
        | Some s' =>
            Some (mkPSys s' (p_draining s || stop_returns (p_sys s) s'))
        | None => None
        end
  | P_drain =>
      if p_draining s && negb (crashed (p_sys s)) && lock_free (p_sys s)
      then Some (mkPSys (run_on_heap (p_sys s) gst_device_monitor_drain) false)
      else None
  end.

Fixpoint prun (sched : list plabel) (s : PSys) : option PSys :=
  match sched with
  | [] => Some s
  | l :: sched' =>
    match pstep l s with
    | Some s' => prun sched' s'
    | None => None
    end
  end.

Definition preachable (s : PSys) : Prop :=
  exists sched, prun sched pinit = Some s.

(** Positions of the caller in which the monitor can be at rest. *)
Definition at_rest (c : caller_pc) : bool :=
  match c with
  | C_idle | C_start_lock | C_start_new | C_stop_lock | C_stop_detach
  | C_stop_test => true
  | _ => false
  end.

Record PInv (s : PSys) : Prop := mkPInv {
  pinv_inv : Inv (p_sys s);
  pinv_drain :
    p_draining s = true ->
    cpc (caller (p_sys s)) = C_idle /\ in_loop (wpc (worker (p_sys s))) = false;
  pinv_empty :
    p_draining s = false -> in_loop (wpc (worker (p_sys s))) = false ->
    at_rest (cpc (caller (p_sys s))) = true ->
    devices (heap (p_sys s)) = [] /\ crashed (p_sys s) = false
}.

(** What a consumer sees of a record: everything but its address. *)
Definition fields (d : GstV4l2Device)
    : string * string * GstCaps * string * string * option string :=
  (device_path d, display_name d, caps d, klass d, element d, syspath d).

(** What an observer sees of a started monitor: whether the handles are
    set, the flag, and the records of the registry. *)
Definition observable_started (s : Sys)
    : bool * bool * bool * bool :=
  (is_some (context (mon s)), is_some (loop (mon s)),
   is_some (thread (mon s)), started (mon s)).

Module Sample4.

(** A start that publishes the webcam, a stop of the parent class, and
    the state after them. *)
Definition start_stop_drain : list plabel :=
  map P_step Sample.start_cam ++ map P_step Sample.stop_to_return ++ [P_drain].

Definition pafter (sched : list plabel) : PSys :=
  match prun sched pinit with
  | Some s => s
  | None => pinit
  end.

End Sample4.

(* ================================================================== *)
(** ** A stop that runs while a start is in progress

    Start releases the object lock while it waits in [g_cond_wait]
    (l.337), and stop detaches context and loop under that lock
    (l.352-357): a second thread of the application can run stop while
    the first is inside start.  [CSys] adds that thread to the system.
    It also keeps books, for the statements below: how often the second
    thread has entered stop, the heap as it was when the monitor thread
    made its last query, what the enumeration loop has taken since, and
    the uevents the main loop has dispatched since, each with the
    namespace of its moment. *)




















Module Sample5.




End Sample5.
(* ================================================================== *)
(** ** The probe, case by case *)

Ltac unfold_probe :=
  unfold gst_v4l2_device_monitor_probe_device, sys_stat, gst_v4l2_object_new,
    gst_v4l2_open, gst_v4l2_object_get_caps, gst_v4l2_device_new, at_close,
    at_destroy, gst_caps_unref, gst_v4l2_close, gst_v4l2_object_destroy,
    g_object_new, g_assert_not_reached, emit, bind, ret, retarget.

Ltac rewrite_known :=
  repeat (cbn;
          match goal with
          | Hx : ?l = _ |- context [?l] => rewrite Hx
          end);
  cbn.

Lemma app_log_assoc (l : list Ev) (a : Ev) (t : list Ev) :
  (l ++ [a]) ++ t = l ++ a :: t.
Proof. now rewrite <- app_assoc. Qed.

Section ProbeCases.

Variables (w : World) (path : string) (name : option string) (st : St).

Let run := gst_v4l2_device_monitor_probe_device w path name st.

Lemma probe_stat_fails : w path = None ->
  run = (Ret None, mkSt (devices st) (next_obj st) (log st ++ exit_stat path)).
Proof.
  intros H. subst run. unfold_probe. now rewrite_known.
Qed.

Lemma probe_not_chr (n : V4l2Node) :
  w path = Some n -> character_special n = false ->
  run = (Ret None, mkSt (devices st) (next_obj st) (log st ++ exit_stat path)).
Proof.
  intros H C. subst run. unfold character_special in C. unfold_probe.
  now rewrite_known.
Qed.

Lemma probe_open_fails (n : V4l2Node) :
  w path = Some n -> character_special n = true -> can_open n = false ->
  run = (Ret None,
         mkSt (devices st) (next_obj st) (log st ++ exit_open_failed path)).
Proof.
  intros H C O. subst run. unfold character_special in C. unfold_probe.
  rewrite_known. now rewrite !app_log_assoc.
Qed.

Lemma probe_combo (n : V4l2Node) :
  w path = Some n -> character_special n = true -> can_open n = true ->
  reports_capture n = true -> reports_output n = true ->
  run = (Ret None, mkSt (devices st) (next_obj st) (log st ++ exit_combo path)).
Proof.
  intros H C O A B. subst run.
  unfold character_special, reports_capture, reports_output in *.
  unfold_probe. rewrite_known. now rewrite !app_log_assoc.
Qed.

Lemma probe_no_caps (n : V4l2Node) :
  w path = Some n -> character_special n = true -> can_open n = true ->
  (reports_capture n && reports_output n = false)%bool ->
  format_caps n (query_mode n) = None ->
  run = (Ret None,
         mkSt (devices st) (next_obj st) (log st ++ exit_no_caps path)).
Proof.
  intros H C O AB F.  subst run.
  unfold character_special, one_direction, query_mode, reports_capture,
    reports_output in *.
  destruct (has_flag (capabilities n) V4L2_CAP_VIDEO_CAPTURE) eqn:A;
    destruct (has_flag (capabilities n) V4L2_CAP_VIDEO_OUTPUT) eqn:B;
    try discriminate; cbn in *; unfold_probe; rewrite_known;
    now rewrite !app_log_assoc.
Qed.

Lemma probe_empty_caps (n : V4l2Node) (c : GstCaps) :
  w path = Some n -> character_special n = true -> can_open n = true ->
  (reports_capture n && reports_output n = false)%bool ->
  format_caps n (query_mode n) = Some c -> gst_caps_is_empty c = true ->
  run = (Ret None,
         mkSt (devices st) (next_obj st) (log st ++ exit_empty_caps path)).
Proof.
  intros H C O AB F E.  subst run.
  unfold character_special, one_direction, query_mode, reports_capture,
    reports_output in *.
  destruct (has_flag (capabilities n) V4L2_CAP_VIDEO_CAPTURE) eqn:A;
    destruct (has_flag (capabilities n) V4L2_CAP_VIDEO_OUTPUT) eqn:B;
    try discriminate; cbn in *; unfold_probe; rewrite_known;
    now rewrite !app_log_assoc.
Qed.

(** Neither capture nor output, yet a format list: the switch of
    [gst_v4l2_device_new] reaches [g_assert_not_reached]. *)
Lemma probe_no_direction (n : V4l2Node) (c : GstCaps) :
  w path = Some n -> character_special n = true -> can_open n = true ->
  reports_capture n = false -> reports_output n = false ->
  format_caps n (query_mode n) = Some c -> gst_caps_is_empty c = false ->
  result run = Abort.
Proof.
  intros H C O A B F E.  subst run.
  unfold character_special, one_direction, query_mode, reports_capture,
    reports_output in *.
  rewrite B in F. cbn in F. unfold_probe. now rewrite_known.
Qed.

Lemma probe_success (n : V4l2Node) (c : GstCaps) :
  w path = Some n -> character_special n = true -> can_open n = true ->
  one_direction n = true ->
  format_caps n (query_mode n) = Some c -> gst_caps_is_empty c = false ->
  run = (Ret (Some (probed_record path name st n c)),
         mkSt (devices st) (S (next_obj st))
              (log st ++ exit_success path (next_obj st))).
Proof.
  intros H C O X F E. unfold probed_record.  subst run.
  unfold character_special, one_direction, query_mode, reports_capture,
    reports_output in *.
  destruct (has_flag (capabilities n) V4L2_CAP_VIDEO_CAPTURE) eqn:A;
    destruct (has_flag (capabilities n) V4L2_CAP_VIDEO_OUTPUT) eqn:B;
    try discriminate; cbn in *; unfold_probe; rewrite_known;
    now rewrite !app_log_assoc.
Qed.

(** Every run of the probe is one of the cases above. *)
Lemma probe_cases : ProbeCase w path.
Proof.
  destruct (w path) as [n|] eqn:H; [|now apply PcStat].
  destruct (character_special n) eqn:C; [|now apply (PcNotChr w path H)].
  destruct (can_open n) eqn:O; [|now apply (PcOpen w path H)].
  destruct (reports_capture n) eqn:A, (reports_output n) eqn:B;
    [ now apply (PcCombo w path H) | | | ];
    (destruct (format_caps n (query_mode n)) as [c|] eqn:F;
     [ destruct (gst_caps_is_empty c) eqn:E | ]).
  all: try (eapply PcEmpty; eauto; now rewrite A, B).
  all: try (eapply PcNoCaps; eauto; now rewrite A, B).
  all: try (eapply PcSuccess; eauto; unfold one_direction; now rewrite A, B).
  eapply PcNoDirection; eauto.
Qed.

End ProbeCases.

(** A record comes out of the success case only. *)
Lemma probe_record_inv (w : World) (path : string) (name : option string)
    (st : St) (d : GstV4l2Device) :
  result (gst_v4l2_device_monitor_probe_device w path name st) = Ret (Some d) ->
  exists n c,
    w path = Some n /\ character_special n = true /\ can_open n = true /\
    one_direction n = true /\ format_caps n (query_mode n) = Some c /\
    gst_caps_is_empty c = false /\ d = probed_record path name st n c.
Proof.
  intros R.
  destruct (probe_cases w path) as
    [H|n H C|n H C O|n H C O A B|n H C O AB F|n c H C O AB F E
    |n c H C O A B F E|n c H C O X F E].
  - rewrite (probe_stat_fails w path name st H) in R. discriminate.
  - rewrite (probe_not_chr w path name st H C) in R. discriminate.
  - rewrite (probe_open_fails w path name st H C O) in R. discriminate.
  - rewrite (probe_combo w path name st H C O A B) in R. discriminate.
  - rewrite (probe_no_caps w path name st H C O AB F) in R. discriminate.
  - rewrite (probe_empty_caps w path name st H C O AB F E) in R. discriminate.
  - rewrite (probe_no_direction w path name st H C O A B F E) in R. discriminate.
  - rewrite (probe_success w path name st H C O X F E) in R. cbn in R.
    injection R as <-. exists n, c. repeat split; assumption.
Qed.

Lemma classification_probed (path : string) (name : option string) (st : St)
    (n : V4l2Node) (c : GstCaps) :
  one_direction n = true ->
  classification (probed_record path name st n c) = direction_of n /\
  (direction_of n = GST_V4L2_DEVICE_TYPE_SOURCE \/
   direction_of n = GST_V4L2_DEVICE_TYPE_SINK).
Proof.
  unfold one_direction, direction_of, classification, probed_record. cbn.
  destruct (reports_capture n), (reports_output n); cbn; intros X;
    try discriminate; auto.
Qed.

(** The probe never touches the device list, and only ever allocates. *)
Lemma probe_frame (w : World) (path : string) (name : option string) (st : St) :
  let r := gst_v4l2_device_monitor_probe_device w path name st in
  devices (final r) = devices st /\ next_obj st <= next_obj (final r) /\
  exists tr, log (final r) = log st ++ tr.
Proof.
  cbv zeta.
  destruct (probe_cases w path) as
    [H|n H C|n H C O|n H C O A B|n H C O AB F|n c H C O AB F E
    |n c H C O A B F E|n c H C O X F E].
  - rewrite (probe_stat_fails w path name st H). cbn. eauto.
  - rewrite (probe_not_chr w path name st H C). cbn. eauto.
  - rewrite (probe_open_fails w path name st H C O). cbn. eauto.
  - rewrite (probe_combo w path name st H C O A B). cbn. eauto.
  - rewrite (probe_no_caps w path name st H C O AB F). cbn. eauto.
  - rewrite (probe_empty_caps w path name st H C O AB F E). cbn. eauto.
  - unfold character_special, query_mode, reports_capture, reports_output in *.
    rewrite B in F. cbn in F. unfold_probe. rewrite_known.
    repeat split; auto. rewrite !app_log_assoc. eauto.
  - rewrite (probe_success w path name st H C O X F E). cbn. eauto.
Qed.

(* ================================================================== *)
(** ** Properties of the probe *)

(** C2. A device node whose capability flags report both capture and
    output capability gets no record from the probe: the function
    returns NULL, whatever the name passed and whatever the node
    otherwise is. *)
Theorem probe_combo_returns_no_record (w : World) (path : string)
    (name : option string) (st : St) (n : V4l2Node) :
  w path = Some n ->
  reports_capture n = true -> reports_output n = true ->
  result (gst_v4l2_device_monitor_probe_device w path name st) = Ret None.
Proof.
  intros H A B.
  destruct (character_special n) eqn:C.
  - destruct (can_open n) eqn:O.
    + now rewrite (probe_combo w path name st H C O A B).
    + now rewrite (probe_open_fails w path name st H C O).
  - now rewrite (probe_not_chr w path name st H C).
Qed.

Lemma probe_combo_returns_no_record_witness :
  result (gst_v4l2_device_monitor_probe_device Sample.zoo "/dev/video2"
            None Sample.st0) = Ret None.
Proof.
  apply (@probe_combo_returns_no_record Sample.zoo "/dev/video2" None
           Sample.st0 Sample.codec); reflexivity.
Defined.

(** C3. The probe returns a record exactly when the path is a
    character-special node that opens, reports exactly one of capture
    and output, and offers a format descriptor that is there and not
    empty; a returned record has non-empty caps and is a source or a
    sink; a path that is not a character-special node is turned down
    after [stat] alone, with nothing created or opened. *)
Theorem probe_record_iff (w : World) (path : string) (name : option string)
    (st : St) :
  let r := gst_v4l2_device_monitor_probe_device w path name st in
  ((exists d, result r = Ret (Some d)) <->
   (exists n, w path = Some n /\ character_special n = true /\
              can_open n = true /\ one_direction n = true /\
              offers_formats n = true)) /\
  (forall d, result r = Ret (Some d) ->
     gst_caps_is_empty (caps d) = false /\
     (classification d = GST_V4L2_DEVICE_TYPE_SOURCE \/
      classification d = GST_V4L2_DEVICE_TYPE_SINK)) /\
  (forall n, w path = Some n -> character_special n = false ->
     result r = Ret None /\ log (final r) = log st ++ [EvStat path]).
Proof.
  cbv zeta. split; [split|split].
  - intros [d R]. apply probe_record_inv in R.
    destruct R as (n & c & H & C & O & X & F & E & _).
    exists n. unfold offers_formats. rewrite F, E. auto.
  - intros (n & H & C & O & X & F). unfold offers_formats in F.
    destruct (format_caps n (query_mode n)) as [c|] eqn:Fc; [|discriminate].
    apply negb_true_iff in F.
    rewrite (probe_success w path name st H C O X Fc F). cbn. eauto.
  - intros d R. apply probe_record_inv in R.
    destruct R as (n & c & H & C & O & X & F & E & ->).
    split; [exact E|].
    destruct (classification_probed path name st n c X) as [-> D]. exact D.
  - intros n H C. now rewrite (probe_not_chr w path name st H C).
Qed.

Ltac exit_with tr :=
  left; cbn; eexists; split; [reflexivity|];
  split; [reflexivity|];
  exists tr; split; [reflexivity|];
  split; [reflexivity|];
  cbn; repeat (first [left; reflexivity | right]).

(** C9. Every run of the probe that returns ends in one of six event
    sequences (stat failure or a node that is not a character device,
    open failure, combo device, missing caps, empty caps, success), and
    after each of them no object, device handle or caps reference that
    the probe acquired is still held; the device list is as before.
    The only run that does not return is the one stopped by the
    assertion of [gst_v4l2_device_new], on a node of neither direction
    that offers formats. *)
Theorem probe_releases_on_every_exit (w : World) (path : string)
    (name : option string) (st : St) :
  let r := gst_v4l2_device_monitor_probe_device w path name st in
  (exists v, result r = Ret v /\
     devices (final r) = devices st /\
     exists tr,
       log (final r) = log st ++ tr /\
       held_after nothing_held tr = Some nothing_held /\
       In tr [exit_stat path; exit_open_failed path; exit_combo path;
              exit_no_caps path; exit_empty_caps path;
              exit_success path (next_obj st)]) \/
  (result r = Abort /\
   exists n, w path = Some n /\ character_special n = true /\
     can_open n = true /\ reports_capture n = false /\
     reports_output n = false /\ offers_formats n = true).
Proof.
  cbv zeta.
  destruct (probe_cases w path) as
    [H|n H C|n H C O|n H C O A B|n H C O AB F|n c H C O AB F E
    |n c H C O A B F E|n c H C O X F E].
  - rewrite (probe_stat_fails w path name st H).
    exit_with (exit_stat path).
  - rewrite (probe_not_chr w path name st H C).
    exit_with (exit_stat path).
  - rewrite (probe_open_fails w path name st H C O).
    exit_with (exit_open_failed path).
  - rewrite (probe_combo w path name st H C O A B).
    exit_with (exit_combo path).
  - rewrite (probe_no_caps w path name st H C O AB F).
    exit_with (exit_no_caps path).
  - rewrite (probe_empty_caps w path name st H C O AB F E).
    exit_with (exit_empty_caps path).
  - right. split; [exact (probe_no_direction w path name st H C O A B F E)|].
    exists n. unfold offers_formats. rewrite F, E. auto 7.
  - rewrite (probe_success w path name st H C O X F E).
    exit_with (exit_success path (next_obj st)).
Qed.

(** The exits, one node each. *)
Example probe_exits_of_the_zoo :
  map (fun p => log (final (gst_v4l2_device_monitor_probe_device Sample.zoo p
                              None Sample.st0)))
      ["/dev/video9"; "/dev/video5"; "/dev/video4"; "/dev/video2";
       "/dev/video8"; "/dev/video6"; "/dev/video0"]
  = [exit_stat "/dev/video9"; exit_stat "/dev/video5";
     exit_open_failed "/dev/video4"; exit_combo "/dev/video2";
     exit_no_caps "/dev/video8"; exit_empty_caps "/dev/video6";
     exit_success "/dev/video0" 0].
Proof. reflexivity. Qed.

(* ================================================================== *)
(** ** The static enumeration *)

Lemma probe_outcome (w : World) (path : string) (name : option string) (st : St) :
  let r := result (gst_v4l2_device_monitor_probe_device w path name st) in
  r = Ret None \/ (exists d, r = Ret (Some d)) \/ r = Abort.
Proof.
  cbv zeta.
  destruct (probe_cases w path) as
    [H|n H C|n H C O|n H C O A B|n H C O AB F|n c H C O AB F E
    |n c H C O A B F E|n c H C O X F E].
  - rewrite (probe_stat_fails w path name st H). auto.
  - rewrite (probe_not_chr w path name st H C). auto.
  - rewrite (probe_open_fails w path name st H C O). auto.
  - rewrite (probe_combo w path name st H C O A B). auto.
  - rewrite (probe_no_caps w path name st H C O AB F). auto.
  - rewrite (probe_empty_caps w path name st H C O AB F E). auto.
  - rewrite (probe_no_direction w path name st H C O A B F E). auto.
  - rewrite (probe_success w path name st H C O X F E). cbn. eauto.
Qed.

Lemma probe_succeeds_iff (w : World) (c : string) (st : St) :
  probe_succeeds w c = true <->
  exists d, result (gst_v4l2_device_monitor_probe_device w c None st) = Ret (Some d).
Proof.
  unfold probe_succeeds. split.
  - destruct (result (gst_v4l2_device_monitor_probe_device w c None (mkSt [] 0 [])))
      as [[d|]| |] eqn:R; try discriminate.
    intros _. apply probe_record_inv in R.
    destruct R as (n & cc & H & C & O & X & F & E & _).
    rewrite (probe_success w c None st H C O X F E). cbn. eauto.
  - intros [d R]. apply probe_record_inv in R.
    destruct R as (n & cc & H & C & O & X & F & E & _).
    now rewrite (probe_success w c None (mkSt [] 0 []) H C O X F E).
Qed.

Lemma foldM_app {A B : Type} (f : B -> A -> M B) (l1 l2 : list A) (acc : B)
    (s : St) :
  foldM f (l1 ++ l2) acc s =
  bind (foldM f l1 acc) (fun acc' => foldM f l2 acc') s.
Proof.
  revert acc s. induction l1 as [|a l1 IH]; intros acc s; cbn.
  - reflexivity.
  - unfold bind. destruct (f acc a s) as [[b| |] s']; auto.
Qed.

Lemma foldM_map {A B C : Type} (f : B -> A -> M B) (g : C -> A) (l : list C)
    (acc : B) (s : St) :
  foldM f (map g l) acc s = foldM (fun b x => f b (g x)) l acc s.
Proof.
  revert acc s. induction l as [|a l IH]; intros acc s; cbn.
  - reflexivity.
  - unfold bind. destruct (f acc (g a) s) as [[b| |] s']; auto.
Qed.

Lemma nested_loops_flat (w : World) (ns : list nat)
    (acc : list GstV4l2Device) (s : St) :
  foldM (fun devs n => foldM (probe_candidate w n) dev_base devs) ns acc s =
  foldM (probe_path w)
        (flat_map (fun n => map (fun base => dev_name base n) dev_base) ns)
        acc s.
Proof.
  revert acc s. induction ns as [|n ns IH]; intros acc s.
  - reflexivity.
  - cbn [flat_map foldM]. rewrite foldM_app. unfold bind at 1 2.
    rewrite foldM_map.
    change (fun (b : list GstV4l2Device) (x : string) =>
              probe_path w b (dev_name x n)) with (probe_candidate w n).
    destruct (foldM (probe_candidate w n) dev_base acc s) as [[b| |] s']; auto.
Qed.

Lemma enumerate_flat (w : World) (s : St) :
  gst_v4l2_device_monitor_probe w s = foldM (probe_path w) candidates [] s.
Proof. unfold gst_v4l2_device_monitor_probe, candidates. apply nested_loops_flat. Qed.

Lemma scan_candidates (w : World) (cs : list string) :
  (forall c s, In c cs ->
     result (gst_v4l2_device_monitor_probe_device w c None s) <> Abort) ->
  forall acc s, exists l,
    result (foldM (probe_path w) cs acc s) = Ret (l ++ acc) /\
    Forall2 (probed_from w) l (rev (filter (probe_succeeds w) cs)).
Proof.
  induction cs as [|c cs IH]; intros NA acc s.
  - exists []. cbn. auto.
  - cbn [foldM filter]. unfold bind, probe_path at 1, bind.
    assert (NA' : forall c s, In c cs ->
              result (gst_v4l2_device_monitor_probe_device w c None s) <> Abort)
      by (intros; apply NA; now right).
    pose proof (probe_succeeds_iff w c s) as PS.
    destruct (probe_outcome w c None s) as [R|[[d R]|R]].
    + destruct (gst_v4l2_device_monitor_probe_device w c None s) as [o s'].
      cbn in R. subst o. cbn.
      destruct (probe_succeeds w c).
      * destruct PS as [PS _]. destruct (PS eq_refl) as [d Hd]. cbn in Hd.
        discriminate Hd.
      * apply (IH NA').
    + destruct (gst_v4l2_device_monitor_probe_device w c None s) as [o s'] eqn:P.
      cbn in R. subst o. cbn.
      destruct (probe_succeeds w c).
      * destruct (IH NA' (d :: acc) s') as (l & Rl & F).
        exists (l ++ [d]). rewrite <- app_assoc. split; [exact Rl|].
        cbn [rev]. apply Forall2_app; [exact F|].
        constructor; [|constructor]. exists s. now rewrite P.
      * assert (Hf : false = true) by (apply PS; cbn; eauto).
        discriminate Hf.
    + exfalso. apply (NA c s); [now left|exact R].
Qed.

(** The static enumeration returns, in reverse scan order, a record for
    each candidate the probe accepts, as long as no probe runs into the
    assertion of [gst_v4l2_device_new]. *)
Lemma enumerate_returns_probed (w : World) (s : St) :
  (forall c s, In c candidates ->
     result (gst_v4l2_device_monitor_probe_device w c None s) <> Abort) ->
  exists l,
    result (gst_v4l2_device_monitor_probe w s) = Ret l /\
    Forall2 (probed_from w) l (rev (filter (probe_succeeds w) candidates)).
Proof.
  intros NA. rewrite enumerate_flat.
  destruct (scan_candidates w candidates NA [] s) as (l & R & F).
  exists l. rewrite app_nil_r in R. split; assumption.
Qed.

(** A node of no direction among the candidates stops the enumeration:
    the scan either aborts earlier or reaches it. *)
Lemma scan_aborts (w : World) (c : string) (n : V4l2Node) (fc : GstCaps) :
  w c = Some n -> character_special n = true -> can_open n = true ->
  reports_capture n = false -> reports_output n = false ->
  format_caps n (query_mode n) = Some fc -> gst_caps_is_empty fc = false ->
  forall cs acc s, In c cs -> result (foldM (probe_path w) cs acc s) = Abort.
Proof.
  intros H C O A B F E. induction cs as [|c' cs IH]; intros acc s I.
  - destruct I.
  - cbn [foldM]. unfold bind, probe_path at 1, bind.
    destruct I as [->|I].
    + pose proof (probe_no_direction w c None s H C O A B F E) as R.
      destruct (gst_v4l2_device_monitor_probe_device w c None s) as [o s'].
      cbn in R. subst o. reflexivity.
    + destruct (probe_outcome w c' None s) as [R|[[d R]|R]];
        destruct (gst_v4l2_device_monitor_probe_device w c' None s) as [o s'];
        cbn in R; subst o; cbn; auto.
Qed.

(* ================================================================== *)
(** ** Properties of the static enumeration *)

(** C6. The enumeration does not always return: when one of the
    candidates is a character device that opens, reports neither capture
    nor output, and still hands out a non-empty format list, the switch
    of [gst_v4l2_device_new] runs into [g_assert_not_reached] and the
    whole enumeration is aborted instead of returning the usable
    records. *)
Theorem enumerate_aborts_on_node_without_direction (w : World) (st : St)
    (c : string) (n : V4l2Node) (fc : GstCaps) :
  In c candidates ->
  w c = Some n -> character_special n = true -> can_open n = true ->
  reports_capture n = false -> reports_output n = false ->
  format_caps n (query_mode n) = Some fc -> gst_caps_is_empty fc = false ->
  result (gst_v4l2_device_monitor_probe w st) = Abort.
Proof.
  intros I H C O A B F E. rewrite enumerate_flat.
  apply (scan_aborts w c H C O A B F E). exact I.
Qed.

Lemma enumerate_aborts_on_node_without_direction_witness :
  result (gst_v4l2_device_monitor_probe Sample.m2m_world Sample.st0) = Abort.
Proof.
  apply (@enumerate_aborts_on_node_without_direction Sample.m2m_world
           Sample.st0 "/dev/video0" Sample.m2m Sample.yuyv);
    solve [reflexivity | left; reflexivity].
Defined.

(** The candidates: both naming schemes at each index below 64. *)
Lemma candidates_spec (c : string) :
  In c candidates <->
  exists n base, n < 64 /\ In base dev_base /\ c = dev_name base n.
Proof.
  unfold candidates. rewrite in_flat_map. split.
  - intros (n & I & J). apply in_seq in I. apply in_map_iff in J.
    destruct J as (base & <- & J). exists n, base. repeat split; auto. lia.
  - intros (n & base & L & I & ->). exists n. split.
    + apply in_seq. lia.
    + apply in_map_iff. eauto.
Qed.

Lemma candidates_length : List.length candidates = 128.
Proof. reflexivity. Qed.

(** On a namespace where no candidate path exists the enumeration
    returns the empty list. *)
Lemma enumerate_empty_namespace (w : World) (s : St) :
  (forall c, In c candidates -> w c = None) ->
  result (gst_v4l2_device_monitor_probe w s) = Ret [].
Proof.
  intros E. rewrite enumerate_flat.
  assert (G : forall cs acc s, (forall c, In c cs -> w c = None) ->
            result (foldM (probe_path w) cs acc s) = Ret acc).
  { induction cs as [|c cs IH]; intros acc s0 Ec; [reflexivity|].
    cbn [foldM]. unfold bind, probe_path at 1, bind.
    rewrite (probe_stat_fails w c None s0 (Ec c (or_introl eq_refl))).
    cbn. apply IH. intros. apply Ec. now right. }
  apply G, E.
Qed.

(* ================================================================== *)
(** ** The display name *)

(** C8. A record returned by the probe is named after the caller when a
    name was passed and after the card of the hardware otherwise; the
    hotplug path passes the name it finds in the udev properties; a
    capture-only node probed without a name becomes a source named by
    its card, and the namespace with the one node "WebCam X" at index 3
    enumerates to exactly one record, a source of that name. *)
Theorem probe_display_name (w : World) (path : string) (name : option string)
    (st : St) (d : GstV4l2Device) :
  result (gst_v4l2_device_monitor_probe_device w path name st) = Ret (Some d) ->
  (exists n, w path = Some n /\
     display_name d = match name with Some x => x | None => card n end) /\
  (forall u d', result (gst_v4l2_device_monitor_device_from_udev w u st)
                = Ret (Some d') ->
     exists n, w (udev_device_file u) = Some n /\
       display_name d' = match udev_device_name u with
                         | Some x => x
                         | None => card n
                         end) /\
  (forall n, w path = Some n -> name = None ->
     reports_capture n = true ->
     display_name d = card n /\
     classification d = GST_V4L2_DEVICE_TYPE_SOURCE) /\
  (forall s, result (gst_v4l2_device_monitor_probe Sample.webcam_world s) =
     Ret [mkDevice (next_obj s) "/dev/video3" "WebCam X" Sample.yuyv
            "Video/Source" "v4l2src" None]).
Proof.
  intros R. apply probe_record_inv in R.
  destruct R as (n & c & H & C & O & X & F & E & ->).
  split; [|split; [|split]].
  - exists n. split; [exact H|reflexivity].
  - intros u d' R. unfold gst_v4l2_device_monitor_device_from_udev, bind in R.
    destruct (gst_v4l2_device_monitor_probe_device w (udev_device_file u)
                (udev_device_name u) st) as [[[d0|]| |] s'] eqn:P;
      cbn in R; try discriminate.
    injection R as <-.
    assert (P' : result (gst_v4l2_device_monitor_probe_device w
                           (udev_device_file u) (udev_device_name u) st)
                 = Ret (Some d0)) by now rewrite P.
    apply probe_record_inv in P'.
    destruct P' as (n' & c' & H' & _ & _ & _ & _ & _ & ->).
    exists n'. split; [exact H'|reflexivity].
  - intros n' H' -> A. rewrite H in H'. injection H' as <-.
    unfold classification, probed_record. cbn. rewrite A. auto.
  - intros s. vm_compute. reflexivity.
Qed.

Lemma probe_display_name_witness :
  exists n, Sample.zoo "/dev/video1" = Some n /\
    display_name (mkDevice 0 "/dev/video1" "Projector" Sample.yuyv
                    "Video/Sink" "v4l2sink" None)
    = match Some "Projector" with Some x => x | None => card n end.
Proof.
  exact (proj1 (@probe_display_name Sample.zoo "/dev/video1" (Some "Projector")
                  Sample.st0 _ eq_refl)).
Defined.

(* ================================================================== *)
(** ** The hotplug callback *)

Unset Implicit Arguments.

Ltac unfold_uevent :=
  unfold uevent_cb, enumerate_one, gst_device_monitor_device_add,
    gst_device_monitor_device_remove, get_devices, put_devices,
    undefined_behaviour, emit, bind, ret.

Lemma find_by_syspath_keeps_state (l : list GstV4l2Device) (sysfs : string)
    (s : St) :
  final (find_by_syspath l sysfs s) = s.
Proof.
  induction l as [|d l IH]; cbn; [reflexivity|].
  destruct (syspath d) as [p|]; [|reflexivity].
  destruct (String.eqb p sysfs); [reflexivity|exact IH].
Qed.

(** The scan stops at the first record whose syspath is the event's. *)
Lemma find_by_syspath_first (l1 l2 : list GstV4l2Device) (d : GstV4l2Device)
    (sysfs : string) (s : St) :
  Forall has_syspath l1 -> Forall (fun x => matches sysfs x = false) l1 ->
  syspath d = Some sysfs ->
  find_by_syspath (l1 ++ d :: l2) sysfs s = (Ret (Some d), s).
Proof.
  intros HS NM D. induction l1 as [|x l1 IH]; cbn.
  - rewrite D, String.eqb_refl. reflexivity.
  - inversion HS as [|? ? Hx HS']; subst. inversion NM as [|? ? Mx NM']; subst.
    unfold matches in Mx. destruct (syspath x) as [p|] eqn:P.
    + rewrite Mx. auto.
    + now destruct Hx.
Qed.

Lemma find_by_syspath_none (l : list GstV4l2Device) (sysfs : string) (s : St) :
  Forall has_syspath l -> Forall (fun x => matches sysfs x = false) l ->
  find_by_syspath l sysfs s = (Ret None, s).
Proof.
  intros HS NM. induction l as [|x l IH]; cbn; [reflexivity|].
  inversion HS as [|? ? Hx HS']; subst. inversion NM as [|? ? Mx NM']; subst.
  unfold matches in Mx. destruct (syspath x) as [p|] eqn:P.
  - rewrite Mx. auto.
  - now destruct Hx.
Qed.


Lemma remove_obj_middle (l1 l2 : list GstV4l2Device) (d : GstV4l2Device) :
  NoDup (map obj (l1 ++ d :: l2)) ->
  remove_obj (obj d) (l1 ++ d :: l2) = l1 ++ l2.
Proof.
  induction l1 as [|x l1 IH]; cbn; intros ND.
  - now rewrite Nat.eqb_refl.
  - inversion ND as [|? ? NI ND']; subst.
    destruct (Nat.eqb (obj x) (obj d)) eqn:Q.
    + apply Nat.eqb_eq in Q. exfalso. apply NI. rewrite Q, map_app.
      apply in_or_app. right. now left.
    + now rewrite IH.
Qed.




(** What the add branch does, given what the probe returned. *)
Lemma device_from_udev_syspath (w : World) (u : GUdevDevice) (s : St)
    (d : GstV4l2Device) :
  result (gst_v4l2_device_monitor_device_from_udev w u s) = Ret (Some d) ->
  syspath d = Some (udev_sysfs_path u) /\ obj d = next_obj s /\
  next_obj (final (gst_v4l2_device_monitor_device_from_udev w u s))
  = S (next_obj s) /\
  devices (final (gst_v4l2_device_monitor_device_from_udev w u s)) = devices s.
Proof.
  unfold gst_v4l2_device_monitor_device_from_udev, bind. intros R.
  destruct (gst_v4l2_device_monitor_probe_device w (udev_device_file u)
              (udev_device_name u) s) as [[[d0|]| |] s'] eqn:P;
    cbn in R; try discriminate.
  injection R as <-.
  assert (P' : result (gst_v4l2_device_monitor_probe_device w
                         (udev_device_file u) (udev_device_name u) s)
               = Ret (Some d0)) by now rewrite P.
  apply probe_record_inv in P'.
  destruct P' as (n & c & H & C & O & X & F & E & ->).
  rewrite (probe_success w (udev_device_file u) (udev_device_name u) s
             H C O X F E) in P.
  injection P as <-. cbn. auto.
Qed.

Lemma device_from_udev_frame (w : World) (u : GUdevDevice) (s : St) :
  let r := gst_v4l2_device_monitor_device_from_udev w u s in
  devices (final r) = devices s /\ next_obj s <= next_obj (final r) /\
  result r <> Fault.
Proof.
  cbv zeta. unfold gst_v4l2_device_monitor_device_from_udev, bind.
  pose proof (probe_frame w (udev_device_file u) (udev_device_name u) s) as Fr.
  pose proof (probe_outcome w (udev_device_file u) (udev_device_name u) s) as Oc.
  cbv zeta in Fr, Oc.
  destruct (gst_v4l2_device_monitor_probe_device w (udev_device_file u)
              (udev_device_name u) s) as [[[d0|]| |] s'];
    cbn in *; destruct Fr as (Fd & Fn & _);
    repeat split; auto; try discriminate.
  destruct Oc as [Oc|[[? Oc]|Oc]]; discriminate.
Qed.

Lemma publish_spec (w : World) (u : GUdevDevice) (s : St) :
  let r := publish w u s in
  result r <> Fault /\
  next_obj s <= next_obj (final r) /\
  (devices (final r) = devices s \/
   exists d, result r = Ret tt /\ devices (final r) = d :: devices s /\
     syspath d = Some (udev_sysfs_path u) /\ obj d = next_obj s /\
     next_obj (final r) = S (next_obj s) /\
     result (gst_v4l2_device_monitor_device_from_udev w u s) = Ret (Some d)).
Proof.
  cbv zeta. unfold publish, bind.
  pose proof (device_from_udev_frame w u s) as Fr. cbv zeta in Fr.
  pose proof (device_from_udev_syspath w u s) as Sy.
  destruct (gst_v4l2_device_monitor_device_from_udev w u s)
    as [[[d|]| |] s'] eqn:P; cbn in *; destruct Fr as (Fd & Fn & Ff).
  - specialize (Sy d eq_refl). destruct Sy as (S1 & S2 & S3 & S4).
    unfold_uevent. cbn. repeat split; try discriminate; try lia.
    right. exists d. rewrite Fd. repeat split; auto.
  - repeat split; try discriminate; auto.
  - repeat split; try discriminate; auto.
  - now destruct Ff.
Qed.

Lemma registry_ok_publish (w : World) (u : GUdevDevice) (s : St) :
  registry_ok s -> registry_ok (final (publish w u s)).
Proof.
  intros (ND & LT & HS).
  destruct (publish_spec w u s) as (_ & Le & [Same|(d & _ & Dv & Sy & Ob & Nx & _)]).
  - unfold registry_ok. rewrite Same. repeat split; auto.
    eapply Forall_impl; [|exact LT]. cbn. intros. lia.
  - unfold registry_ok. rewrite Dv, Nx. cbn. repeat split.
    + constructor; [|exact ND]. rewrite Ob. intros I.
      apply in_map_iff in I. destruct I as (x & Ex & Ix).
      rewrite Forall_forall in LT. specialize (LT x Ix). lia.
    + constructor; [lia|]. eapply Forall_impl; [|exact LT]. cbn. intros. lia.
    + constructor; [|exact HS]. unfold has_syspath. now rewrite Sy.
Qed.

Lemma remove_obj_incl (o : nat) (l : list GstV4l2Device) (d : GstV4l2Device) :
  In d (remove_obj o l) -> In d l.
Proof.
  induction l as [|x l IH]; cbn; [auto|].
  destruct (Nat.eqb (obj x) o); cbn; intuition.
Qed.

Lemma remove_obj_nodup (o : nat) (l : list GstV4l2Device) :
  NoDup (map obj l) -> NoDup (map obj (remove_obj o l)).
Proof.
  induction l as [|x l IH]; cbn; intros ND; [constructor|].
  inversion ND as [|? ? NI ND']; subst.
  destruct (Nat.eqb (obj x) o); [exact ND'|].
  cbn. constructor; [|auto]. intros I. apply NI.
  apply in_map_iff in I. destruct I as (y & Ey & Iy).
  apply in_map_iff. exists y. split; [exact Ey|].
  eapply remove_obj_incl, Iy.
Qed.

Lemma registry_ok_remove_obj (s : St) (o : nat) (lg : list Ev) :
  registry_ok s ->
  registry_ok (mkSt (remove_obj o (devices s)) (next_obj s) lg).
Proof.
  intros (ND & LT & HS). unfold registry_ok. cbn. repeat split.
  - now apply remove_obj_nodup.
  - rewrite Forall_forall in *. intros x I. apply LT.
    eapply remove_obj_incl, I.
  - rewrite Forall_forall in *. intros x I. apply HS.
    eapply remove_obj_incl, I.
Qed.

Lemma uevent_other_version (w : World) (action : string) (u : GUdevDevice)
    (s : St) :
  udev_property_as_int u "ID_V4L_VERSION" <> 2%Z ->
  uevent_cb w action u s = (Ret tt, s).
Proof.
  intros V. unfold uevent_cb. apply Z.eqb_neq in V. now rewrite V.
Qed.

Lemma uevent_add (w : World) (u : GUdevDevice) (s : St) :
  version_2 u -> uevent_cb w "add" u s = publish w u s.
Proof.
  intros V. unfold uevent_cb, publish. unfold version_2 in V.
  apply Z.eqb_eq in V. now rewrite V.
Qed.

Lemma enumerate_one_publish (w : World) (u : GUdevDevice) (s : St) :
  version_2 u -> enumerate_one w u s = publish w u s.
Proof.
  intros V. unfold enumerate_one, publish. unfold version_2 in V.
  apply Z.eqb_eq in V. now rewrite V.
Qed.

Lemma uevent_remove (w : World) (u : GUdevDevice) (s : St) :
  version_2 u ->
  uevent_cb w "remove" u s =
  (emit EvLock ;;;
   l <- get_devices ;;
   gstdev <- find_by_syspath l (udev_sysfs_path u) ;;
   emit EvUnlock ;;;
   match gstdev with
   | Some d => gst_device_monitor_device_remove d
   | None => ret tt
   end) s.
Proof.
  intros V. unfold uevent_cb. unfold version_2 in V.
  apply Z.eqb_eq in V. now rewrite V.
Qed.

Lemma uevent_remove_match (w : World) (u : GUdevDevice) (s : St)
    (l1 l2 : list GstV4l2Device) (d : GstV4l2Device) :
  version_2 u -> registry_ok s ->
  devices s = l1 ++ d :: l2 ->
  Forall (fun x => matches (udev_sysfs_path u) x = false) l1 ->
  syspath d = Some (udev_sysfs_path u) ->
  uevent_cb w "remove" u s =
  (Ret tt, mkSt (l1 ++ l2) (next_obj s)
             (log s ++ [EvLock; EvUnlock; EvDeviceRemove (obj d)])).
Proof.
  intros V (ND & _ & HS) D NM Sy. rewrite (uevent_remove w u s V).
  unfold bind at 1. unfold emit at 1. unfold bind at 1. unfold get_devices.
  cbn [devices]. rewrite D. unfold bind at 1.
  rewrite D in HS. apply Forall_app in HS. destruct HS as [HS1 _].
  rewrite find_by_syspath_first by assumption.
  unfold_uevent. cbn. rewrite D in ND. rewrite remove_obj_middle by assumption.
  now rewrite !app_log_assoc.
Qed.

Lemma uevent_remove_no_match (w : World) (u : GUdevDevice) (s : St) :
  version_2 u -> Forall has_syspath (devices s) ->
  Forall (fun x => matches (udev_sysfs_path u) x = false) (devices s) ->
  uevent_cb w "remove" u s =
  (Ret tt, mkSt (devices s) (next_obj s) (log s ++ [EvLock; EvUnlock])).
Proof.
  intros V HS NM. rewrite (uevent_remove w u s V).
  unfold bind at 1. unfold emit at 1. unfold bind at 1. unfold get_devices.
  cbn [devices]. unfold bind at 1.
  rewrite find_by_syspath_none by assumption.
  unfold_uevent. cbn. now rewrite !app_log_assoc.
Qed.


(** Splitting the list at the first record the event matches. *)
Lemma first_match_split (sysfs : string) (l : list GstV4l2Device) :
  Forall has_syspath l ->
  Forall (fun x => matches sysfs x = false) l \/
  exists l1 d l2, l = l1 ++ d :: l2 /\
    Forall (fun x => matches sysfs x = false) l1 /\ syspath d = Some sysfs.
Proof.
  induction l as [|x l IH]; intros HS; [left; constructor|].
  inversion HS as [|? ? Hx HS']; subst.
  destruct (matches sysfs x) eqn:Mx.
  - right. exists [], x, l. repeat split; [constructor|].
    unfold matches in Mx. destruct (syspath x) as [p|]; [|discriminate].
    apply String.eqb_eq in Mx. now subst.
  - destruct (IH HS') as [NM|(l1 & d & l2 & -> & NM & Sy)].
    + left. now constructor.
    + right. exists (x :: l1), d, l2. repeat split; auto.
Qed.

(** The callback keeps the registry well formed, whatever the event. *)
Lemma registry_ok_uevent (w : World) (action : string) (u : GUdevDevice)
    (s : St) :
  registry_ok s ->
  registry_ok (final (uevent_cb w action u s)) /\
  result (uevent_cb w action u s) <> Fault.
Proof.
  intros OK.
  destruct (Z.eq_dec (udev_property_as_int u "ID_V4L_VERSION") 2) as [V|V].
  2:{ rewrite (uevent_other_version w action u s V). split; [exact OK|discriminate]. }
  destruct (String.eqb action "add") eqn:A.
  { apply String.eqb_eq in A. subst action. rewrite (uevent_add w u s V). split.
    - now apply registry_ok_publish.
    - apply publish_spec. }
  destruct (String.eqb action "remove") eqn:R.
  { apply String.eqb_eq in R. subst action.
    destruct OK as (ND & LT & HS).
    destruct (first_match_split (udev_sysfs_path u) _ HS)
      as [NM|(l1 & d & l2 & D & NM & Sy)].
    - rewrite (uevent_remove_no_match w u s V HS NM). cbn.
      split; [|discriminate]. repeat split; auto.
    - rewrite (uevent_remove_match w u s l1 l2 d V (conj ND (conj LT HS)) D NM Sy). cbn.
      split; [|discriminate].
      pose proof (conj ND (conj LT HS) : registry_ok s) as OK.
      rewrite D in ND. rewrite <- (remove_obj_middle l1 l2 d ND), <- D.
      apply registry_ok_remove_obj, OK. }
  unfold uevent_cb. fold (version_2 u) in V. unfold version_2 in V.
  apply Z.eqb_eq in V. rewrite V, A, R. cbn. split; [|discriminate].
  destruct OK as (ND & LT & HS). repeat split; auto.
Qed.

(** Every record the static enumeration returns is without syspath. *)
Lemma enumerate_no_syspath (w : World) (s : St) (l : list GstV4l2Device) :
  result (gst_v4l2_device_monitor_probe w s) = Ret l ->
  Forall (fun d => syspath d = None) l.
Proof.
  rewrite enumerate_flat.
  assert (G : forall cs acc s0 l0, Forall (fun d => syspath d = None) acc ->
            result (foldM (probe_path w) cs acc s0) = Ret l0 ->
            Forall (fun d => syspath d = None) l0).
  { induction cs as [|c cs IH]; intros acc s0 l0 Fa R.
    - cbn in R. injection R as <-. exact Fa.
    - cbn [foldM] in R. unfold bind, probe_path at 1, bind in R.
      destruct (gst_v4l2_device_monitor_probe_device w c None s0)
        as [[[d|]| |] s'] eqn:P; cbn in R; try discriminate.
      + apply (IH (d :: acc) s' l0); auto.
        constructor; [|exact Fa].
        assert (P' : result (gst_v4l2_device_monitor_probe_device w c None s0)
                     = Ret (Some d)) by now rewrite P.
        apply probe_record_inv in P'.
        destruct P' as (n & fc & _ & _ & _ & _ & _ & _ & ->). reflexivity.
      + apply (IH acc s' l0); auto. }
  apply G. constructor.
Qed.

(* ================================================================== *)
(** ** Properties of the hotplug callback *)

(** C5. A device whose ID_V4L_VERSION property is not 2 is passed over
    by the add branch of the callback and by the enumeration loop of the
    monitor thread alike: both return normally and leave the state as it
    was, so no record is published and nothing is logged; a state that
    did change tells that the version was 2. *)
Theorem other_version_is_ignored (w : World) (u : GUdevDevice) (s : St) :
  udev_property_as_int u "ID_V4L_VERSION" <> 2%Z ->
  uevent_cb w "add" u s = (Ret tt, s) /\
  enumerate_one w u s = (Ret tt, s) /\
  (forall u', final (uevent_cb w "add" u' s) <> s \/
              final (enumerate_one w u' s) <> s -> version_2 u').
Proof.
  intros V. split; [|split].
  - apply uevent_other_version, V.
  - unfold enumerate_one. apply Z.eqb_neq in V. now rewrite V.
  - intros u' Ch. unfold version_2.
    destruct (Z.eq_dec (udev_property_as_int u' "ID_V4L_VERSION") 2)
      as [E|N]; [exact E|].
    exfalso. destruct Ch as [Ch|Ch]; apply Ch.
    + now rewrite (uevent_other_version w "add" u' s N).
    + unfold enumerate_one. apply Z.eqb_neq in N. now rewrite N.
Qed.

Lemma other_version_is_ignored_witness :
  uevent_cb Sample.webcam_world "add" Sample.cam_version_1 Sample.st0
  = (Ret tt, Sample.st0) /\
  enumerate_one Sample.webcam_world Sample.cam_version_1 Sample.st0
  = (Ret tt, Sample.st0).
Proof.
  pose proof (@other_version_is_ignored Sample.webcam_world
                Sample.cam_version_1 Sample.st0) as T.
  split; apply T; cbn; discriminate.
Defined.

(** C1, as the code has it.  In a well-formed registry, a remove event
    of a version-2 device takes out the first record in scan order whose
    syspath is the event's, and only that one; the object lock is taken
    and released before the remove notification is issued; an event that
    matches no record changes nothing in the list; an add followed by
    the remove of the same device, when the add did publish a record,
    gives back the list there was before the add.  A remove event whose device does not report version 2 is
    dropped before the list is looked at. *)
Theorem remove_event_retracts_first_match (w : World) (u : GUdevDevice)
    (s : St) :
  registry_ok s ->
  (version_2 u ->
   forall l1 d l2,
     devices s = l1 ++ d :: l2 ->
     Forall (fun x => matches (udev_sysfs_path u) x = false) l1 ->
     syspath d = Some (udev_sysfs_path u) ->
     uevent_cb w "remove" u s =
     (Ret tt, mkSt (l1 ++ l2) (next_obj s)
                (log s ++ [EvLock; EvUnlock; EvDeviceRemove (obj d)])) /\
     List.length (l1 ++ l2) + 1 = List.length (devices s)) /\
  (Forall (fun x => matches (udev_sysfs_path u) x = false) (devices s) ->
   result (uevent_cb w "remove" u s) = Ret tt /\
   devices (final (uevent_cb w "remove" u s)) = devices s) /\
  (version_2 u ->
   forall w0 d,
     devices (final (uevent_cb w0 "add" u s)) = d :: devices s ->
     devices (final (uevent_cb w "remove" u (final (uevent_cb w0 "add" u s))))
     = devices s) /\
  (~ version_2 u -> uevent_cb w "remove" u s = (Ret tt, s)).
Proof.
  intros OK. split; [|split; [|split]].
  - intros V l1 d l2 D NM Sy. split.
    + now apply uevent_remove_match.
    + rewrite D, !length_app. cbn. lia.
  - intros NM.
    destruct (Z.eq_dec (udev_property_as_int u "ID_V4L_VERSION") 2) as [V|V].
    + destruct OK as (_ & _ & HS).
      now rewrite (uevent_remove_no_match w u s V HS NM).
    + now rewrite (uevent_other_version w "remove" u s V).
  - intros V w0 d Dv. rewrite (uevent_add w0 u s V) in *.
    pose proof (registry_ok_publish w0 u s OK) as OK'.
    destruct (publish_spec w0 u s) as (_ & _ & [Same|(d' & _ & Dv' & Sy & _)]).
    + rewrite Same in Dv. apply (f_equal (@List.length _)) in Dv.
      cbn in Dv. lia.
    + rewrite (uevent_remove_match w u _ [] (devices s) d' V OK' Dv'
                 (Forall_nil _) Sy). reflexivity.
  - intros V. apply uevent_other_version. exact V.
Qed.

Lemma registry_ok_st_cam : registry_ok Sample.st_cam.
Proof.
  unfold registry_ok. vm_compute. repeat split.
  - constructor; [intros []|constructor].
  - repeat constructor.
  - constructor; [discriminate|constructor].
Defined.

Lemma remove_event_retracts_first_match_witness :
  uevent_cb Sample.webcam_world "remove" Sample.cam_added Sample.st_cam =
  (Ret tt, mkSt [] 1 (log Sample.st_cam ++ [EvLock; EvUnlock; EvDeviceRemove 0]))
  /\ 0 + 1 = List.length (devices Sample.st_cam).
Proof.
  exact (proj1 (remove_event_retracts_first_match Sample.webcam_world
                  Sample.cam_added Sample.st_cam registry_ok_st_cam)
           eq_refl []
           (mkDevice 0 "/dev/video3" "Cam" Sample.yuyv "Video/Source"
              "v4l2src" (Some "/sys/devices/usb1/video4linux/video3"))
           [] eq_refl (Forall_nil _) eq_refl).
Defined.

(** C1 as it is worded fails: the registry holds exactly one record, the
    one an add event published into the empty registry; a remove event
    with the same syspath whose device does not carry ID_V4L_VERSION = 2
    leaves that record where it is, so the registry does not go back to
    its size before the add. *)
Lemma remove_event_without_version_keeps_record :
  registry_ok Sample.st_cam /\
  Sample.st_cam = final (uevent_cb Sample.webcam_world "add" Sample.cam_added
                           Sample.st0) /\
  (exists d, devices Sample.st_cam = [d] /\
     syspath d = Some (udev_sysfs_path Sample.cam_removed_bare)) /\
  uevent_cb Sample.webcam_world "remove" Sample.cam_removed_bare Sample.st_cam
  = (Ret tt, Sample.st_cam) /\
  List.length (devices (final (uevent_cb Sample.webcam_world "remove"
                                 Sample.cam_removed_bare Sample.st_cam)))
  <> List.length (devices Sample.st0).
Proof.
  split; [exact registry_ok_st_cam|]. split; [reflexivity|]. split.
  - eexists. split; reflexivity.
  - split; [reflexivity|]. cbn. discriminate.
Qed.

(* ================================================================== *)
(** ** Invariance *)

Lemma inv_init : Inv init.
Proof. constructor; cbn; auto; discriminate. Qed.

Ltac split_sys s :=
  destruct s as [[ctx lp th st] lk hp fr [pc cc cl] [wp wc wl wd] iq cr
                 [ret sg ps qd vs]].

Ltac use_facts :=
  repeat match goal with
         | H : ?a = ?a -> _ |- _ => specialize (H eq_refl)
         | H : _ /\ _ |- _ => destruct H
         | H : is_some ?x = _ |- _ =>
             is_var x; destruct x; cbn in H; try discriminate H
         end;
  subst.

Ltac inv_done :=
  use_facts;
  constructor; cbn in *; subst; auto; try discriminate; try lia;
  try congruence; try (intros; repeat split; auto; congruence).

Lemma inv_call (c : call) (s s' : Sys) :
  Inv s -> step (L_call c) s = Some s' -> Inv s'.
Proof.
  split_sys s. intros [A L St C Lp T Q Lo Sp P V Pa Si R] E.
  unfold step in E. cbn in *. destruct cr; [discriminate|].
  destruct pc; try discriminate. injection E as <-.
  destruct c, wp; cbn in *; try discriminate; inv_done.
Qed.

Lemma start_returns_cons_start (m : Monitor) lk hp fr c w iq cr ret sg ps qd vs :
  start_returns (mkSys m lk hp fr c w iq cr (mkHistory (CallStart :: ret) sg ps qd vs))
  = S (start_returns (mkSys m lk hp fr c w iq cr (mkHistory ret sg ps qd vs))).
Proof. reflexivity. Qed.

Lemma inv_caller (s s' : Sys) :
  Inv s -> step L_caller s = Some s' -> Inv s'.
Proof.
  split_sys s. intros [A L St C Lp T Q Lo Sp P V Pa Si R] E.
  unfold step, caller_step in E. cbn in *. destruct cr; [discriminate|].
  destruct pc; cbn in E; try discriminate.
  - (* C_start_lock *)
    unfold lock_free in E. cbn in E. destruct lk; [discriminate|].
    injection E as <-. destruct wp; cbn in *; try discriminate; inv_done.
  - (* C_start_new *)
    destruct ctx as [c0|].
    + injection E as <-. destruct wp; cbn in *; try discriminate; inv_done.
    + injection E as <-. destruct wp; cbn in *; try discriminate; inv_done.
  - (* C_start_test *)
    destruct st; injection E as <-;
      destruct wp; cbn in *; try discriminate; inv_done.
  - (* C_start_wait *)
    unfold lock_free in E. cbn in E. destruct lk; [discriminate|].
    injection E as <-. destruct wp; cbn in *; try discriminate; inv_done.
  - (* C_start_unlock *)
    injection E as <-. destruct wp; cbn in *; try discriminate; inv_done.
  - (* C_stop_lock *)
    unfold lock_free in E. cbn in E. destruct lk; [discriminate|].
    injection E as <-. destruct wp; cbn in *; try discriminate; inv_done.
  - (* C_stop_detach *)
    injection E as <-. destruct wp; cbn in *; try discriminate; inv_done.
  - (* C_stop_test *)
    destruct cc as [c0|], cl as [l0|]; injection E as <-;
      destruct wp; cbn in *; try discriminate; inv_done.
  - (* C_stop_post *)
    injection E as <-. destruct wp; cbn in *; try discriminate; inv_done.
  - (* C_stop_join *)
    destruct wp; try discriminate. injection E as <-. inv_done.
  - (* C_stop_clear *)
    injection E as <-. destruct wp; cbn in *; try discriminate; inv_done.
Qed.

Lemma inv_worker (w : World) (udev : list GUdevDevice) (s s' : Sys) :
  Inv s -> step (L_worker w udev) s = Some s' -> Inv s'.
Proof.
  split_sys s. intros [A L St C Lp T Q Lo Sp P V Pa Si R] E.
  unfold step, worker_step in E. cbn in *. destruct cr; [discriminate|].
  destruct wp; cbn in E; try discriminate.
  - (* W_lock *)
    unfold lock_free in E. cbn in E. destruct lk; [discriminate|].
    injection E as <-. destruct pc; cbn in *; try discriminate; inv_done.
  - (* W_read *)
    destruct pc; cbn in *; try discriminate.
    use_facts. cbn in *. injection E as <-. inv_done.
  - (* W_setup *)
    injection E as <-. destruct pc; cbn in *; try discriminate; inv_done.
  - (* W_enum *)
    destruct wd as [|u rest].
    + injection E as <-. destruct pc; cbn in *; try discriminate; inv_done;
        now rewrite app_nil_r in *.
    + unfold lock_free in E. cbn in E. destruct lk; [discriminate|].
      injection E as <-. unfold run_on_heap. cbn.
      destruct (enumerate_one w u hp) as [[[]| |] h'];
        destruct pc; cbn in *; try discriminate; inv_done;
        now rewrite <- app_assoc.
  - (* W_signal_lock *)
    unfold lock_free in E. cbn in E. destruct lk; [discriminate|].
    injection E as <-. destruct pc; cbn in *; try discriminate; inv_done.
  - (* W_signal *)
    injection E as <-. destruct pc; cbn in *; try discriminate; inv_done.
  - (* W_cleanup *)
    injection E as <-. destruct pc; cbn in *; try discriminate; inv_done.
Qed.

Lemma inv_uevent (w : World) (action : string) (u : GUdevDevice) (s s' : Sys) :
  Inv s -> step (L_uevent w action u) s = Some s' -> Inv s'.
Proof.
  split_sys s. intros [A L St C Lp T Q Lo Sp P V Pa Si R] E.
  unfold step in E. cbn in *. destruct cr; [discriminate|].
  destruct wp; try discriminate.
  unfold lock_free in E. cbn in E. destruct lk; [discriminate|].
  injection E as <-. unfold run_on_heap. cbn.
  destruct (uevent_cb w action u hp) as [[[]| |] h'];
    destruct pc; cbn in *; try discriminate; inv_done.
Qed.

Lemma inv_idle (s s' : Sys) :
  Inv s -> step L_idle s = Some s' -> Inv s'.
Proof.
  split_sys s. intros [A L St C Lp T Q Lo Sp P V Pa Si R] E.
  unfold step in E. cbn in *. destruct cr; [discriminate|].
  destruct wp; try discriminate.
  destruct (opt_nat_eqb iq wc) eqn:Eq; [|discriminate].
  injection E as <-.
  destruct pc; cbn in *; try discriminate; use_facts; cbn in *;
    try discriminate; inv_done.
Qed.

Lemma inv_step (l : label) (s s' : Sys) :
  Inv s -> step l s = Some s' -> Inv s'.
Proof.
  destruct l.
  - apply inv_call.
  - apply inv_caller.
  - apply inv_worker.
  - apply inv_uevent.
  - apply inv_idle.
Qed.

Lemma inv_run (sched : list label) (s s' : Sys) :
  Inv s -> run sched s = Some s' -> Inv s'.
Proof.
  revert s. induction sched as [|l sched IH]; intros s I R; cbn in R.
  - injection R as <-. exact I.
  - destruct (step l s) as [s1|] eqn:E; [|discriminate].
    apply (IH s1); [|exact R]. exact (inv_step l s s1 I E).
Qed.

Lemma inv_reachable (s : Sys) : reachable s -> Inv s.
Proof. intros [sched R]. exact (inv_run sched init s inv_init R). Qed.

(** The device list of every reachable state is a well-formed registry:
    the monitor publishes through the hotplug path only. *)
Lemma registry_ok_enumerate_one (w : World) (u : GUdevDevice) (h : St) :
  registry_ok h -> registry_ok (final (enumerate_one w u h)).
Proof.
  intros OK.
  destruct (Z.eq_dec (udev_property_as_int u "ID_V4L_VERSION") 2) as [V|V].
  - rewrite (enumerate_one_publish w u h V). now apply registry_ok_publish.
  - unfold enumerate_one. apply Z.eqb_neq in V. now rewrite V.
Qed.

Lemma registry_ok_run_on_heap (s : Sys) (m : M unit) :
  registry_ok (final (m (heap s))) -> registry_ok (heap (run_on_heap s m)).
Proof.
  unfold run_on_heap. destruct (m (heap s)) as [[[]| |] h']; cbn; auto.
Qed.

Lemma registry_ok_step (l : label) (s s' : Sys) :
  registry_ok (heap s) -> step l s = Some s' -> registry_ok (heap s').
Proof.
  intros OK E. unfold step in E. destruct (crashed s); [discriminate|].
  destruct l as [c| |w udev|w action u|].
  - destruct (cpc (caller s)); try discriminate. injection E as <-. exact OK.
  - unfold caller_step in E.
    destruct (cpc (caller s)); try discriminate;
      repeat match type of E with
             | context [match ?x with _ => _ end] => destruct x
             | context [if ?x then _ else _] => destruct x
             end; try discriminate; injection E as <-; exact OK.
  - unfold worker_step in E.
    destruct (wpc (worker s)); try discriminate;
      try (repeat match type of E with
                  | context [match ?x with _ => _ end] => destruct x
                  | context [if ?x then _ else _] => destruct x
                  end; try discriminate; injection E as <-; exact OK).
    destruct (w_devices (worker s)) as [|u rest].
    + injection E as <-. exact OK.
    + destruct (lock_free s); [|discriminate]. injection E as <-.
      cbn [heap note_visit set_hist].
      apply (registry_ok_run_on_heap
               (set_worker s (mkWorker W_enum (w_context (worker s))
                                (w_loop (worker s)) rest))).
      cbn [heap set_worker]. now apply registry_ok_enumerate_one.
  - destruct (wpc (worker s)); try discriminate.
    destruct (lock_free s); [|discriminate]. injection E as <-.
    apply registry_ok_run_on_heap. now apply registry_ok_uevent.
  - destruct (wpc (worker s)); try discriminate.
    destruct (opt_nat_eqb (idle_quit s) (w_context (worker s)));
      [|discriminate].
    injection E as <-. exact OK.
Qed.

Lemma registry_ok_reachable (s : Sys) : reachable s -> registry_ok (heap s).
Proof.
  intros [sched R].
  assert (G : forall sched s0, registry_ok (heap s0) ->
            run sched s0 = Some s -> registry_ok (heap s)).
  { clear. induction sched as [|l sched IH]; intros s0 OK R; cbn in R.
    - injection R as <-. exact OK.
    - destruct (step l s0) as [s1|] eqn:E; [|discriminate].
      apply (IH s1); [|exact R]. exact (registry_ok_step l s0 s1 OK E). }
  apply (G sched init); [|exact R].
  unfold registry_ok. cbn. repeat split; constructor.
Qed.

(** No uevent dispatched in a reachable state runs into a fault. *)
Lemma reachable_uevent_no_fault (s : Sys) (w : World) (action : string)
    (u : GUdevDevice) :
  reachable s -> result (uevent_cb w action u (heap s)) <> Fault.
Proof.
  intros R. apply registry_ok_uevent. now apply registry_ok_reachable.
Qed.

(* ================================================================== *)
(** ** The enumeration loop, run without interruption *)

Lemma run_app (l1 l2 : list label) (s : Sys) :
  run (l1 ++ l2) s =
  match run l1 s with
  | Some s1 => run l2 s1
  | None => None
  end.
Proof.
  revert s. induction l1 as [|l l1 IH]; intros s; cbn; [reflexivity|].
  destruct (step l s); [apply IH|reflexivity].
Qed.

(** Left alone with the lock free, the monitor thread takes the devices
    of the query one by one, and the heap ends as [initial_enumeration]
    leaves it. *)
Lemma enumeration_loop_runs (w : World) (any : list GUdevDevice)
    (udev : list GUdevDevice) :
  forall s,
    wpc (worker s) = W_enum -> w_devices (worker s) = udev ->
    lock s = None -> crashed s = false ->
    result (initial_enumeration w udev (heap s)) = Ret tt ->
    run (map (fun _ => L_worker w any) udev) s =
    Some (after_enumeration s (final (initial_enumeration w udev (heap s)))
            udev).
Proof.
  induction udev as [|u rest IH]; intros s Wp Wd Lk Cr R.
  - cbn. unfold after_enumeration. cbn.
    split_sys s. cbn in *. subst. now rewrite app_nil_r.
  - cbn [map run]. unfold step. rewrite Cr. unfold worker_step.
    rewrite Wp, Wd. unfold lock_free. rewrite Lk.
    unfold initial_enumeration in *. cbn [foldM] in *. unfold bind in *.
    unfold run_on_heap. cbn [heap set_worker].
    destruct (enumerate_one w u (heap s)) as [[[]| |] h1] eqn:E1;
      cbn in R; try discriminate.
    rewrite IH; cbn; auto.
    unfold after_enumeration. cbn. now rewrite <- app_assoc.
Qed.

(** A start on a fresh monitor, with nothing else going on: up to the
    enumeration loop, and from its end to the return. *)
Lemma start_reaches_loop (w : World) (udev : list GUdevDevice) :
  run [L_call CallStart; L_caller; L_caller; L_caller;
       L_worker w udev; L_worker w udev; L_worker w udev] init =
  Some (mkSys (mkMonitor (Some 0) (Some 1) (Some 2) false) None (mkSt [] 0 [])
          3 (mkCaller C_start_wait None None)
          (mkWorker W_enum (Some 0) (Some 1) udev) None false
          (mkHistory [] 0 0 udev [])).
Proof. vm_compute. reflexivity. Qed.

Lemma start_leaves_loop (w : World) (udev : list GUdevDevice) (h : St) :
  run [L_worker w udev; L_worker w udev; L_worker w udev;
       L_caller; L_caller; L_caller]
      (mkSys (mkMonitor (Some 0) (Some 1) (Some 2) false) None h
         3 (mkCaller C_start_wait None None)
         (mkWorker W_enum (Some 0) (Some 1) []) None false
         (mkHistory [] 0 0 udev udev)) =
  Some (mkSys (mkMonitor (Some 0) (Some 1) (Some 2) true) None h 3
          (mkCaller C_idle None None)
          (mkWorker W_loop (Some 0) (Some 1) []) None false
          (mkHistory [CallStart] 1 1 udev udev)).
Proof. vm_compute. reflexivity. Qed.

(** A start on a fresh monitor, with nothing else going on, returns
    after the whole enumeration. *)
Lemma start_completes (w : World) (udev : list GUdevDevice) :
  result (initial_enumeration w udev (heap init)) = Ret tt ->
  exists s,
    run (Sample.start_to_return w udev) init = Some s /\
    returned (hist s) = [CallStart] /\
    heap s = final (initial_enumeration w udev (heap init)) /\
    started (mon s) = true /\ visited (hist s) = udev /\
    passes (hist s) = 1.
Proof.
  intros R. unfold Sample.start_to_return.
  rewrite run_app, start_reaches_loop, run_app.
  rewrite (enumeration_loop_runs w udev udev);
    [|reflexivity|reflexivity|reflexivity|reflexivity|exact R].
  unfold after_enumeration.
  cbn [mon lock heap fresh caller worker idle_quit crashed hist w_context
       w_loop returned signals passes queried visited app].
  rewrite start_leaves_loop.
  eexists. split; [reflexivity|]. cbn [hist heap mon returned started visited
                                       passes]. auto.
Qed.

Lemma enumerate_one_publishes (w : World) (u : GUdevDevice) (h : St)
    (d : GstV4l2Device) :
  version_2 u ->
  result (gst_v4l2_device_monitor_device_from_udev w u h) = Ret (Some d) ->
  result (enumerate_one w u h) = Ret tt /\
  devices (final (enumerate_one w u h)) = d :: devices h.
Proof.
  intros V R. rewrite (enumerate_one_publish w u h V).
  destruct (publish_spec w u h) as (_ & _ & [Same|(d' & Rt & Dv & _ & _ & _ & R')]).
  - exfalso. revert Same. unfold publish, bind.
    pose proof (device_from_udev_frame w u h) as Fr. cbv zeta in Fr.
    destruct (gst_v4l2_device_monitor_device_from_udev w u h)
      as [[[d0|]| |] h'] eqn:P; cbn in R; try discriminate.
    cbn in Fr. destruct Fr as (Fd & _). unfold_uevent. cbn. rewrite Fd.
    intros Same. apply (f_equal (@List.length _)) in Same. cbn in Same. lia.
  - rewrite R in R'. injection R' as <-. split; assumption.
Qed.

Lemma enumerate_one_grows (w : World) (u : GUdevDevice) (h : St) :
  exists l, devices (final (enumerate_one w u h)) = l ++ devices h.
Proof.
  destruct (Z.eq_dec (udev_property_as_int u "ID_V4L_VERSION") 2) as [V|V].
  - rewrite (enumerate_one_publish w u h V).
    destruct (publish_spec w u h) as (_ & _ & [Same|(d & _ & Dv & _)]).
    + exists []. exact Same.
    + exists [d]. exact Dv.
  - exists []. unfold enumerate_one. apply Z.eqb_neq in V. now rewrite V.
Qed.

Lemma initial_enumeration_grows (w : World) (udev : list GUdevDevice) :
  forall h, exists l,
    devices (final (initial_enumeration w udev h)) = l ++ devices h.
Proof.
  unfold initial_enumeration.
  induction udev as [|u rest IH]; intros h; cbn [foldM].
  - exists []. reflexivity.
  - unfold bind. destruct (enumerate_one_grows w u h) as [l1 E1].
    destruct (enumerate_one w u h) as [[[]| |] h1]; cbn in E1.
    + destruct (IH h1) as [l2 E2]. exists (l2 ++ l1).
      now rewrite E2, E1, app_assoc.
    + exists l1. exact E1.
    + exists l1. exact E1.
Qed.

Lemma usable_device_from_udev (w : World) (u : GUdevDevice) (h : St) :
  usable w (udev_device_file u) ->
  exists d,
    result (gst_v4l2_device_monitor_device_from_udev w u h) = Ret (Some d) /\
    syspath d = Some (udev_sysfs_path u) /\
    device_path d = udev_device_file u.
Proof.
  intros (n & H & C & O & X & F). unfold offers_formats in F.
  destruct (format_caps n (query_mode n)) as [c|] eqn:Fc; [|discriminate].
  apply negb_true_iff in F.
  unfold gst_v4l2_device_monitor_device_from_udev, bind.
  rewrite (probe_success w (udev_device_file u) (udev_device_name u) h
             H C O X Fc F).
  cbn. eexists. split; [reflexivity|]. cbn. auto.
Qed.

(** The enumeration publishes a record for each version-2 device of the
    query that the probe accepts. *)
Lemma initial_enumeration_publishes (w : World) (udev : list GUdevDevice) :
  forall h u,
    result (initial_enumeration w udev h) = Ret tt ->
    In u udev -> version_2 u -> usable w (udev_device_file u) ->
    exists d,
      In d (devices (final (initial_enumeration w udev h))) /\
      syspath d = Some (udev_sysfs_path u) /\
      device_path d = udev_device_file u.
Proof.
  unfold initial_enumeration.
  induction udev as [|u0 rest IH]; intros h u R I V U; [destruct I|].
  cbn [foldM] in *. unfold bind in *.
  destruct I as [->|I].
  - destruct (usable_device_from_udev w u h U) as (d & Rd & Sy & Dp).
    destruct (enumerate_one_publishes w u h d V Rd) as (R1 & D1).
    destruct (enumerate_one w u h) as [[[]| |] h1]; cbn in R1, D1;
      try discriminate.
    destruct (initial_enumeration_grows w rest h1) as [l E].
    unfold initial_enumeration in E. exists d. rewrite E, D1.
    split; [|auto]. apply in_or_app. right. now left.
  - destruct (enumerate_one w u0 h) as [[[]| |] h1]; cbn in R;
      try discriminate.
    now apply IH.
Qed.


(** A list as the static enumeration returns it, in the place of the
    monitor's own: the first remove event that does not stop earlier
    runs into the record without syspath. *)
Example remove_on_static_list_faults :
  result (uevent_cb Sample.webcam_world "remove" Sample.other_removed
            Sample.st_static) = Fault.
Proof. reflexivity. Qed.

(* ================================================================== *)
(** ** More on the probe and the static enumeration *)

Lemma held_after_app (h : Held) (l1 l2 : list Ev) :
  held_after h (l1 ++ l2) =
  match held_after h l1 with
  | Some h' => held_after h' l2
  | None => None
  end.
Proof.
  revert h. induction l1 as [|e l1 IH]; intros h; cbn; [reflexivity|].
  destruct (account h e); [apply IH|reflexivity].
Qed.

Lemma stats_app (l1 l2 : list Ev) : stats (l1 ++ l2) = stats l1 ++ stats l2.
Proof.
  induction l1 as [|e l1 IH]; cbn; [reflexivity|].
  destruct e; cbn; now rewrite IH.
Qed.

Lemma lock_discipline_app (b : bool) (l1 l2 : list Ev) :
  lock_discipline b (l1 ++ l2) =
  match lock_discipline b l1 with
  | Some b' => lock_discipline b' l2
  | None => None
  end.
Proof.
  revert b. induction l1 as [|e l1 IH]; intros b; cbn; [reflexivity|].
  destruct e, b; cbn; auto.
Qed.

Lemma probe_run (w : World) (path : string) (name : option string) (st : St) :
  let r := gst_v4l2_device_monitor_probe_device w path name st in
  devices (final r) = devices st /\
  exists tr,
    log (final r) = log st ++ tr /\ quiet_trace path tr /\
    match result r with
    | Ret v =>
        held_after nothing_held tr = Some nothing_held /\
        next_obj (final r) =
        match v with Some _ => S (next_obj st) | None => next_obj st end /\
        match v with Some d => obj d = next_obj st | None => True end
    | _ => True
    end.
Proof.
  cbv zeta. unfold quiet_trace.
  destruct (probe_cases w path) as
    [H|n H C|n H C O|n H C O A B|n H C O AB F|n c H C O AB F E
    |n c H C O A B F E|n c H C O X F E].
  - rewrite (probe_stat_fails w path name st H). cbn.
    split; [reflexivity|]. exists (exit_stat path). cbn. auto.
  - rewrite (probe_not_chr w path name st H C). cbn.
    split; [reflexivity|]. exists (exit_stat path). cbn. auto.
  - rewrite (probe_open_fails w path name st H C O). cbn.
    split; [reflexivity|]. exists (exit_open_failed path). cbn. auto.
  - rewrite (probe_combo w path name st H C O A B). cbn.
    split; [reflexivity|]. exists (exit_combo path). cbn. auto.
  - rewrite (probe_no_caps w path name st H C O AB F). cbn.
    split; [reflexivity|]. exists (exit_no_caps path). cbn. auto.
  - rewrite (probe_empty_caps w path name st H C O AB F E). cbn.
    split; [reflexivity|]. exists (exit_empty_caps path). cbn. auto.
  - unfold character_special, query_mode, reports_capture, reports_output in *.
    rewrite B in F. cbn in F. unfold_probe. rewrite_known.
    split; [reflexivity|].
    exists [EvStat path; EvObjectNew path; EvOpen path true; EvGetCaps true].
    rewrite !app_log_assoc. cbn. auto.
  - rewrite (probe_success w path name st H C O X F E). cbn.
    split; [reflexivity|]. exists (exit_success path (next_obj st)). cbn. auto.
Qed.

Lemma probe_abort_iff (w : World) (c : string) (name : option string) (s : St) :
  result (gst_v4l2_device_monitor_probe_device w c name s) = Abort <->
  unclassifiable w c = true.
Proof.
  unfold unclassifiable.
  destruct (probe_cases w c) as
    [H|n H C|n H C O|n H C O A B|n H C O AB F|n fc H C O AB F E
    |n fc H C O A B F E|n fc H C O X F E]; rewrite H.
  - rewrite (probe_stat_fails w c name s H). cbn. split; discriminate.
  - rewrite (probe_not_chr w c name s H C), C. cbn. split; discriminate.
  - rewrite (probe_open_fails w c name s H C O), C, O. cbn. split; discriminate.
  - rewrite (probe_combo w c name s H C O A B), C, O, A. cbn. split; discriminate.
  - rewrite (probe_no_caps w c name s H C O AB F). unfold offers_formats.
    rewrite F, !andb_false_r. cbn. split; discriminate.
  - rewrite (probe_empty_caps w c name s H C O AB F E). unfold offers_formats.
    rewrite F, E. cbn. rewrite !andb_false_r. split; discriminate.
  - rewrite (probe_no_direction w c name s H C O A B F E). unfold offers_formats.
    rewrite C, O, A, B, F, E. cbn. split; reflexivity.
  - rewrite (probe_success w c name s H C O X F E). cbn.
    unfold one_direction in X.
    destruct (reports_capture n), (reports_output n); cbn in *;
      try discriminate; rewrite ?andb_false_r; cbn; split; discriminate.
Qed.

Lemma classifiable_no_abort (w : World) :
  classifiable_namespace w ->
  forall c s, In c candidates ->
    result (gst_v4l2_device_monitor_probe_device w c None s) <> Abort.
Proof.
  unfold classifiable_namespace. intros Cl c s I Ab.
  rewrite forallb_forall in Cl. specialize (Cl c I).
  apply probe_abort_iff in Ab. rewrite Ab in Cl. discriminate.
Qed.

Lemma probed_from_path (w : World) (l : list GstV4l2Device) (cs : list string) :
  Forall2 (probed_from w) l cs -> map device_path l = cs.
Proof.
  induction 1 as [|d c l cs [s P] F IH]; cbn; [reflexivity|].
  apply probe_record_inv in P.
  destruct P as (n & fc & _ & _ & _ & _ & _ & _ & ->). cbn. now rewrite IH.
Qed.

(** X1. On a namespace without an unclassifiable node the static
    enumeration returns, and the records it returns are those of the
    candidates the probe accepts, latest scanned first: their device
    paths are the accepted candidates in reverse scan order, and none
    carries a syspath. *)
Theorem enumerate_in_reverse_scan_order (w : World) (s : St) :
  classifiable_namespace w ->
  exists l,
    result (gst_v4l2_device_monitor_probe w s) = Ret l /\
    map device_path l = rev (filter (probe_succeeds w) candidates) /\
    Forall2 (probed_from w) l (rev (filter (probe_succeeds w) candidates)) /\
    Forall (fun d => syspath d = None) l.
Proof.
  intros Cl.
  destruct (enumerate_returns_probed w s (classifiable_no_abort w Cl))
    as (l & R & F).
  exists l. repeat split; auto.
  - now apply (probed_from_path w).
  - now apply (enumerate_no_syspath w s).
Qed.

Lemma classifiable_two_cams : classifiable_namespace Sample2.two_cams.
Proof. vm_compute. reflexivity. Defined.

Lemma enumerate_in_reverse_scan_order_witness :
  exists l,
    result (gst_v4l2_device_monitor_probe Sample2.two_cams Sample.st0) = Ret l /\
    map device_path l = rev (filter (probe_succeeds Sample2.two_cams) candidates) /\
    Forall2 (probed_from Sample2.two_cams) l
      (rev (filter (probe_succeeds Sample2.two_cams) candidates)) /\
    Forall (fun d => syspath d = None) l.
Proof.
  exact (enumerate_in_reverse_scan_order Sample2.two_cams Sample.st0
           classifiable_two_cams).
Defined.

Example two_cams_accepted :
  rev (filter (probe_succeeds Sample2.two_cams) candidates)
  = ["/dev/video3"; "/dev/v4l2/video0"; "/dev/video0"].
Proof. vm_compute. reflexivity. Qed.

Lemma foldM_cons {A B : Type} (f : B -> A -> M B) (a : A) (l : list A)
    (acc : B) (s : St) :
  foldM f (a :: l) acc s =
  match f acc a s with
  | (Ret b, s') => foldM f l b s'
  | (Abort, s') => (Abort, s')
  | (Fault, s') => (Fault, s')
  end.
Proof. reflexivity. Qed.

Lemma probe_path_run (w : World) (acc : list GstV4l2Device) (c : string)
    (s : St) :
  probe_path w acc c s =
  match gst_v4l2_device_monitor_probe_device w c None s with
  | (Ret (Some d), s') => (Ret (d :: acc), s')
  | (Ret None, s') => (Ret acc, s')
  | (Abort, s') => (Abort, s')
  | (Fault, s') => (Fault, s')
  end.
Proof.
  unfold probe_path, bind.
  destruct (gst_v4l2_device_monitor_probe_device w c None s) as [[[d|]| |] s'];
    reflexivity.
Qed.

Lemma scan_effects (w : World) (cs : list string) :
  forall acc s l,
    result (foldM (probe_path w) cs acc s) = Ret l ->
    exists l' tr,
      l = l' ++ acc /\
      map obj l' = rev (seq (next_obj s) (List.length l')) /\
      next_obj (final (foldM (probe_path w) cs acc s))
      = next_obj s + List.length l' /\
      devices (final (foldM (probe_path w) cs acc s)) = devices s /\
      log (final (foldM (probe_path w) cs acc s)) = log s ++ tr /\
      stats tr = cs /\ lock_discipline false tr = Some false /\
      held_after nothing_held tr = Some nothing_held.
Proof.
  induction cs as [|c cs IH]; intros acc s l R.
  - cbn in R. injection R as <-. exists [], []. cbn.
    rewrite app_nil_r, Nat.add_0_r. auto 10.
  - rewrite foldM_cons, probe_path_run in *.
    pose proof (probe_run w c None s) as PR. cbv zeta in PR.
    destruct (gst_v4l2_device_monitor_probe_device w c None s)
      as [[[d|]| |] s1]; cbn in R; try discriminate; cbn in PR;
      destruct PR as (Dv & tr1 & Lg & (St1 & Lk1) & Hd1 & Nx & Ob); cbn.
    + destruct (IH (d :: acc) s1 l R)
        as (l' & tr & -> & Mo & Nf & Df & Lf & St & Lk & Hd).
      exists (l' ++ [d]), (tr1 ++ tr). rewrite <- app_assoc. cbn [app].
      split; [reflexivity|]. rewrite length_app. cbn [List.length].
      rewrite Nat.add_1_r. cbn [seq rev]. rewrite map_app. cbn [map].
      rewrite Mo, Nx, Ob, Nf, Df, Dv, Lf, Lg, app_assoc, Nx.
      rewrite stats_app, St1, St, lock_discipline_app, Lk1, Lk,
        held_after_app, Hd1, Hd.
      repeat split; auto; lia.
    + destruct (IH acc s1 l R)
        as (l' & tr & -> & Mo & Nf & Df & Lf & St & Lk & Hd).
      exists l', (tr1 ++ tr).
      rewrite Mo, Nf, Df, Dv, Lf, Lg, app_assoc, Nx.
      rewrite stats_app, St1, St, lock_discipline_app, Lk1, Lk,
        held_after_app, Hd1, Hd.
      repeat split; auto.
Qed.

(** X2. When the static enumeration returns, it has handed each of the
    128 candidate paths to [stat] once, in scan order; it has not
    touched the device list of the monitor or the object lock; every
    object, handle and caps reference a probe acquired has been
    released; and the records returned are distinct objects, allocated
    one after the other in scan order. *)
Theorem enumerate_leaves_no_trace (w : World) (s : St)
    (l : list GstV4l2Device) :
  result (gst_v4l2_device_monitor_probe w s) = Ret l ->
  let f := final (gst_v4l2_device_monitor_probe w s) in
  devices f = devices s /\
  next_obj f = next_obj s + List.length l /\
  map obj l = rev (seq (next_obj s) (List.length l)) /\
  NoDup (map obj l) /\
  exists tr,
    log f = log s ++ tr /\ stats tr = candidates /\
    lock_discipline false tr = Some false /\
    held_after nothing_held tr = Some nothing_held.
Proof.
  rewrite enumerate_flat. intros R. cbv zeta.
  destruct (scan_effects w candidates [] s l R)
    as (l' & tr & E & Mo & Nf & Df & Lf & St & Lk & Hd).
  rewrite app_nil_r in E. subst l'.
  split; [exact Df|]. split; [exact Nf|]. split; [exact Mo|].
  split.
  - rewrite Mo. apply NoDup_rev, seq_NoDup.
  - exists tr. auto.
Qed.

Lemma enumerate_leaves_no_trace_witness :
  let l := [mkDevice 3 "/dev/video3" "WebCam X" Sample.yuyv "Video/Source"
              "v4l2src" None;
            mkDevice 2 "/dev/v4l2/video0" "Display Y" Sample.yuyv "Video/Sink"
              "v4l2sink" None;
            mkDevice 1 "/dev/video0" "WebCam X" Sample.yuyv "Video/Source"
              "v4l2src" None] in
  let f := final (gst_v4l2_device_monitor_probe Sample2.two_cams Sample.st_cam) in
  devices f = devices Sample.st_cam /\
  next_obj f = next_obj Sample.st_cam + List.length l /\
  map obj l = rev (seq (next_obj Sample.st_cam) (List.length l)) /\
  NoDup (map obj l) /\
  exists tr,
    log f = log Sample.st_cam ++ tr /\ stats tr = candidates /\
    lock_discipline false tr = Some false /\
    held_after nothing_held tr = Some nothing_held.
Proof.
  intros l.
  assert (R : result (gst_v4l2_device_monitor_probe Sample2.two_cams
                        Sample.st_cam) = Ret l) by (vm_compute; reflexivity).
  exact (enumerate_leaves_no_trace Sample2.two_cams Sample.st_cam l R).
Defined.

(** X3. The probe reads nothing of the state it runs in but the next
    free address: probing the same node of the same namespace again,
    in any other state, has the same outcome, and two records returned
    agree in path, name, caps, class, element and syspath. *)
Theorem probe_again_same_record (w : World) (path : string)
    (name : option string) (s1 s2 : St) :
  match result (gst_v4l2_device_monitor_probe_device w path name s1),
        result (gst_v4l2_device_monitor_probe_device w path name s2) with
  | Ret (Some d1), Ret (Some d2) =>
      same_fields d1 d2 /\ obj d1 = next_obj s1 /\ obj d2 = next_obj s2
  | Ret None, Ret None => True
  | Abort, Abort => True
  | _, _ => False
  end.
Proof.
  destruct (probe_cases w path) as
    [H|n H C|n H C O|n H C O A B|n H C O AB F|n c H C O AB F E
    |n c H C O A B F E|n c H C O X F E].
  - now rewrite !(probe_stat_fails w path name _ H).
  - now rewrite !(probe_not_chr w path name _ H C).
  - now rewrite !(probe_open_fails w path name _ H C O).
  - now rewrite !(probe_combo w path name _ H C O A B).
  - now rewrite !(probe_no_caps w path name _ H C O AB F).
  - now rewrite !(probe_empty_caps w path name _ H C O AB F E).
  - now rewrite !(probe_no_direction w path name _ H C O A B F E).
  - rewrite !(probe_success w path name _ H C O X F E). cbn.
    unfold same_fields. cbn. auto 10.
Qed.

(** X4. A record the probe returns carries the element factory and the
    class of the direction of its node, v4l2src with Video/Source for a
    capture node and v4l2sink with Video/Sink for an output node; the
    element created from it is made by that factory and has its device
    property set to the path that was probed; when the factory is not
    registered, no element is created. *)
Theorem created_element_opens_probed_node (w : World) (path : string)
    (name : option string) (st : St) (d : GstV4l2Device) :
  result (gst_v4l2_device_monitor_probe_device w path name st) = Ret (Some d) ->
  exists n,
    w path = Some n /\
    (element d, klass d) =
    (if reports_capture n then ("v4l2src", "Video/Source")
     else ("v4l2sink", "Video/Sink")) /\
    forall registered elname,
      gst_v4l2_device_create_element registered d elname =
      if registered (element d)
      then Some (mkElement (element d) elname (Some path))
      else None.
Proof.
  intros R. apply probe_record_inv in R.
  destruct R as (n & c & H & _ & _ & _ & _ & _ & ->).
  exists n. split; [exact H|]. split.
  - cbn. now destruct (reports_capture n).
  - intros registered elname.
    unfold gst_v4l2_device_create_element, gst_element_factory_make. cbn.
    now destruct (registered (if reports_capture n then "v4l2src" else "v4l2sink")).
Qed.

Lemma created_element_opens_probed_node_witness :
  gst_v4l2_device_create_element plugin_loaded
    (mkDevice 0 "/dev/video1" "Display Y" Sample.yuyv "Video/Sink" "v4l2sink"
       None) (Some "out")
  = Some (mkElement "v4l2sink" (Some "out") (Some "/dev/video1")).
Proof.
  destruct (created_element_opens_probed_node Sample.zoo "/dev/video1" None
              Sample.st0 _ eq_refl) as (n & _ & _ & Mk).
  exact (Mk plugin_loaded (Some "out")).
Defined.

(** X5. The device-path property: what is set is what is read back,
    the other fields of the device stay as they are, and the last value
    set wins; every other property id raises the invalid-id warning and
    changes neither the device nor the value handed in; a record of the
    probe reads back the path that was probed. *)
Theorem device_path_property_round_trip (d : GstV4l2Device) (v v' v0 : string) :
  let d1 := fst (gst_v4l2_device_set_property d PROP_DEVICE_PATH v) in
  let d2 := fst (gst_v4l2_device_set_property d1 PROP_DEVICE_PATH v') in
  gst_v4l2_device_get_property d1 PROP_DEVICE_PATH v0 = (v, false) /\
  gst_v4l2_device_get_property d2 PROP_DEVICE_PATH v0 = (v', false) /\
  snd (gst_v4l2_device_set_property d PROP_DEVICE_PATH v) = false /\
  (obj d1, display_name d1, caps d1, klass d1, element d1, syspath d1)
  = (obj d, display_name d, caps d, klass d, element d, syspath d) /\
  (forall prop_id, prop_id <> PROP_DEVICE_PATH ->
     gst_v4l2_device_set_property d prop_id v = (d, true) /\
     gst_v4l2_device_get_property d prop_id v0 = (v0, true)) /\
  (forall w path name st d',
     result (gst_v4l2_device_monitor_probe_device w path name st)
     = Ret (Some d') ->
     gst_v4l2_device_get_property d' PROP_DEVICE_PATH v0 = (path, false)).
Proof.
  cbv zeta. split; [reflexivity|]. split; [reflexivity|].
  split; [reflexivity|]. split; [reflexivity|]. split.
  - intros prop_id N.
    destruct prop_id as [|[|k]]; try (split; reflexivity). now destruct N.
  - intros w path name st d' R. apply probe_record_inv in R.
    destruct R as (n & c & _ & _ & _ & _ & _ & _ & ->). reflexivity.
Qed.

(* ================================================================== *)
(** ** More on the hotplug callback *)

Lemma publish_run (w : World) (u : GUdevDevice) (s : St) :
  publish w u s =
  match gst_v4l2_device_monitor_probe_device w (udev_device_file u)
          (udev_device_name u) s with
  | (Ret (Some d), s') =>
      (Ret tt,
       mkSt (set_syspath d (Some (udev_sysfs_path u)) :: devices s')
            (next_obj s') (log s' ++ [EvDeviceAdd (obj d)]))
  | (Ret None, s') => (Ret tt, s')
  | (Abort, s') => (Abort, s')
  | (Fault, s') => (Fault, s')
  end.
Proof.
  unfold publish, gst_v4l2_device_monitor_device_from_udev, bind.
  destruct (gst_v4l2_device_monitor_probe_device w (udev_device_file u)
              (udev_device_name u) s) as [[[d|]| |] s']; reflexivity.
Qed.

Lemma usable_probe (w : World) (path : string) (name : option string) (s : St) :
  usable w path ->
  exists n c,
    w path = Some n /\ format_caps n (query_mode n) = Some c /\
    gst_caps_is_empty c = false /\ one_direction n = true /\
    gst_v4l2_device_monitor_probe_device w path name s =
    (Ret (Some (probed_record path name s n c)),
     mkSt (devices s) (S (next_obj s))
          (log s ++ exit_success path (next_obj s))).
Proof.
  intros (n & H & C & O & X & F). unfold offers_formats in F.
  destruct (format_caps n (query_mode n)) as [c|] eqn:Fc; [|discriminate].
  apply negb_true_iff in F. exists n, c.
  repeat split; auto. exact (probe_success w path name s H C O X Fc F).
Qed.

Lemma udev_name_from (u : GUdevDevice) (n : V4l2Node) :
  match udev_device_name u with Some x => x | None => card n end
  = name_from_udev u n.
Proof.
  unfold udev_device_name, name_from_udev.
  destruct (udev_property u "ID_V4L_PRODUCT"); [reflexivity|].
  destruct (udev_property u "ID_MODEL_ENC"); reflexivity.
Qed.

(** The record an add event publishes, in any state. *)
Lemma add_event_first (w : World) (u : GUdevDevice) (s : St) :
  version_2 u -> usable w (udev_device_file u) ->
  exists d,
    devices (final (uevent_cb w "add" u s)) = d :: devices s /\
    (exists n c, d = mkDevice (next_obj s) (udev_device_file u)
                       (name_from_udev u n) c
                       (if reports_capture n then "Video/Source"
                        else "Video/Sink")
                       (if reports_capture n then "v4l2src" else "v4l2sink")
                       (Some (udev_sysfs_path u)) /\
                 w (udev_device_file u) = Some n /\
                 format_caps n (query_mode n) = Some c) /\
    obj d = next_obj s /\
    next_obj (final (uevent_cb w "add" u s)) = S (next_obj s).
Proof.
  intros V U. rewrite (uevent_add w u s V), publish_run.
  destruct (usable_probe w (udev_device_file u) (udev_device_name u) s U)
    as (n & c & H & F & E & X & ->).
  cbn. eexists. split; [reflexivity|]. split; [|auto].
  exists n, c. unfold set_syspath, probed_record. cbn.
  rewrite udev_name_from. auto.
Qed.

(** X6. An add event of a version-2 device whose node the probe accepts
    returns and adds exactly one record to the registry: a fresh object
    with the device file as its path, the sysfs path as its syspath,
    the class and element of the direction of the node, the caps of the
    node, and as its name the first of ID_V4L_PRODUCT, ID_MODEL_ENC and
    ID_MODEL that udev has, the card name when it has none; the records
    that were there are all still there. *)
Theorem add_event_publishes_one_record (w : World) (u : GUdevDevice) (s : St) :
  version_2 u -> usable w (udev_device_file u) ->
  exists n c,
    w (udev_device_file u) = Some n /\
    format_caps n (query_mode n) = Some c /\
    result (uevent_cb w "add" u s) = Ret tt /\
    Permutation (devices (final (uevent_cb w "add" u s)))
      (mkDevice (next_obj s) (udev_device_file u) (name_from_udev u n) c
         (if reports_capture n then "Video/Source" else "Video/Sink")
         (if reports_capture n then "v4l2src" else "v4l2sink")
         (Some (udev_sysfs_path u))
       :: devices s) /\
    next_obj (final (uevent_cb w "add" u s)) = S (next_obj s).
Proof.
  intros V U.
  destruct (add_event_first w u s V U)
    as (d & Dv & (n & c & -> & H & F) & _ & Nx).
  exists n, c. split; [exact H|]. split; [exact F|]. split.
  - rewrite (uevent_add w u s V), publish_run.
    destruct (usable_probe w (udev_device_file u) (udev_device_name u) s U)
      as (n' & c' & _ & _ & _ & _ & ->). reflexivity.
  - split; [|exact Nx]. rewrite Dv. apply Permutation_refl.
Qed.

Lemma usable_webcam3 :
  usable Sample.webcam_world (udev_device_file Sample2.cam_generic).
Proof. exists Sample.webcam. repeat split; reflexivity. Defined.

Lemma add_event_publishes_one_record_witness :
  In (mkDevice 1 "/dev/video3" "USB_Camera" Sample.yuyv "Video/Source"
        "v4l2src" (Some "/sys/devices/usb1/video4linux/video3"))
     (devices (final (uevent_cb Sample.webcam_world "add" Sample2.cam_generic
                        Sample.st_cam))).
Proof.
  destruct (add_event_publishes_one_record Sample.webcam_world
              Sample2.cam_generic Sample.st_cam eq_refl usable_webcam3)
    as (n & c & H & F & _ & Dv & _).
  injection H as <-. injection F as <-.
  apply (Permutation_in _ (Permutation_sym Dv)). now left.
Defined.

(** X7. The callback keeps the registry well formed and never hands a
    NULL syspath to [strcmp] on a well-formed registry; it changes the
    length of the registry by one at most; an event whose action is
    neither add nor remove returns with the registry and the allocator
    untouched, with a warning in the log when the device is of
    version 2 and nothing at all otherwise. *)
Theorem uevent_keeps_registry (w : World) (action : string)
    (u : GUdevDevice) (s : St) :
  registry_ok s ->
  let r := uevent_cb w action u s in
  registry_ok (final r) /\ result r <> Fault /\
  List.length (devices (final r)) <= S (List.length (devices s)) /\
  List.length (devices s) <= S (List.length (devices (final r))) /\
  (action <> "add" -> action <> "remove" ->
   r = (Ret tt,
        mkSt (devices s) (next_obj s)
          (log s ++
           if Z.eqb (udev_property_as_int u "ID_V4L_VERSION") 2
           then [EvWarning action] else []))).
Proof.
  intros OK. cbv zeta.
  destruct (registry_ok_uevent w action u s OK) as (OK' & NF).
  split; [exact OK'|]. split; [exact NF|].
  destruct (Z.eq_dec (udev_property_as_int u "ID_V4L_VERSION") 2) as [V|V].
  2:{ rewrite (uevent_other_version w action u s V).
      apply Z.eqb_neq in V. rewrite V, app_nil_r. cbn.
      repeat split; try lia. intros _ _. now destruct s. }
  destruct (String.eqb action "add") eqn:A.
  { apply String.eqb_eq in A. subst action. rewrite (uevent_add w u s V).
    destruct (publish_spec w u s) as (_ & _ & [Same|(d & _ & Dv & _)]).
    - rewrite Same. repeat split; try lia. intros N. now destruct N.
    - rewrite Dv. cbn. repeat split; try lia. intros N. now destruct N. }
  destruct (String.eqb action "remove") eqn:R.
  { apply String.eqb_eq in R. subst action.
    destruct OK as (ND & LT & HS).
    destruct (first_match_split (udev_sysfs_path u) _ HS)
      as [NM|(l1 & d & l2 & D & NM & Sy)].
    - rewrite (uevent_remove_no_match w u s V HS NM). cbn.
      repeat split; try lia. intros _ N. now destruct N.
    - rewrite (uevent_remove_match w u s l1 l2 d V (conj ND (conj LT HS)) D NM Sy).
      cbn. rewrite D, !length_app. cbn.
      repeat split; try lia. intros _ N. now destruct N. }
  unfold uevent_cb. apply Z.eqb_eq in V. rewrite V, A, R. cbn.
  repeat split; try lia.
Qed.

Lemma uevent_keeps_registry_witness :
  uevent_cb Sample.webcam_world "change" Sample.cam_added Sample.st_cam =
  (Ret tt,
   mkSt (devices Sample.st_cam) (next_obj Sample.st_cam)
     (log Sample.st_cam ++ [EvWarning "change"])).
Proof.
  refine (proj2 (proj2 (proj2 (proj2
            (uevent_keeps_registry Sample.webcam_world "change"
               Sample.cam_added Sample.st_cam registry_ok_st_cam)))) _ _);
    discriminate.
Defined.

(** X8. The callback does not look whether a device is in the registry
    already: a second add event for the same version-2 device publishes
    a second record, a different object with the same fields, syspath
    included; one remove event then takes out one record only, so that
    a record of the removed device stays in the registry, which is one
    longer than before the two adds; the records of other syspaths are
    as they were. *)
Theorem add_twice_remove_once (w w' : World) (u : GUdevDevice) (s : St) :
  version_2 u -> registry_ok s -> usable w (udev_device_file u) ->
  let s1 := final (uevent_cb w "add" u s) in
  let s2 := final (uevent_cb w "add" u s1) in
  let s3 := final (uevent_cb w' "remove" u s2) in
  let other := fun d => negb (matches (udev_sysfs_path u) d) in
  exists d1 d2,
    Permutation (devices s2) (d1 :: d2 :: devices s) /\
    obj d1 <> obj d2 /\ same_fields d1 d2 /\
    syspath d1 = Some (udev_sysfs_path u) /\
    List.length (devices s3) = S (List.length (devices s)) /\
    (In d1 (devices s3) \/ In d2 (devices s3)) /\
    filter other (devices s3) = filter other (devices s).
Proof.
  intros V OK U. cbv zeta.
  destruct (add_event_first w u s V U)
    as (d1 & D1 & (n1 & c1 & F1 & H1 & C1) & O1 & N1).
  pose proof (registry_ok_uevent w "add" u s OK) as (OK1 & _).
  destruct (add_event_first w u (final (uevent_cb w "add" u s)) V U)
    as (d2 & D2 & (n2 & c2 & F2 & H2 & C2) & O2 & N2).
  pose proof (registry_ok_uevent w "add" u _ OK1) as (OK2 & _).
  rewrite H1 in H2. injection H2 as <-. rewrite C1 in C2. injection C2 as <-.
  exists d1, d2. rewrite D2, D1.
  split; [apply perm_swap|].
  split; [rewrite O1, O2, N1; lia|].
  split; [rewrite F1, F2; unfold same_fields; cbn; auto 10|].
  split; [now rewrite F1|].
  rewrite (uevent_remove_match w' u _ [] (d1 :: devices s) d2 V OK2);
    [| now rewrite D2, D1 | constructor | now rewrite F2].
  unfold final. cbn [snd devices app List.length].
  split; [reflexivity|]. split; [left; now left|].
  cbn [filter]. unfold matches at 1. rewrite F1. cbn [syspath].
  now rewrite String.eqb_refl.
Qed.

Lemma add_twice_remove_once_witness :
  let s1 := final (uevent_cb Sample.webcam_world "add" Sample.cam_added
                     Sample.st0) in
  let s2 := final (uevent_cb Sample.webcam_world "add" Sample.cam_added s1) in
  let s3 := final (uevent_cb Sample.empty_world "remove" Sample.cam_added s2) in
  let other :=
    fun d => negb (matches (udev_sysfs_path Sample.cam_added) d) in
  exists d1 d2,
    Permutation (devices s2) (d1 :: d2 :: devices Sample.st0) /\
    obj d1 <> obj d2 /\ same_fields d1 d2 /\
    syspath d1 = Some (udev_sysfs_path Sample.cam_added) /\
    List.length (devices s3) = S (List.length (devices Sample.st0)) /\
    (In d1 (devices s3) \/ In d2 (devices s3)) /\
    filter other (devices s3) = filter other (devices Sample.st0).
Proof.
  refine (add_twice_remove_once Sample.webcam_world Sample.empty_world
            Sample.cam_added Sample.st0 eq_refl _ _).
  - unfold registry_ok. cbn. repeat split; constructor.
  - exists Sample.webcam. repeat split; reflexivity.
Defined.

Lemma publish_log (w : World) (u : GUdevDevice) (s : St) :
  exists tr,
    log (final (publish w u s)) = log s ++ tr /\
    lock_discipline false tr = Some false /\
    (result (publish w u s) = Ret tt ->
     held_after nothing_held tr = Some nothing_held).
Proof.
  rewrite publish_run.
  pose proof (probe_run w (udev_device_file u) (udev_device_name u) s) as PR.
  cbv zeta in PR.
  destruct (gst_v4l2_device_monitor_probe_device w (udev_device_file u)
              (udev_device_name u) s) as [[[d|]| |] s1]; cbn in *;
    destruct PR as (_ & tr & Lg & (_ & Lk) & Rest).
  - destruct Rest as (Hd & _). exists (tr ++ [EvDeviceAdd (obj d)]).
    rewrite Lg, app_assoc, lock_discipline_app, Lk, held_after_app, Hd.
    cbn. auto.
  - destruct Rest as (Hd & _). exists tr. auto.
  - exists tr. repeat split; auto. discriminate.
  - exists tr. repeat split; auto. discriminate.
Qed.

(** X9. Whatever the event, on a well-formed registry the callback
    leaves the object lock free: what it adds to the log takes the lock
    only when it is free, gives it back before the callback ends, and
    issues the add and remove notifications of the parent class, which
    take the lock themselves, only while it is free; when the callback
    returns, every object, handle and caps reference the probe acquired
    has been released. *)
Theorem uevent_lock_and_resources (w : World) (action : string)
    (u : GUdevDevice) (s : St) :
  registry_ok s ->
  exists tr,
    log (final (uevent_cb w action u s)) = log s ++ tr /\
    lock_discipline false tr = Some false /\
    (result (uevent_cb w action u s) = Ret tt ->
     held_after nothing_held tr = Some nothing_held).
Proof.
  intros OK.
  destruct (Z.eq_dec (udev_property_as_int u "ID_V4L_VERSION") 2) as [V|V].
  2:{ rewrite (uevent_other_version w action u s V). exists [].
      rewrite app_nil_r. cbn. auto. }
  destruct (String.eqb action "add") eqn:A.
  { apply String.eqb_eq in A. subst action. rewrite (uevent_add w u s V).
    apply publish_log. }
  destruct (String.eqb action "remove") eqn:R.
  { apply String.eqb_eq in R. subst action.
    destruct OK as (ND & LT & HS).
    destruct (first_match_split (udev_sysfs_path u) _ HS)
      as [NM|(l1 & d & l2 & D & NM & Sy)].
    - rewrite (uevent_remove_no_match w u s V HS NM).
      exists [EvLock; EvUnlock]. cbn. auto.
    - rewrite (uevent_remove_match w u s l1 l2 d V (conj ND (conj LT HS)) D NM Sy).
      exists [EvLock; EvUnlock; EvDeviceRemove (obj d)]. cbn. auto. }
  unfold uevent_cb. apply Z.eqb_eq in V. rewrite V, A, R. cbn.
  exists [EvWarning action]. cbn. auto.
Qed.

Lemma uevent_lock_and_resources_witness :
  exists tr,
    log (final (uevent_cb Sample.webcam_world "remove" Sample.cam_added
                  Sample.st_cam)) = log Sample.st_cam ++ tr /\
    lock_discipline false tr = Some false /\
    (result (uevent_cb Sample.webcam_world "remove" Sample.cam_added
               Sample.st_cam) = Ret tt ->
     held_after nothing_held tr = Some nothing_held).
Proof.
  exact (uevent_lock_and_resources Sample.webcam_world "remove"
           Sample.cam_added Sample.st_cam registry_ok_st_cam).
Defined.

(** On a list with a record without syspath the lock is still held when
    the scan faults. *)
Example fault_under_lock :
  lock_discipline false
    (log (final (uevent_cb Sample.webcam_world "remove" Sample.other_removed
                   Sample.st_static))) = Some true.
Proof. reflexivity. Qed.

(* ================================================================== *)
(** ** More on the monitor thread, start and stop *)

Lemma probe_succeeds_any_name (w : World) (c : string) (name : option string)
    (s : St) :
  probe_succeeds w c = true <->
  exists d, result (gst_v4l2_device_monitor_probe_device w c name s)
            = Ret (Some d).
Proof.
  rewrite (probe_succeeds_iff w c s). split; intros [d R];
    apply probe_record_inv in R;
    destruct R as (n & fc & H & C & O & X & F & E & _).
  - rewrite (probe_success w c name s H C O X F E). cbn. eauto.
  - rewrite (probe_success w c None s H C O X F E). cbn. eauto.
Qed.

Lemma enumerate_one_run (w : World) (u : GUdevDevice) (h : St) :
  result (enumerate_one w u h) = Ret tt ->
  exists l,
    devices (final (enumerate_one w u h)) = l ++ devices h /\
    map path_and_syspath l = if publishable w u then [announced u] else [].
Proof.
  unfold publishable.
  destruct (Z.eq_dec (udev_property_as_int u "ID_V4L_VERSION") 2) as [V|V].
  - rewrite (enumerate_one_publish w u h V), publish_run.
    apply Z.eqb_eq in V. rewrite V. cbn [andb].
    pose proof (probe_succeeds_any_name w (udev_device_file u)
                  (udev_device_name u) h) as PS.
    pose proof (probe_frame w (udev_device_file u) (udev_device_name u) h) as Fr.
    pose proof (probe_record_inv w (udev_device_file u) (udev_device_name u) h)
      as Inv.
    cbv zeta in Fr.
    destruct (gst_v4l2_device_monitor_probe_device w (udev_device_file u)
                (udev_device_name u) h) as [[[d|]| |] h1];
      unfold result, final, fst, snd in *; try discriminate; intros _;
      destruct Fr as (Fd & _).
    + assert (Ps : probe_succeeds w (udev_device_file u) = true)
        by (apply PS; eauto).
      rewrite Ps. exists [set_syspath d (Some (udev_sysfs_path u))].
      cbn [devices app]. rewrite Fd. split; [reflexivity|].
      destruct (Inv d eq_refl) as (n & fc & _ & _ & _ & _ & _ & _ & ->).
      reflexivity.
    + destruct (probe_succeeds w (udev_device_file u)) eqn:Ps.
      * destruct PS as [PS _]. destruct (PS eq_refl) as [d Hd]. discriminate.
      * exists []. auto.
  - unfold enumerate_one. apply Z.eqb_neq in V. rewrite V. cbn.
    intros _. exists []. auto.
Qed.

(** The records the enumeration loop publishes, as this model lists
    them. *)
Lemma enumeration_publishes_listed (w : World) (udev : list GUdevDevice)
    (h : St) :
  result (initial_enumeration w udev h) = Ret tt ->
  exists l,
    devices (final (initial_enumeration w udev h)) = l ++ devices h /\
    map path_and_syspath l = rev (map announced (filter (publishable w) udev)).
Proof.
  unfold initial_enumeration. revert h.
  induction udev as [|u rest IH]; intros h R.
  - exists []. auto.
  - rewrite foldM_cons in *.
    destruct (enumerate_one_run w u h) as (l1 & D1 & M1).
    { destruct (enumerate_one w u h) as [[[]| |] h1]; cbn in *;
        try discriminate; reflexivity. }
    destruct (enumerate_one w u h) as [[[]| |] h1]; cbn in R, D1;
      try discriminate.
    destruct (IH h1 R) as (l2 & D2 & M2).
    exists (l2 ++ l1). rewrite D2, D1, app_assoc. split; [reflexivity|].
    rewrite map_app, M2, M1. cbn [filter].
    destruct (publishable w u); cbn [map rev]; [reflexivity|].
    now rewrite app_nil_r.
Qed.

(** X10. When the enumeration loop of the monitor thread runs to its
    end, it has added to the registry one record for each device of the
    udev answer that is of version 2 and whose node the probe accepts,
    and for no other: the new records carry the device files and sysfs
    paths of exactly those devices, and the records that were there
    before are all still there. *)
Theorem enumeration_publishes_accepted (w : World) (udev : list GUdevDevice)
    (h : St) :
  result (initial_enumeration w udev h) = Ret tt ->
  exists l,
    Permutation (devices (final (initial_enumeration w udev h)))
      (l ++ devices h) /\
    Permutation (map path_and_syspath l)
      (map announced (filter (publishable w) udev)).
Proof.
  intros R. destruct (enumeration_publishes_listed w udev h R) as (l & D & M).
  exists l. rewrite D, M. split; [apply Permutation_refl|].
  apply Permutation_sym, Permutation_rev.
Qed.

Lemma enumeration_publishes_accepted_witness :
  exists l,
    Permutation
      (devices (final (initial_enumeration Sample.webcam_world
                         [Sample.cam_version_1; Sample.cam_added;
                          Sample.other_removed] Sample.st0)))
      (l ++ devices Sample.st0) /\
    Permutation (map path_and_syspath l)
      (map announced
         (filter (publishable Sample.webcam_world)
            [Sample.cam_version_1; Sample.cam_added; Sample.other_removed])).
Proof.
  exact (enumeration_publishes_accepted Sample.webcam_world
           [Sample.cam_version_1; Sample.cam_added; Sample.other_removed]
           Sample.st0 eq_refl).
Defined.

(** X11. A start on a fresh monitor that no other call and no event
    disturbs does return: the calling thread creates context, loop and
    thread, waits, and comes back once the monitor thread has taken
    every device of the udev answer through the enumeration loop; the
    heap is then what the whole enumeration leaves, [started] is TRUE
    and the three handles are set. *)
Theorem start_on_fresh_monitor_returns (w : World) (udev : list GUdevDevice) :
  result (initial_enumeration w udev (heap init)) = Ret tt ->
  exists s,
    run (Sample.start_to_return w udev) init = Some s /\
    returned (hist s) = [CallStart] /\
    cpc (caller s) = C_idle /\
    heap s = final (initial_enumeration w udev (heap init)) /\
    mon s = mkMonitor (Some 0) (Some 1) (Some 2) true /\
    visited (hist s) = udev /\ passes (hist s) = 1 /\ lock s = None.
Proof.
  intros R. unfold Sample.start_to_return.
  rewrite run_app, start_reaches_loop, run_app.
  rewrite (enumeration_loop_runs w udev udev);
    [|reflexivity|reflexivity|reflexivity|reflexivity|exact R].
  unfold after_enumeration.
  cbn [mon lock heap fresh caller worker idle_quit crashed hist w_context
       w_loop returned signals passes queried visited app].
  rewrite start_leaves_loop.
  eexists. split; [reflexivity|].
  cbn [hist heap mon returned started visited passes caller cpc lock].
  auto 10.
Qed.

Lemma start_on_fresh_monitor_returns_witness :
  exists s,
    run (Sample.start_to_return Sample.webcam_world [Sample.cam_added]) init
    = Some s /\
    returned (hist s) = [CallStart] /\
    cpc (caller s) = C_idle /\
    heap s = final (initial_enumeration Sample.webcam_world [Sample.cam_added]
                      (heap init)) /\
    mon s = mkMonitor (Some 0) (Some 1) (Some 2) true /\
    visited (hist s) = [Sample.cam_added] /\ passes (hist s) = 1 /\
    lock s = None.
Proof.
  assert (R : result (initial_enumeration Sample.webcam_world
                        [Sample.cam_added] (heap init)) = Ret tt)
    by (vm_compute; reflexivity).
  exact (start_on_fresh_monitor_returns Sample.webcam_world
           [Sample.cam_added] R).
Defined.

(** The states with start returned as the latest call. *)
Lemma started_shape (s : Sys) :
  Inv s -> cpc (caller s) = C_idle ->
  head_is_start (returned (hist s)) = true ->
  exists c0 th,
    s = mkSys (mkMonitor (Some c0) (Some (S c0)) (Some th) true) None (heap s)
          (fresh s)
          (mkCaller C_idle (c_context (caller s)) (c_loop (caller s)))
          (mkWorker W_loop (Some c0) (Some (S c0)) []) None (crashed s)
          (hist s).
Proof.
  split_sys s. intros [A L St C Lp T Q Lo Sp P V Pa Si R]. cbn in *.
  intros -> H. cbn in *. specialize (R eq_refl). rewrite H in R.
  destruct wp; cbn in *; try discriminate.
  destruct ctx as [c0|]; cbn in *; [|discriminate].
  destruct th as [t|]; cbn in *; [|discriminate].
  destruct (Lo eq_refl) as (_ & -> & Wc). specialize (Wc eq_refl).
  rewrite (P eq_refl). subst. exists c0, t. reflexivity.
Qed.

(** X12. Calling start on a monitor that is started (start returned as
    the latest call) fails the assertion of l.328: the calling thread
    takes the lock, finds the context set, and the process is aborted
    with the monitor and the heap as they were; nothing moves any
    more. *)
Theorem start_while_started_aborts (s : Sys) :
  reachable s ->
  cpc (caller s) = C_idle -> head_is_start (returned (hist s)) = true ->
  crashed s = false ->
  exists s',
    run [L_call CallStart; L_caller; L_caller] s = Some s' /\
    crashed s' = true /\ mon s' = mon s /\ heap s' = heap s /\
    returned (hist s') = returned (hist s) /\
    forall l, step l s' = None.
Proof.
  intros Rch. pose proof (inv_reachable s Rch) as I.
  split_sys s. destruct I as [A L St C Lp T Q Lo Sp P V Pa Si R]. cbn in *.
  intros -> H ->. cbn in *. specialize (R eq_refl). rewrite H in R.
  destruct wp; cbn in *; try discriminate.
  destruct ctx as [c0|]; cbn in *; [|discriminate]. subst lk.
  eexists. split; [reflexivity|]. cbn. auto.
Qed.

Lemma reachable_start_cam : reachable (Sample.after Sample.start_cam).
Proof. exists Sample.start_cam. vm_compute. reflexivity. Defined.

Lemma start_while_started_aborts_witness :
  exists s',
    run [L_call CallStart; L_caller; L_caller] (Sample.after Sample.start_cam)
    = Some s' /\
    crashed s' = true /\ mon s' = mon (Sample.after Sample.start_cam) /\
    heap s' = heap (Sample.after Sample.start_cam) /\
    returned (hist s') = returned (hist (Sample.after Sample.start_cam)) /\
    forall l, step l s' = None.
Proof.
  assert (I : cpc (caller (Sample.after Sample.start_cam)) = C_idle)
    by (vm_compute; reflexivity).
  assert (H : head_is_start (returned (hist (Sample.after Sample.start_cam)))
              = true) by (vm_compute; reflexivity).
  assert (C : crashed (Sample.after Sample.start_cam) = false)
    by (vm_compute; reflexivity).
  exact (start_while_started_aborts (Sample.after Sample.start_cam)
           reachable_start_cam I H C).
Defined.

(** X13. Calling stop on a monitor that is not started (never started,
    or stopped by the latest call) returns at l.360 having changed
    nothing: the monitor, the heap and the monitor thread are as before.
    While the monitor is in that state and no call is made, nothing can
    happen: no statement of either thread is enabled and no event is
    dispatched. *)
Theorem stop_when_not_started_is_noop (s : Sys) :
  reachable s ->
  cpc (caller s) = C_idle -> head_is_start (returned (hist s)) = false ->
  crashed s = false ->
  (exists s',
     run [L_call CallStop; L_caller; L_caller; L_caller] s = Some s' /\
     mon s' = mon s /\ mon s = fresh_monitor /\ heap s' = heap s /\
     wpc (worker s') = wpc (worker s) /\ lock s' = None /\
     cpc (caller s') = C_idle /\
     returned (hist s') = CallStop :: returned (hist s)) /\
  (forall l s', step l s = Some s' -> exists c, l = L_call c).
Proof.
  intros Rch. pose proof (inv_reachable s Rch) as I.
  split_sys s. destruct I as [A L St C Lp T Q Lo Sp P V Pa Si R]. cbn in *.
  intros -> H ->. cbn in *. specialize (R eq_refl). rewrite H in R.
  destruct wp; cbn in *; try discriminate;
    destruct ctx, th; cbn in *; try discriminate; subst.
  - split; [eexists; split; [reflexivity|]; cbn; auto 10|].
    intros l s' E. destruct l; cbn in E; try discriminate. eauto.
  - split; [eexists; split; [reflexivity|]; cbn; auto 10|].
    intros l s' E. destruct l; cbn in E; try discriminate. eauto.
Qed.

Lemma stop_when_not_started_is_noop_witness :
  exists s',
    run [L_call CallStop; L_caller; L_caller; L_caller] init = Some s' /\
    mon s' = mon init /\ mon init = fresh_monitor /\ heap s' = heap init /\
    wpc (worker s') = wpc (worker init) /\ lock s' = None /\
    cpc (caller s') = C_idle /\
    returned (hist s') = CallStop :: returned (hist init).
Proof.
  assert (R : reachable init) by (exists []; reflexivity).
  exact (proj1 (stop_when_not_started_is_noop init R eq_refl eq_refl eq_refl)).
Defined.

Lemma stop_detaches_and_posts (c0 : nat) (th : option nat) (hp : St) (fr : nat)
    (cc cl : option nat) (wd : list GUdevDevice) (h : History) :
  run [L_call CallStop; L_caller; L_caller; L_caller; L_caller]
      (mkSys (mkMonitor (Some c0) (Some (S c0)) th true) None hp fr
         (mkCaller C_idle cc cl)
         (mkWorker W_loop (Some c0) (Some (S c0)) wd) None false h) =
  Some (mkSys (mkMonitor None None th true) None hp fr
          (mkCaller C_stop_join (Some c0) (Some (S c0)))
          (mkWorker W_loop (Some c0) (Some (S c0)) wd) (Some c0) false h).
Proof. destruct h. vm_compute. reflexivity. Qed.

Lemma idle_source_quits_loop (c0 : nat) (m : Monitor) (hp : St) (fr : nat)
    (c : Caller) (wl : option nat) (wd : list GUdevDevice) (h : History) :
  step L_idle
    (mkSys m None hp fr c (mkWorker W_loop (Some c0) wl wd) (Some c0) false h) =
  Some (mkSys m None hp fr c (mkWorker W_cleanup (Some c0) wl wd) None false h).
Proof. unfold step. cbn. now rewrite Nat.eqb_refl. Qed.

Lemma stop_joins_and_clears (th : option nat) (hp : St) (fr : nat)
    (cc cl wc wl : option nat) (wd : list GUdevDevice)
    (ret : list call) (sg ps : nat) (qd vs : list GUdevDevice) :
  run [L_worker Sample.empty_world []; L_caller; L_caller]
      (mkSys (mkMonitor None None th true) None hp fr
         (mkCaller C_stop_join cc cl) (mkWorker W_cleanup wc wl wd) None false
         (mkHistory ret sg ps qd vs)) =
  Some (mkSys fresh_monitor None hp fr (mkCaller C_idle cc cl)
          (mkWorker W_exited wc wl wd) None false
          (mkHistory (CallStop :: ret) sg ps qd vs)).
Proof. vm_compute. reflexivity. Qed.

(** X14. A stop on a started monitor, with nothing else going on,
    returns: it detaches context and loop, attaches the idle source,
    the loop of the monitor thread dispatches it and leaves
    [g_main_loop_run], the thread cleans up and exits, the join returns;
    afterwards the monitor is as a fresh one, the thread has exited, no
    idle source is pending, the lock is free and the heap is what it
    was. *)
Theorem stop_on_started_monitor_returns (s : Sys) :
  reachable s ->
  cpc (caller s) = C_idle -> head_is_start (returned (hist s)) = true ->
  crashed s = false ->
  exists s',
    run Sample.stop_to_return s = Some s' /\
    mon s' = fresh_monitor /\ heap s' = heap s /\
    wpc (worker s') = W_exited /\ idle_quit s' = None /\ lock s' = None /\
    cpc (caller s') = C_idle /\
    returned (hist s') = CallStop :: returned (hist s).
Proof.
  intros Rch Idle Hs Cr.
  destruct (started_shape s (inv_reachable s Rch) Idle Hs) as (c0 & th & E).
  rewrite Cr in E. destruct (hist s) as [ret sg ps qd vs] eqn:Eh.
  rewrite E.
  change Sample.stop_to_return with
    ([L_call CallStop; L_caller; L_caller; L_caller; L_caller] ++
     L_idle :: [L_worker Sample.empty_world []; L_caller; L_caller]).
  rewrite run_app, stop_detaches_and_posts. cbv beta iota.
  change (run (L_idle :: ?l) ?x) with
    (match step L_idle x with Some s1 => run l s1 | None => None end).
  rewrite idle_source_quits_loop. cbv beta iota.
  rewrite stop_joins_and_clears.
  eexists. split; [reflexivity|].
  cbn [mon heap worker wpc idle_quit lock caller cpc hist returned]. auto 10.
Qed.

Lemma stop_on_started_monitor_returns_witness :
  exists s',
    run Sample.stop_to_return (Sample.after Sample.start_cam) = Some s' /\
    mon s' = fresh_monitor /\ heap s' = heap (Sample.after Sample.start_cam) /\
    wpc (worker s') = W_exited /\ idle_quit s' = None /\ lock s' = None /\
    cpc (caller s') = C_idle /\
    returned (hist s') =
    CallStop :: returned (hist (Sample.after Sample.start_cam)).
Proof.
  assert (I : cpc (caller (Sample.after Sample.start_cam)) = C_idle)
    by (vm_compute; reflexivity).
  assert (H : head_is_start (returned (hist (Sample.after Sample.start_cam)))
              = true) by (vm_compute; reflexivity).
  assert (C : crashed (Sample.after Sample.start_cam) = false)
    by (vm_compute; reflexivity).
  exact (stop_on_started_monitor_returns (Sample.after Sample.start_cam)
           reachable_start_cam I H C).
Defined.

(* ================================================================== *)
(** ** The two threads: what holds in every reachable state *)

(** X15. The object lock is held by the calling thread exactly inside
    the locked regions of start (l.327-339) and stop (l.352-357), by
    the monitor thread exactly inside its own (l.269-281, l.306-309),
    and the two threads are never inside such regions at once. *)
Theorem lock_owner_in_critical_section (s : Sys) :
  reachable s ->
  (lock s = Some Caller_thread <-> caller_holds (cpc (caller s)) = true) /\
  (lock s = Some Monitor_thread <-> worker_holds (wpc (worker s)) = true) /\
  caller_holds (cpc (caller s)) && worker_holds (wpc (worker s)) = false.
Proof.
  intros Rch. pose proof (inv_reachable s Rch) as I.
  split_sys s. destruct I as [A L St C Lp T Q Lo Sp P V Pa Si R].
  cbn in *. subst lk.
  destruct pc, wp; cbn in *; try discriminate;
    (split; [split; intros; (reflexivity || discriminate)|]);
    (split; [split; intros; (reflexivity || discriminate)|]); reflexivity.
Qed.

Lemma reachable_start_in_lock :
  reachable (Sample.after Sample3.start_in_lock).
Proof. exists Sample3.start_in_lock. vm_compute. reflexivity. Defined.

Lemma lock_owner_in_critical_section_witness :
  lock (Sample.after Sample3.start_in_lock) = Some Caller_thread /\
  caller_holds (cpc (caller (Sample.after Sample3.start_in_lock))) = true.
Proof.
  assert (L : lock (Sample.after Sample3.start_in_lock) = Some Caller_thread)
    by (vm_compute; reflexivity).
  split; [exact L|].
  exact (proj1 (proj1 (lock_owner_in_critical_section
                         (Sample.after Sample3.start_in_lock)
                         reachable_start_in_lock)) L).
Defined.

(** X16. Between two calls the monitor is never half set up: the lock
    is free, no idle source is pending, and either the monitor is as
    initialised and no monitor thread is alive, or context, loop and
    thread are all set, [started] is TRUE and the thread sits in the
    loop the monitor points to; which of the two says the call that
    returned last. *)
Theorem between_calls_all_or_nothing (s : Sys) :
  reachable s -> cpc (caller s) = C_idle ->
  lock s = None /\ idle_quit s = None /\ w_devices (worker s) = [] /\
  (stopped_monitor s \/ running_monitor s).
Proof.
  intros Rch. pose proof (inv_reachable s Rch) as I.
  unfold stopped_monitor, running_monitor.
  split_sys s. destruct I as [A L St C Lp T Q Lo Sp P V Pa Si R].
  cbn in *. intros ->. cbn in *. specialize (R eq_refl).
  destruct wp; cbn in *; try discriminate; use_facts; cbn in *;
    try discriminate; subst;
    (split; [reflexivity|]); (split; [reflexivity|]);
    (split; [auto|]).
  - left. auto.
  - right. do 3 eexists.
    split; [reflexivity|]. split; [reflexivity|].
    repeat split; try congruence; auto.
  - left. auto.
Qed.

Lemma between_calls_all_or_nothing_witness :
  lock (Sample.after Sample.start_cam) = None /\
  idle_quit (Sample.after Sample.start_cam) = None /\
  w_devices (worker (Sample.after Sample.start_cam)) = [] /\
  (stopped_monitor (Sample.after Sample.start_cam) \/
   running_monitor (Sample.after Sample.start_cam)).
Proof.
  assert (I : cpc (caller (Sample.after Sample.start_cam)) = C_idle)
    by (vm_compute; reflexivity).
  exact (between_calls_all_or_nothing (Sample.after Sample.start_cam)
           reachable_start_cam I).
Defined.

(* ================================================================== *)
(** ** No call gets stuck *)

Lemma phase_zero (s : Sys) : phase s = 0 -> cpc (caller s) = C_idle.
Proof.
  unfold phase. destruct (cpc (caller s)); try discriminate; auto.
  - destruct (worker_phase (wpc (worker s))); discriminate.
  - destruct (worker_phase (wpc (worker s))); discriminate.
  - destruct (wpc (worker s)); discriminate.
Qed.

Lemma caller_pc_idle_dec (c : caller_pc) : {c = C_idle} + {c <> C_idle}.
Proof. destruct c; (now left) || (right; discriminate). Qed.

Ltac closer_done :=
  cbn; unfold progress, closer, call_over, phase, pending, worker_phase; cbn;
  first [ left; split; [reflexivity|]; lia
        | right; split; [reflexivity|]; auto 6 ].

(** In a state with a call in progress one of the caller, the main loop
    and the monitor thread can move, and the move brings the call
    closer to its end; where it is the monitor thread's, it does so
    whatever namespace and udev answer the thread meets. *)
Lemma step_closer (s : Sys) :
  Inv s -> crashed s = false -> cpc (caller s) <> C_idle ->
  (exists s', step L_caller s = Some s' /\ progress s s') \/
  (exists s', step L_idle s = Some s' /\ progress s s') \/
  (forall w udev, exists s', step (L_worker w udev) s = Some s' /\
                             progress s s').
Proof.
  split_sys s. intros [A L St C Lp T Q Lo Sp P V Pa Si R].
  cbn in *. intros -> NI. subst lk.
  destruct pc; try congruence; clear NI.
  all: destruct wp; cbn in A; try discriminate A.
  all: unfold step, caller_step, worker_step, lock_free; cbn.
  all: cbn in *; use_facts; cbn in *; try discriminate.
  all: try rewrite Nat.eqb_refl.
  all: try (left; eexists; split; [reflexivity|]; closer_done).
  all: try (right; left; eexists; split; [reflexivity|]; closer_done).
  all: try (right; right; intros w udev; eexists; split; [reflexivity|];
            closer_done).
  right. right. intros w udev. destruct wd as [|u rest].
  - eexists; split; [reflexivity|]. closer_done.
  - unfold run_on_heap. cbn.
    destruct (enumerate_one w u hp) as [[[]| |] h']; cbn;
      (eexists; split; [reflexivity|]); closer_done.
Qed.

Lemma finishes_by_rank :
  forall p n s, phase s = p -> pending s = n ->
    Inv s -> crashed s = false -> finishes s.
Proof.
  induction p as [p IHp] using lt_wf_ind.
  induction n as [n IHn] using lt_wf_ind.
  intros s Ep En I Cr.
  destruct (caller_pc_idle_dec (cpc (caller s))) as [Id|NId].
  { apply fin_over. left. now split. }
  assert (Go : forall s', progress s s' -> Inv s' -> finishes s').
  { intros s' [[Cr' [Lt|[Eq Lt]]]|[_ Ov]] I'.
    - apply (IHp (phase s')) with (n := pending s'); auto. lia.
    - apply (IHn (pending s')); auto; lia.
    - now apply fin_over. }
  destruct (step_closer s I Cr NId) as [(s' & E & G)|[(s' & E & G)|W]].
  - apply (@fin_caller s s' E). apply Go; [exact G|].
    exact (inv_step L_caller s s' I E).
  - apply (@fin_idle s s' E). apply Go; [exact G|].
    exact (inv_step L_idle s s' I E).
  - apply fin_worker.
    + intros w udev. destruct (W w udev) as (s' & E & _). rewrite E.
      discriminate.
    + intros w udev s' E. destruct (W w udev) as (s1 & E1 & G).
      rewrite E in E1. injection E1 as <-. apply Go; [exact G|].
      exact (inv_step (L_worker w udev) s s' I E).
Qed.

(** X17. No reachable state is a dead end for the call in progress:
    the calling thread, the monitor thread and its main loop can go on
    by themselves, without a further call or uevent, and whatever
    device namespace and udev answer the monitor thread meets on the
    way, until the call is over: it returns, or start fails its
    assertion (l.328), or the enumeration loop runs into the assertion
    of [gst_v4l2_device_new] while start waits. *)
Theorem call_in_progress_can_end (s : Sys) :
  reachable s -> crashed s = false -> finishes s.
Proof.
  intros Rch Cr.
  exact (finishes_by_rank (phase s) (pending s) s eq_refl eq_refl
           (inv_reachable s Rch) Cr).
Qed.

Lemma reachable_start_in_enumeration :
  reachable (Sample.after Sample3.start_in_enumeration).
Proof. exists Sample3.start_in_enumeration. vm_compute. reflexivity. Defined.

Lemma call_in_progress_can_end_witness :
  finishes (Sample.after Sample3.start_in_enumeration).
Proof.
  assert (C : crashed (Sample.after Sample3.start_in_enumeration) = false)
    by (vm_compute; reflexivity).
  exact (call_in_progress_can_end
           (Sample.after Sample3.start_in_enumeration)
           reachable_start_in_enumeration C).
Defined.

(* ================================================================== *)
(** ** What a uevent can do to the running monitor *)

Lemma uevent_outcome (w : World) (action : string) (u : GUdevDevice)
    (s : St) :
  registry_ok s ->
  (result (uevent_cb w action u s) = Ret tt /\
   ~ (action = "add" /\ version_2 u /\
      unclassifiable w (udev_device_file u) = true)) \/
  (result (uevent_cb w action u s) = Abort /\
   action = "add" /\ version_2 u /\
   unclassifiable w (udev_device_file u) = true).
Proof.
  intros OK.
  destruct (Z.eq_dec (udev_property_as_int u "ID_V4L_VERSION") 2) as [V|NV].
  - destruct (String.eqb action "add") eqn:Ea.
    + apply String.eqb_eq in Ea. subst action.
      rewrite (uevent_add w u s V), publish_run.
      pose proof (probe_abort_iff w (udev_device_file u) (udev_device_name u) s)
        as Ab.
      pose proof (probe_outcome w (udev_device_file u) (udev_device_name u) s)
        as Out. cbv zeta in Out.
      destruct (gst_v4l2_device_monitor_probe_device w (udev_device_file u)
                  (udev_device_name u) s) as [[[d|]| |] s1]; cbn in *.
      * left. split; [reflexivity|]. intros (_ & _ & U).
        apply Ab in U. discriminate.
      * left. split; [reflexivity|]. intros (_ & _ & U).
        apply Ab in U. discriminate.
      * right. repeat split; auto. now apply Ab.
      * destruct Out as [O|[[d O]|O]]; discriminate.
    + left. split.
      * destruct (String.eqb action "remove") eqn:Er.
        -- apply String.eqb_eq in Er. subst action.
           destruct OK as (ND & Lt & HS).
           destruct (first_match_split (udev_sysfs_path u) _ HS)
             as [NM|(l1 & d & l2 & D & NM & Sy)].
           ++ now rewrite (uevent_remove_no_match w u s V HS NM).
           ++ now rewrite (uevent_remove_match w u s l1 l2 d V
                             (conj ND (conj Lt HS)) D NM Sy).
        -- unfold uevent_cb. rewrite V, Ea, Er. reflexivity.
      * intros (-> & _). discriminate.
  - left. split.
    + now rewrite (uevent_other_version w action u s NV).
    + intros (_ & V & _). contradiction.
Qed.

(** X18. A uevent dispatched by the loop of the running monitor touches
    the heap alone, and it ends the process in one case only: an add of
    a version-2 device whose node answers the capability query with
    neither capture nor output and yet offers formats, where
    [gst_v4l2_device_new] runs into [g_assert_not_reached].  Remove
    events, events of other versions and unknown actions never do. *)
Theorem dispatched_uevent_crash_iff (s s' : Sys) (w : World) (action : string)
    (u : GUdevDevice) :
  reachable s -> step (L_uevent w action u) s = Some s' ->
  (crashed s' = true <->
   action = "add" /\ version_2 u /\
   unclassifiable w (udev_device_file u) = true) /\
  heap s' = final (uevent_cb w action u (heap s)) /\
  mon s' = mon s /\ lock s' = lock s /\ caller s' = caller s /\
  worker s' = worker s /\ idle_quit s' = idle_quit s.
Proof.
  intros Rch E.
  pose proof (uevent_outcome w action u (heap s)
                (registry_ok_reachable s Rch)) as Out.
  unfold step in E. destruct (crashed s) eqn:Cr; [discriminate|].
  destruct (wpc (worker s)); try discriminate.
  destruct (lock_free s); [|discriminate].
  injection E as <-. unfold run_on_heap, result, final in *.
  destruct (uevent_cb w action u (heap s)) as [[[]| |] h]; cbn in *.
  - destruct Out as [[_ N]|[Ab _]]; [|discriminate].
    rewrite Cr. split; [|auto 10]. split; [discriminate|]. intros U.
    now destruct N.
  - destruct Out as [[R _]|[_ U]]; [discriminate|].
    split; [|auto 10]. split; auto.
  - destruct Out as [[R _]|[R _]]; discriminate.
Qed.

Lemma dispatched_uevent_crash_iff_witness :
  exists s',
    step (L_uevent Sample.m2m_world "add" Sample3.scaler_added)
      (Sample.after Sample.start_cam) = Some s' /\
    crashed s' = true.
Proof.
  assert (E : step (L_uevent Sample.m2m_world "add" Sample3.scaler_added)
                (Sample.after Sample.start_cam)
              = Some (set_crashed
                        (set_heap (Sample.after Sample.start_cam)
                           (final (uevent_cb Sample.m2m_world "add"
                                     Sample3.scaler_added
                                     (heap (Sample.after Sample.start_cam)))))))
    by (vm_compute; reflexivity).
  eexists. split; [exact E|].
  apply (proj1 (dispatched_uevent_crash_iff _ _ Sample.m2m_world "add"
                  Sample3.scaler_added reachable_start_cam E)).
  repeat split.
Defined.

(* ================================================================== *)
(** ** The stop of the parent class, and a start after it *)

Lemma stopped_only_calls (l : label) (s s' : Sys) :
  Inv s -> cpc (caller s) = C_idle -> in_loop (wpc (worker s)) = false ->
  step l s = Some s' -> is_call l = true.
Proof.
  split_sys s. intros [A L St C Lp T Q Lo Sp P V Pa Si R]. cbn in *.
  intros -> NL E. unfold step in E. cbn in E. destruct cr; [discriminate|].
  destruct l; [reflexivity| | | |]; cbn in E; try discriminate;
    unfold worker_step in E; destruct wp; cbn in *; discriminate.
Qed.

Lemma stop_returns_dead (l : label) (s s' : Sys) :
  Inv s -> step l s = Some s' -> stop_returns s s' = true ->
  cpc (caller s') = C_idle /\ in_loop (wpc (worker s')) = false.
Proof.
  intros I E SR. pose proof (inv_step l s s' I E) as I'.
  assert (Id : cpc (caller s') = C_idle).
  { unfold stop_returns in SR.
    destruct (cpc (caller s)), (cpc (caller s')); try discriminate;
      reflexivity. }
  split; [exact Id|].
  assert (H : head_is_start (returned (hist s')) = false).
  { revert SR E. clear. split_sys s. unfold stop_returns, step. cbn.
    destruct cr; [intros _ E; discriminate E|].
    destruct l; cbn; intros SR E.
    - destruct pc; try discriminate; injection E as <-; destruct c;
        discriminate.
    - unfold caller_step, lock_free in E. cbn in E.
      destruct pc; try discriminate; cbn in E;
        repeat match type of E with
               | context [match ?x with _ => _ end] => destruct x
               end; try discriminate; injection E as <-; cbn in *;
        try discriminate; reflexivity.
    - unfold worker_step, lock_free in E. cbn in E.
      destruct pc; try discriminate;
        destruct wp; cbn in E;
        repeat match type of E with
               | context [match ?x with _ => _ end] => destruct x
               end; try discriminate; injection E as <-;
        unfold run_on_heap in SR; cbn in SR;
        try match type of SR with
            | context [enumerate_one ?w ?u ?h] =>
                destruct (enumerate_one w u h) as [[[]| |] ?]
            end; cbn in SR; discriminate.
    - destruct pc; try discriminate;
        destruct wp; try discriminate; unfold lock_free in E; cbn in E;
        destruct lk; try discriminate; injection E as <-;
        unfold run_on_heap in SR; cbn in SR;
        destruct (uevent_cb w action device hp) as [[[]| |] h']; cbn in SR;
        discriminate.
    - destruct pc; try discriminate;
        destruct wp; try discriminate;
        destruct (opt_nat_eqb iq wc); try discriminate;
        injection E as <-; cbn in *; discriminate. }
  destruct I' as [_ _ _ _ _ _ _ _ _ _ _ _ _ R]. rewrite Id in R.
  rewrite <- (R eq_refl). exact H.
Qed.

Lemma rest_step (l : label) (s s' : Sys) :
  Inv s ->
  (in_loop (wpc (worker s)) = false -> at_rest (cpc (caller s)) = true ->
   devices (heap s) = [] /\ crashed s = false) ->
  step l s = Some s' -> stop_returns s s' = false ->
  in_loop (wpc (worker s')) = false -> at_rest (cpc (caller s')) = true ->
  devices (heap s') = [] /\ crashed s' = false.
Proof.
  split_sys s. intros [A L St C Lp T Q Lo Sp P V Pa Si R] J E.
  unfold stop_returns, step in *. cbn in *.
  destruct cr; [discriminate|].
  destruct l; cbn in E.
  - destruct pc; try discriminate. injection E as <-.
    destruct c; cbn; intros _ NL _; apply J; auto.
  - unfold caller_step, lock_free in E. cbn in E.
    destruct pc; try discriminate; cbn in E;
      repeat match type of E with
             | context [match ?x with _ => _ end] => destruct x eqn:?
             end; try discriminate; injection E as <-; cbn in *;
      intros SR NL AR; try discriminate; try (apply J; auto; fail).
    all: destruct wp; cbn in *; discriminate.
  - unfold worker_step, lock_free in E. cbn in E. intros SR NL AR.
    destruct wp; cbn in E; try discriminate;
      repeat match type of E with
             | context [match ?x with _ => _ end] => destruct x eqn:?
             end; try discriminate; injection E as <-;
      unfold run_on_heap in *; cbn in *;
      try match type of NL with
          | context [enumerate_one ?w ?u ?h] =>
              destruct (enumerate_one w u h) as [[[]| |] ?]
          end; cbn in *;
      try discriminate; destruct pc; cbn in *; discriminate.
  - intros SR NL AR. destruct wp; try discriminate.
    unfold lock_free in E. cbn in E. destruct lk; try discriminate.
    injection E as <-. unfold run_on_heap in NL. cbn in NL.
    destruct (uevent_cb w action device hp) as [[[]| |] h']; cbn in NL;
      discriminate.
  - intros SR NL AR. destruct wp; try discriminate.
    destruct (opt_nat_eqb iq wc) eqn:Eq; try discriminate.
    injection E as <-. cbn in *.
    destruct pc; cbn in *; try discriminate; subst iq; discriminate.
Qed.

Lemma inv_set_heap (s : Sys) (h : St) : Inv s -> Inv (set_heap s h).
Proof. intros []. constructor; assumption. Qed.

Lemma pinv_init : PInv pinit.
Proof.
  constructor; cbn.
  - exact inv_init.
  - discriminate.
  - auto.
Qed.

Lemma pinv_step (l : plabel) (s s' : PSys) :
  PInv s -> pstep l s = Some s' -> PInv s'.
Proof.
  intros [I D J] E. destruct l as [l|]; cbn in E.
  - destruct (p_draining s) eqn:Dr; cbn in E.
    + destruct (is_call l) eqn:Ic; [discriminate|].
      destruct (step l (p_sys s)) as [s1|] eqn:E1; [|discriminate].
      destruct (D eq_refl) as (Id & NL).
      rewrite (stopped_only_calls l (p_sys s) s1 I Id NL E1) in Ic.
      discriminate.
    + destruct (step l (p_sys s)) as [s1|] eqn:E1; [|discriminate].
      injection E as <-. constructor; cbn.
      * exact (inv_step l (p_sys s) s1 I E1).
      * intros SR. exact (stop_returns_dead l (p_sys s) s1 I E1 SR).
      * intros SR. exact (rest_step l (p_sys s) s1 I (J eq_refl) E1 SR).
  - destruct (p_draining s) eqn:Dr; [|discriminate].
    destruct (crashed (p_sys s)) eqn:Cr; [discriminate|].
    destruct (lock_free (p_sys s)); [|discriminate].
    cbn in E. injection E as <-. constructor; cbn.
    + unfold run_on_heap. cbn. now apply inv_set_heap.
    + discriminate.
    + intros _ _ _. unfold run_on_heap. cbn. now split.
Qed.

Lemma pinv_reachable (s : PSys) : preachable s -> PInv s.
Proof.
  intros [sched R].
  assert (G : forall sched s0, PInv s0 -> prun sched s0 = Some s -> PInv s).
  { clear. induction sched as [|l sched IH]; intros s0 I R; cbn in R.
    - injection R as <-. exact I.
    - destruct (pstep l s0) as [s1|] eqn:E; [|discriminate].
      apply (IH s1); [|exact R]. exact (pinv_step l s0 s1 I E). }
  exact (G sched pinit pinv_init R).
Qed.

(** A start on a monitor at rest, with nothing else going on: up to the
    enumeration loop, and from its end to the return. *)
Lemma start_reaches_loop_from (w : World) (udev : list GUdevDevice) (hp : St)
    (fr : nat) (cc cl : option nat) (wk : Worker) (h : History) :
  run [L_call CallStart; L_caller; L_caller; L_caller;
       L_worker w udev; L_worker w udev; L_worker w udev]
      (mkSys fresh_monitor None hp fr (mkCaller C_idle cc cl) wk None false h)
  = Some (mkSys (mkMonitor (Some fr) (Some (S fr)) (Some (S (S fr))) false)
            None hp (S (S (S fr))) (mkCaller C_start_wait cc cl)
            (mkWorker W_enum (Some fr) (Some (S fr)) udev) None false
            (mkHistory (returned h) (signals h) (passes h) udev [])).
Proof. destruct wk, h. vm_compute. reflexivity. Qed.

Lemma start_leaves_loop_from (w : World) (udev : list GUdevDevice) (hp : St)
    (fr : nat) (m : Monitor) (cc cl : option nat) (c l : nat)
    (ret : list call) (sg ps : nat) (qd vs : list GUdevDevice) :
  run [L_worker w udev; L_worker w udev; L_worker w udev;
       L_caller; L_caller; L_caller]
      (mkSys (mkMonitor (context m) (loop m) (thread m) false) None hp fr
         (mkCaller C_start_wait cc cl)
         (mkWorker W_enum (Some c) (Some l) []) None false
         (mkHistory ret sg ps qd vs))
  = Some (mkSys (mkMonitor (context m) (loop m) (thread m) true) None hp fr
            (mkCaller C_idle cc cl)
            (mkWorker W_loop (Some c) (Some l) []) None false
            (mkHistory (CallStart :: ret) (S sg) (S ps) qd vs)).
Proof. destruct m. vm_compute. reflexivity. Qed.

(** The states with the monitor at rest between two calls. *)
Lemma rest_shape (s : Sys) :
  Inv s -> cpc (caller s) = C_idle -> in_loop (wpc (worker s)) = false ->
  s = mkSys fresh_monitor None (heap s) (fresh s)
        (mkCaller C_idle (c_context (caller s)) (c_loop (caller s)))
        (worker s) None (crashed s) (hist s).
Proof.
  split_sys s. intros [A L St C Lp T Q Lo Sp P V Pa Si R]. cbn in *.
  intros -> NL.
  destruct wp; try discriminate; cbn in *;
    destruct ctx, th; cbn in *; try discriminate; subst; reflexivity.
Qed.

Lemma start_from_rest (w : World) (udev : list GUdevDevice) (s : Sys) :
  Inv s -> cpc (caller s) = C_idle -> in_loop (wpc (worker s)) = false ->
  crashed s = false ->
  result (initial_enumeration w udev (heap s)) = Ret tt ->
  exists s1,
    run (Sample.start_to_return w udev) s = Some s1 /\
    heap s1 = final (initial_enumeration w udev (heap s)) /\
    returned (hist s1) = CallStart :: returned (hist s) /\
    cpc (caller s1) = C_idle /\
    observable_started s1 = (true, true, true, true).
Proof.
  intros I Id NL Cr En. eexists. split.
  { etransitivity;
      [apply (f_equal (run (Sample.start_to_return w udev))),
             (rest_shape s I Id NL)|].
    rewrite Cr. unfold Sample.start_to_return.
    rewrite run_app, start_reaches_loop_from, run_app.
    rewrite (enumeration_loop_runs w udev udev);
      [|reflexivity|reflexivity|reflexivity|reflexivity|exact En].
    unfold after_enumeration.
    cbn [mon lock heap fresh caller worker idle_quit crashed hist w_context
         w_loop returned signals passes queried visited app].
    rewrite (start_leaves_loop_from w udev _ _
               (mkMonitor (Some (fresh s)) (Some (S (fresh s)))
                  (Some (S (S (fresh s)))) false)).
    reflexivity. }
  cbn. auto.
Qed.

(** The loop body publishes the same records, their addresses apart, in
    whatever state it runs. *)
Lemma enumerate_one_two_states (w : World) (u : GUdevDevice) (h1 h2 : St) :
  result (enumerate_one w u h1) = result (enumerate_one w u h2) /\
  exists l1 l2,
    devices (final (enumerate_one w u h1)) = l1 ++ devices h1 /\
    devices (final (enumerate_one w u h2)) = l2 ++ devices h2 /\
    map fields l1 = map fields l2.
Proof.
  destruct (Z.eq_dec (udev_property_as_int u "ID_V4L_VERSION") 2) as [V|V].
  - rewrite !(enumerate_one_publish w u _ V), !publish_run.
    destruct (probe_cases w (udev_device_file u)) as
      [H|n H C|n H C O|n H C O A B|n H C O AB F|n c H C O AB F E
      |n c H C O A B F E|n c H C O X F E].
    + rewrite !(probe_stat_fails w _ (udev_device_name u) _ H).
      split; [reflexivity|]. exists [], []. auto.
    + rewrite !(probe_not_chr w _ (udev_device_name u) _ H C).
      split; [reflexivity|]. exists [], []. auto.
    + rewrite !(probe_open_fails w _ (udev_device_name u) _ H C O).
      split; [reflexivity|]. exists [], []. auto.
    + rewrite !(probe_combo w _ (udev_device_name u) _ H C O A B).
      split; [reflexivity|]. exists [], []. auto.
    + rewrite !(probe_no_caps w _ (udev_device_name u) _ H C O AB F).
      split; [reflexivity|]. exists [], []. auto.
    + rewrite !(probe_empty_caps w _ (udev_device_name u) _ H C O AB F E).
      split; [reflexivity|]. exists [], []. auto.
    + pose proof (probe_no_direction w _ (udev_device_name u) h1 H C O A B F E)
        as R1.
      pose proof (probe_no_direction w _ (udev_device_name u) h2 H C O A B F E)
        as R2.
      pose proof (probe_frame w (udev_device_file u) (udev_device_name u) h1)
        as (F1 & _).
      pose proof (probe_frame w (udev_device_file u) (udev_device_name u) h2)
        as (F2 & _).
      destruct (gst_v4l2_device_monitor_probe_device w (udev_device_file u)
                  (udev_device_name u) h1) as [[[d1|]| |] k1];
        try discriminate.
      destruct (gst_v4l2_device_monitor_probe_device w (udev_device_file u)
                  (udev_device_name u) h2) as [[[d2|]| |] k2];
        try discriminate.
      split; [reflexivity|]. exists [], []. cbn in *. auto.
    + rewrite !(probe_success w _ (udev_device_name u) _ H C O X F E).
      split; [reflexivity|]. cbn.
      eexists [_], [_]. split; [reflexivity|]. split; reflexivity.
  - unfold enumerate_one. apply Z.eqb_neq in V. rewrite V.
    split; [reflexivity|]. exists [], []. auto.
Qed.

Lemma initial_enumeration_two_states (w : World) (udev : list GUdevDevice) :
  forall h1 h2,
    result (initial_enumeration w udev h1)
    = result (initial_enumeration w udev h2) /\
    exists l1 l2,
      devices (final (initial_enumeration w udev h1)) = l1 ++ devices h1 /\
      devices (final (initial_enumeration w udev h2)) = l2 ++ devices h2 /\
      map fields l1 = map fields l2.
Proof.
  unfold initial_enumeration.
  induction udev as [|u rest IH]; intros h1 h2.
  - split; [reflexivity|]. exists [], []. auto.
  - rewrite !foldM_cons.
    destruct (enumerate_one_two_states w u h1 h2)
      as (R & l1 & l2 & D1 & D2 & F).
    destruct (enumerate_one w u h1) as [[[]| |] k1],
             (enumerate_one w u h2) as [[[]| |] k2];
      cbn in R, D1, D2; try discriminate.
    + destruct (IH k1 k2) as (R' & m1 & m2 & E1 & E2 & G).
      split; [exact R'|]. exists (m1 ++ l1), (m2 ++ l2).
      rewrite E1, E2, D1, D2, !app_assoc, !map_app, F, G. auto.
    + split; [reflexivity|]. exists l1, l2. auto.
    + split; [reflexivity|]. exists l1, l2. auto.
Qed.

(** C7. When the stop of the parent class has returned as the latest
    call, the monitor is in the observable state of a monitor freshly
    constructed and never started: context, loop and thread handles are
    cleared, the started flag is FALSE and no entry is left in the
    registry.  A start that follows does what a start on a fresh
    monitor does when udev reports the same devices: it returns with
    the handles set and the flag TRUE, and the registry holds the
    records of that enumeration and no other, the same, their addresses
    apart, as after the start on the fresh monitor. *)
Theorem stop_then_start_as_fresh (s : PSys) :
  preachable s ->
  p_draining s = false -> cpc (caller (p_sys s)) = C_idle ->
  hd_error (returned (hist (p_sys s))) = Some CallStop ->
  observable (p_sys s) = observable init /\
  forall w udev,
    result (initial_enumeration w udev (heap init)) = Ret tt ->
    exists s1 s0,
      run (Sample.start_to_return w udev) (p_sys s) = Some s1 /\
      run (Sample.start_to_return w udev) init = Some s0 /\
      returned (hist s1) = CallStart :: returned (hist (p_sys s)) /\
      cpc (caller s1) = C_idle /\
      observable_started s1 = observable_started s0 /\
      Permutation (map fields (devices (heap s1)))
        (map fields (devices (heap s0))).
Proof.
  intros Rch Dr Id Hd. destruct (pinv_reachable s Rch) as [I _ J].
  assert (NL : in_loop (wpc (worker (p_sys s))) = false).
  { destruct I as [_ _ _ _ _ _ _ _ _ _ _ _ _ R]. rewrite Id in R.
    rewrite <- (R eq_refl).
    destruct (returned (hist (p_sys s))) as [|[] ?]; try discriminate.
    reflexivity. }
  assert (AR : at_rest (cpc (caller (p_sys s))) = true) by now rewrite Id.
  destruct (J Dr NL AR) as (De & Cr).
  split.
  - unfold observable. rewrite De.
    rewrite (rest_shape (p_sys s) I Id NL). reflexivity.
  - intros w udev En.
    destruct (initial_enumeration_two_states w udev (heap (p_sys s))
                (heap init)) as (R & l1 & l2 & D1 & D2 & F).
    rewrite En in R.
    destruct (start_from_rest w udev (p_sys s) I Id NL Cr R)
      as (s1 & R1 & H1 & Rt1 & Id1 & O1).
    destruct (start_from_rest w udev init inv_init eq_refl eq_refl eq_refl En)
      as (s0 & R0 & H0 & _ & _ & O0).
    exists s1, s0. split; [exact R1|]. split; [exact R0|].
    split; [exact Rt1|]. split; [exact Id1|].
    split; [now rewrite O1, O0|].
    rewrite H1, H0, D1, D2, De. cbn [heap init devices].
    rewrite !app_nil_r, F. apply Permutation_refl.
Qed.

Lemma preachable_start_stop_drain :
  preachable (Sample4.pafter Sample4.start_stop_drain).
Proof. exists Sample4.start_stop_drain. vm_compute. reflexivity. Defined.

Lemma stop_then_start_as_fresh_witness :
  let s := Sample4.pafter Sample4.start_stop_drain in
  returned (hist (p_sys s)) = [CallStop; CallStart] /\
  observable (p_sys s) = observable init.
Proof.
  assert (R : returned (hist (p_sys (Sample4.pafter Sample4.start_stop_drain)))
              = [CallStop; CallStart]) by (vm_compute; reflexivity).
  assert (D : p_draining (Sample4.pafter Sample4.start_stop_drain) = false)
    by (vm_compute; reflexivity).
  assert (I : cpc (caller (p_sys (Sample4.pafter Sample4.start_stop_drain)))
              = C_idle) by (vm_compute; reflexivity).
  assert (H : hd_error
                (returned (hist (p_sys (Sample4.pafter
                                          Sample4.start_stop_drain))))
              = Some CallStop) by (vm_compute; reflexivity).
  split; [exact R|].
  exact (proj1 (stop_then_start_as_fresh
                  (Sample4.pafter Sample4.start_stop_drain)
                  preachable_start_stop_drain D I H)).
Defined.

(* ================================================================== *)
(** ** The system with a second thread: what it keeps *)
























